(** * Load-generation scripts: bounded-retry request runner and batch driver

    A shallow embedding of the stress-test scripts

      - [scripts/livepeer/imageStressTest.ts]   (module [ImageScript])
      - [scripts/livepeer/dualStressTest.ts]    (module [Dual])
      - [tests/imageStressTest.ts]              (modules [Simple], [LlmRetry])

    Every script is an [async] function that awaits HTTP calls and timers,
    appends to log files and prints to the console.  The embedding threads an
    explicit world (clock, observable trace, module-level globals) through a
    small monad with exceptions and process exit.  The remote endpoint is an
    oracle: for every attempt of an invocation it says how long the call takes
    and whether it is answered or rejected.

    Conventions of the model:

      - Time.  Synchronous code takes no time.  An [await] advances the clock
        of its invocation by what the oracle dictates: the latency of a call,
        or the delay of a timer plus a lag.  Latencies and lags are natural
        numbers, so a clock never runs backwards.
      - Concurrency.  The event loop is single-threaded: an invocation touches
        the log files and the statistics only in the synchronous stretch
        after its last [await], so a batch is the list of its invocations in
        the order in which they settle, each on its own time line.
      - Responses are JSON objects as the gateways send them: [images] is
        absent or an array of [{url}].
      - Files.  Writing and appending to log files succeeds; the prompts file
        may be missing; saving a downloaded image may fail.
      - Text.  A template string is kept as its fixed text or as a record of
        the values it interpolates; runs of [console.log] calls that only
        print the configuration are kept as one line.
      - Counts.  The number of requests of a batch is an integer.  The
        scripts obtain it with [Number(..)], which also yields fractions,
        infinities and NaN, and build the batch with [Array.from], which
        throws a [RangeError] for a length of 2^32 or more, or with a [for]
        loop that fills an array.  The model is exact for integers below
        2^32 and is to be read for those; the statements on the summary and
        on the exit status carry the bound as a hypothesis. *)

From Stdlib Require Import ZArith NArith QArith List String Ascii Bool Lia Arith.
Import ListNotations.
Local Open Scope string_scope.
Local Open Scope list_scope.
Local Open Scope Z_scope.

(** ** JavaScript strings and the regular expressions of the prompt readers *)

Module JsString.

(** A string is a sequence of UTF-16 code units. *)
Definition jsstring := list N.

Definition units (s : string) : jsstring :=
  map N_of_ascii (list_ascii_of_string s).

(** ECMAScript LineTerminator: LF, CR, LS, PS. *)
Definition is_line_terminator (c : N) : bool :=
  ((c =? 10) || (c =? 13) || (c =? 8232) || (c =? 8233))%N.

(** ECMAScript WhiteSpace: TAB, VT, FF, SP, NBSP, ZWNBSP and the space
    separators. *)
Definition is_white_space (c : N) : bool :=
  ((c =? 9) || (c =? 11) || (c =? 12) || (c =? 32) || (c =? 160)
   || (c =? 5760) || ((8192 <=? c) && (c <=? 8202)) || (c =? 8239)
   || (c =? 8287) || (c =? 12288) || (c =? 65279))%N.

(** The class [\s], also the set stripped by [String.prototype.trim]. *)
Definition is_space (c : N) : bool := is_white_space c || is_line_terminator c.

(** The class [.]: with flag [s] every code unit, otherwise every code unit
    but the line terminators. *)
Definition dot (dotAll : bool) (c : N) : bool :=
  dotAll || negb (is_line_terminator c).

Fixpoint trimStart (s : jsstring) : jsstring :=
  match s with
  | [] => []
  | c :: s' => if is_space c then trimStart s' else s
  end.

(** [s.trim()] *)
Definition trim (s : jsstring) : jsstring :=
  rev (trimStart (rev (trimStart s))).

Fixpoint eqb (s t : jsstring) : bool :=
  match s, t with
  | [], [] => true
  | c :: s', d :: t' => (c =? d)%N && eqb s' t'
  | _, _ => false
  end.

(** [s.startsWith(p)], returning what follows the prefix. *)
Fixpoint strip_prefix (p s : jsstring) : option jsstring :=
  match p, s with
  | [], _ => Some s
  | c :: p', d :: s' => if (c =? d)%N then strip_prefix p' s' else None
  | _ :: _, [] => None
  end.

End JsString.

(** A backtracking matcher for the fragment of ECMAScript regular expressions
    that the scripts use: literals, [\s*], a capturing group around [.*] or
    [.*?], alternation, positive lookahead and [$].  A matcher receives the
    input from the current position on, the text of group 1 so far, and the
    continuation that matches the rest of the pattern; alternatives are tried
    in priority order and the first that lets the continuation succeed wins. *)
Module Regex.
Import JsString.

Definition Cont := jsstring -> jsstring -> option jsstring.
Definition Matcher := jsstring -> jsstring -> Cont -> option jsstring.

Definition orelse (a b : option jsstring) : option jsstring :=
  match a with
  | Some r => Some r
  | None => b
  end.

(** A literal string. *)
Definition lit (p : jsstring) : Matcher :=
  fun input cap k =>
    match strip_prefix p input with
    | Some rest => k rest cap
    | None => None
    end.

(** [c*] for a character class [c]: as many as possible first. *)
Fixpoint star (c : N -> bool) (input : jsstring) (cap : jsstring) (k : Cont)
    : option jsstring :=
  match input with
  | x :: rest =>
    if c x then orelse (star c rest cap k) (k input cap) else k input cap
  | [] => k [] cap
  end.

(** Capturing group 1 around the greedy star of a class [c]; [acc] is what the group
    has consumed so far. *)
Fixpoint group_greedy_from (c : N -> bool) (acc : jsstring) (input : jsstring)
    (k : Cont) : option jsstring :=
  match input with
  | x :: rest =>
    if c x then orelse (group_greedy_from c (acc ++ [x]) rest k) (k input acc)
    else k input acc
  | [] => k [] acc
  end.

Definition group_greedy (c : N -> bool) : Matcher :=
  fun input _ k => group_greedy_from c [] input k.

(** Capturing group 1 around the lazy star of a class [c]: as few as
    possible first. *)
Fixpoint group_lazy_from (c : N -> bool) (acc : jsstring) (input : jsstring)
    (k : Cont) : option jsstring :=
  match k input acc with
  | Some r => Some r
  | None =>
    match input with
    | x :: rest => if c x then group_lazy_from c (acc ++ [x]) rest k else None
    | [] => None
    end
  end.

Definition group_lazy (c : N -> bool) : Matcher :=
  fun input _ k => group_lazy_from c [] input k.

Definition seq (a b : Matcher) : Matcher :=
  fun input cap k => a input cap (fun rest cap' => b rest cap' k).

(** [a|b] *)
Definition alt (a b : Matcher) : Matcher :=
  fun input cap k => orelse (a input cap k) (b input cap k).

(** [(?=a)]: [a] must match here; nothing is consumed. *)
Definition lookahead (a : Matcher) : Matcher :=
  fun input cap k =>
    match a input cap (fun _ c => Some c) with
    | Some _ => k input cap
    | None => None
    end.

(** [$]: with flag [m] the end of the input or the position before a line
    terminator, otherwise the end of the input only. *)
Definition dollar (multiline : bool) : Matcher :=
  fun input cap k =>
    match input with
    | [] => k [] cap
    | x :: _ => if multiline && is_line_terminator x then k input cap else None
    end.

(** [input.match(re)] for a pattern without flag [g], reduced to what the
    scripts read from the result: [None] for [null], otherwise [match[1]].
    The pattern is tried at every start position from left to right. *)
Fixpoint exec (re : Matcher) (input : jsstring) : option jsstring :=
  match re input [] (fun _ cap => Some cap) with
  | Some cap => Some cap
  | None =>
    match input with
    | [] => None
    | _ :: rest => exec re rest
    end
  end.

Module Notations.
Infix "+++" := seq (at level 60, right associativity).
End Notations.

End Regex.

(** ** Platform primitives (Node.js, axios, fs, console) *)

Module Js.

(** A JavaScript [Error] as the scripts inspect it: [error.message] and
    [error.response?.status]. *)
Record Error := mkError { message : string; err_status : option Z }.

(** Request bodies handed to axios ([RequestPayload], [ImageRequestPayload],
    [LLMRequestPayload]). *)
Record ChatMessage := mkChat { role : string; content : JsString.jsstring }.

Inductive Payload :=
| ImagePayload (model_id : string) (prompt : JsString.jsstring)
               (width height : Z)
| LLMPayload (model : string) (messages : list ChatMessage)
             (max_tokens : Z) (stream : bool).

(** One line of a log file.  The template strings of the scripts are kept as
    records of the values they interpolate. *)
Inductive LogLine :=
| LineText (text : string)
| LineOk (requestNum retries : nat) (startTime endTime duration : Z)
         (status : option Z)
| LineFailed (requestNum : nat) (retries : option nat)
             (startTime endTime duration : Z) (error : string)
| LineSummary (counts : list (string * Z))
              (averages : list (string * option Q))
| LineError (message : string).

(** Observable effects, in the order they happen. *)
Inductive Event :=
| HttpPost (url : string) (data : Payload)
| HttpGet (url : string)
| FsMkdir (path : string)
| FsWriteLog (path : string) (line : LogLine)
| FsWriteImage (path : string)
| FsAppend (path : string) (line : LogLine)
| Timer (ms : Z)
| Stdout (text : string)
| Stderr (text : string).

(** The world of one run: wall clock in milliseconds ([Date.now()]), the trace
    of effects so far, and the module-level mutable variables of the script. *)
Record World (G : Type) := mkWorld {
  now : Z;
  trace : list Event;
  globals : G
}.
Arguments mkWorld {G} _ _ _.
Arguments now {G} _.
Arguments trace {G} _.
Arguments globals {G} _.

(** How a computation ends: with a value, with a thrown exception (a rejected
    promise), with [process.exit(code)], or by exhausting the loop budget of
    the model. *)
Inductive Result (A : Type) :=
| Ret (a : A)
| Throw (e : Error)
| Exit (code : Z)
| OutOfFuel.
Arguments Ret {A} _.
Arguments Throw {A} _.
Arguments Exit {A} _.
Arguments OutOfFuel {A}.

Definition M (G A : Type) := World G -> Result A * World G.

Definition ret {G A} (a : A) : M G A := fun w => (Ret a, w).

Definition bind {G A B} (m : M G A) (k : A -> M G B) : M G B :=
  fun w =>
    match m w with
    | (Ret a, w') => k a w'
    | (Throw e, w') => (Throw e, w')
    | (Exit c, w') => (Exit c, w')
    | (OutOfFuel, w') => (OutOfFuel, w')
    end.

(** [throw new Error(msg)] *)
Definition throw {G A} (e : Error) : M G A := fun w => (Throw e, w).

(** [try { body } catch (error) { handler }]: only exceptions are caught;
    [process.exit] is not. *)
Definition try_catch {G A} (body : M G A) (handler : Error -> M G A) : M G A :=
  fun w =>
    match body w with
    | (Throw e, w') => handler e w'
    | r => r
    end.

(** [process.exit(code)] *)
Definition process_exit {G A} (code : Z) : M G A := fun w => (Exit code, w).

Definition out_of_fuel {G A} : M G A := fun w => (OutOfFuel, w).

Definition emit {G} (e : Event) : M G unit :=
  fun w => (Ret tt, mkWorld (now w) (trace w ++ [e]) (globals w)).

Definition elapse {G} (ms : Z) : M G unit :=
  fun w => (Ret tt, mkWorld (now w + ms) (trace w) (globals w)).

(** [Date.now()] *)
Definition date_now {G} : M G Z := fun w => (Ret (now w), w).

Definition get_globals {G} : M G G := fun w => (Ret (globals w), w).

Definition modify_globals {G} (f : G -> G) : M G unit :=
  fun w => (Ret tt, mkWorld (now w) (trace w) (f (globals w))).

Definition console_log {G} (text : string) : M G unit := emit (Stdout text).
Definition console_error {G} (text : string) : M G unit := emit (Stderr text).
Definition fs_mkdirSync {G} (path : string) : M G unit := emit (FsMkdir path).
Definition fs_writeFileSync {G} (path : string) (l : LogLine) : M G unit :=
  emit (FsWriteLog path l).
Definition fs_appendFileSync {G} (path : string) (l : LogLine) : M G unit :=
  emit (FsAppend path l).

(** *** The remote endpoint

    [response.status] and [response.data.images] of an answered call; the
    images are the [url] fields of [images: [{url}]], or [None] when the body
    has no [images] member. *)
Record Response := mkResponse {
  status : Z;
  images : option (list string)
}.

(** axios resolves with a response or rejects (network error, non-2xx status,
    malformed exchange). *)
Inductive Reply :=
| Answered (r : Response)
| Rejected (e : Error).

(** Fetching and saving one derived image: how long the GET takes, whether it
    is answered, and whether [fs.writeFileSync] of the bytes succeeds. *)
Record ImageIO := mkImageIO {
  fetch_latency : N;
  fetch_ok : bool;
  save_ok : bool
}.

(** What the world does to one attempt of one invocation: latency and reply of
    the POST, the behaviour of each image download (by index), and how late
    the single timer of the attempt fires. *)
Record Attempt := mkAttempt {
  latency : N;
  reply : Reply;
  image_io : nat -> ImageIO;
  timer_lag : N
}.

(** The behaviour of the endpoint towards one invocation, by attempt number. *)
Definition Endpoint := nat -> Attempt.

Definition timeout_error : Error :=
  mkError "timeout exceeded" None.

(** How one POST settles under a [timeout]: the time it takes and what axios
    hands back.  The call settles after [latency] ms, or is aborted with an
    error once [timeout] ms have passed. *)
Definition settle (timeout : Z) (a : Attempt) : Z * (Response + Error) :=
  if timeout <? Z.of_N (latency a) then (timeout, inr timeout_error)
  else (Z.of_N (latency a),
        match reply a with
        | Answered r => inl r
        | Rejected e => inr e
        end).

(** [await axios({method: 'post', url, data, timeout})] *)
Definition axios_post {G} (url : string) (data : Payload) (timeout : Z)
    (a : Attempt) : M G Response :=
  bind (emit (HttpPost url data)) (fun _ =>
  bind (elapse (fst (settle timeout a))) (fun _ =>
  match snd (settle timeout a) with
  | inl r => ret r
  | inr e => throw e
  end)).

(** The attempt ends in an error: network failure, non-2xx or timeout. *)
Definition rejected (timeout : Z) (a : Attempt) : bool :=
  match snd (settle timeout a) with
  | inl _ => false
  | inr _ => true
  end.

(** [await axios({method: 'get', url, responseType: 'arraybuffer'})], no
    timeout configured.  The bytes themselves are not modelled. *)
Definition axios_get {G} (url : string) (io : ImageIO) : M G unit :=
  bind (emit (HttpGet url)) (fun _ =>
  bind (elapse (Z.of_N (fetch_latency io))) (fun _ =>
  if fetch_ok io then ret tt
  else throw (mkError "image request failed" None))).

(** [fs.writeFileSync(imagePath, imageResponse.data)] *)
Definition fs_writeImage {G} (path : string) (io : ImageIO) : M G unit :=
  if save_ok io then emit (FsWriteImage path)
  else throw (mkError "could not write image" None).

(** Node's [setTimeout]: a delay below 1 or above 2^31-1 is set to 1. *)
Definition timer_delay (ms : Z) : Z :=
  if (ms <? 1) || (2147483647 <? ms) then 1 else ms.

(** [await new Promise(resolve => setTimeout(resolve, ms))]: the timer fires
    [lag] ms late at worst, never early. *)
Definition sleep {G} (ms : Z) (lag : N) : M G unit :=
  bind (emit (Timer ms)) (fun _ => elapse (timer_delay ms + Z.of_N lag)).

(** How control leaves one iteration of a [while] loop over a counter:
    [return a], [break], or falling through to the next test of the
    condition; the last two carry the value of the counter at that point. *)
Inductive Flow (A : Type) :=
| Return (a : A)
| Break (counter : nat)
| Next (counter : nat).
Arguments Return {A} _.
Arguments Break {A} _.
Arguments Next {A} _.

(** [for (let i = 0; i < xs.length; i++) body(i, xs[i])] *)
Fixpoint for_each {G A} (body : nat -> A -> M G unit) (i : nat) (xs : list A)
    : M G unit :=
  match xs with
  | [] => ret tt
  | x :: xs' => bind (body i x) (fun _ => for_each body (S i) xs')
  end.

(** [await Promise.all(tasks)] over invocations that were launched together:
    every invocation starts at the launch instant [t0] and lives on its own
    time line (it only sees its own waits); effects on the trace and on the
    globals are applied in the order of the list, which stands for the order
    in which the invocations settle.  The first rejection rejects the whole;
    the clock ends at the latest settling time. *)
Fixpoint join_all {G A} (t0 : Z) (tasks : list (M G A)) : M G (list A) :=
  match tasks with
  | [] => ret []
  | t :: ts =>
    fun w =>
      match t (mkWorld t0 (trace w) (globals w)) with
      | (Ret a, w1) =>
        bind (join_all t0 ts) (fun l => ret (a :: l))
             (mkWorld (Z.max (now w) (now w1)) (trace w1) (globals w1))
      | (Throw e, w1) => (Throw e, w1)
      | (Exit c, w1) => (Exit c, w1)
      | (OutOfFuel, w1) => (OutOfFuel, w1)
      end
  end.

Definition promise_all {G A} (tasks : list (M G A)) : M G (list A) :=
  fun w => join_all (now w) tasks w.

(** The invocations [xs] settle one after the other with the results [l]
    while the globals go from [g] to [g'], where [R x g a g1] says that the
    invocation [x], started with globals [g], returns [a] and leaves the
    globals [g1]. *)
Inductive Chain {G X A : Type} (R : X -> G -> A -> G -> Prop)
    : list X -> G -> list A -> G -> Prop :=
| Chain_nil (g : G) : Chain R [] g [] g
| Chain_cons (x : X) (xs : list X) (g : G) (a : A) (g1 : G) (l : list A)
             (g2 : G) :
    R x g a g1 -> Chain R xs g1 l g2 -> Chain R (x :: xs) g (a :: l) g2.

(** [Array.from({length: n}, (_, i) => f(i))] for an integer [n] below 2^32:
    the length of an array-like is clamped at 0 from below.  (For a length of
    2^32 or more [Array.from] throws a [RangeError]; see the conventions.) *)
Definition array_from {A} (n : Z) (f : nat -> A) : list A :=
  map f (seq 0 (Z.to_nat n)).

(** [fs.readFileSync(path, 'utf-8')] of a file given by its content, [None]
    when it does not exist. *)
Definition fs_readFileSync {G} (file : option JsString.jsstring)
    : M G JsString.jsstring :=
  match file with
  | Some text => ret text
  | None => throw (mkError "ENOENT: no such file or directory" None)
  end.

(** [durations.reduce((acc, cur) => acc + cur, 0) / durations.length], the
    quotient kept exact; [None] stands for the NaN of an empty array. *)
Definition average (durations : list Z) : option Q :=
  match durations with
  | [] => None
  | _ => Some (Qdiv (inject_Z (fold_left Z.add durations 0))
                     (inject_Z (Z.of_nat (List.length durations))))
  end.

(** [!s] for an optional string: true for [undefined] and for the empty
    string. *)
Definition falsy (s : option string) : bool :=
  match s with
  | None => true
  | Some u => String.eqb u ""
  end.

(** The exit status of the process whose top level is [main().catch(h)]:
    0 when the event loop drains, the argument of [process.exit], 1 for an
    unhandled rejection. *)
Definition exit_status {A} (r : Result A) : option Z :=
  match r with
  | Ret _ => Some 0
  | Exit code => Some code
  | Throw _ => Some 1
  | OutOfFuel => None
  end.

(** The time that fetching the images [i, i+1, ...] of an answered attempt
    takes, and how many of these images fail to be fetched or saved. *)
Fixpoint images_time (a : Attempt) (i : nat) (imgs : list string) : Z :=
  match imgs with
  | [] => 0
  | _ :: imgs' => Z.of_N (fetch_latency (image_io a i)) + images_time a (S i) imgs'
  end.

Fixpoint failed_images (a : Attempt) (i : nat) (imgs : list string) : nat :=
  match imgs with
  | [] => 0
  | _ :: imgs' =>
    ((if fetch_ok (image_io a i) && save_ok (image_io a i) then 0 else 1)
     + failed_images a (S i) imgs')%nat
  end.

(** The images of a response, none when the body has no [images] member. *)
Definition images_of (r : Response) : list string :=
  match images r with
  | Some imgs => imgs
  | None => []
  end.

(** The time that the first [k] attempts of an invocation take when each of
    them is rejected and followed by the retry delay. *)
Fixpoint retry_time (timeout delay : Z) (endpoint : Endpoint) (k : nat) : Z :=
  match k with
  | O => 0
  | S j =>
    retry_time timeout delay endpoint j
    + fst (settle timeout (endpoint j))
    + (timer_delay delay + Z.of_N (timer_lag (endpoint j)))
  end.

(** The time that an answered attempt takes: the POST, the downloads of
    [imgs] and the pause of one second. *)
Definition answer_time (timeout : Z) (a : Attempt) (imgs : list string) : Z :=
  fst (settle timeout a) + images_time a 0 imgs
  + (1000 + Z.of_N (timer_lag a)).

(** The images named by the answer to an attempt, none when it is rejected. *)
Definition answer_images (timeout : Z) (a : Attempt) : list string :=
  match snd (settle timeout a) with
  | inl r => images_of r
  | inr _ => []
  end.

(** The status of the answer to an attempt, none when it is rejected. *)
Definition answer_status (timeout : Z) (a : Attempt) : option Z :=
  match snd (settle timeout a) with
  | inl r => Some (status r)
  | inr _ => None
  end.

(** The same attempt in a world where every image is fetched and saved
    without error, in the same time. *)
Definition images_saved (a : Attempt) : Attempt :=
  mkAttempt (latency a) (reply a)
            (fun i => mkImageIO (fetch_latency (image_io a i)) true true)
            (timer_lag a).

(** A log line reports a success, or a final failure. *)
Definition is_ok_line (l : LogLine) : bool :=
  match l with
  | LineOk _ _ _ _ _ _ => true
  | _ => false
  end.

Definition is_failed_line (l : LogLine) : bool :=
  match l with
  | LineFailed _ _ _ _ _ _ => true
  | _ => false
  end.

(** Sample behaviours: an attempt that is answered at once, one that is
    refused at once, an endpoint that is always down, and one that refuses
    the first [n] attempts. *)
Definition instant_ok : Attempt :=
  mkAttempt 0 (Answered (mkResponse 200 None))
            (fun _ => mkImageIO 0 true true) 0.

Definition instant_error : Attempt :=
  mkAttempt 0 (Rejected (mkError "Request failed with status code 503"
                                 (Some 503)))
            (fun _ => mkImageIO 0 true true) 0.

Definition always_down : Endpoint := fun _ => instant_error.

(** An endpoint that answers at once with two images of which the first
    cannot be saved and the second cannot be fetched. *)
Definition broken_images : Endpoint :=
  fun _ => mkAttempt 0 (Answered (mkResponse 200 (Some ["/a.png"; "/b.png"])))
                     (fun i => mkImageIO 5 (Nat.eqb i 0) false) 0.

Definition down_for (n : nat) : Endpoint :=
  fun attempt => if Nat.ltb attempt n then instant_error else instant_ok.

(** *** What a trace shows *)

(** The number of POST requests issued. *)
Fixpoint posts (tr : list Event) : nat :=
  match tr with
  | [] => 0
  | HttpPost _ _ :: tr' => S (posts tr')
  | _ :: tr' => posts tr'
  end.

(** The number of HTTP requests of any kind issued. *)
Fixpoint http_requests (tr : list Event) : nat :=
  match tr with
  | [] => 0
  | HttpPost _ _ :: tr' => S (http_requests tr')
  | HttpGet _ :: tr' => S (http_requests tr')
  | _ :: tr' => http_requests tr'
  end.

(** The lines appended to log files, oldest first. *)
Fixpoint appended (tr : list Event) : list LogLine :=
  match tr with
  | [] => []
  | FsAppend _ l :: tr' => l :: appended tr'
  | _ :: tr' => appended tr'
  end.

(** What was printed on standard error, oldest first. *)
Fixpoint stderr (tr : list Event) : list string :=
  match tr with
  | [] => []
  | Stderr text :: tr' => text :: stderr tr'
  | _ :: tr' => stderr tr'
  end.

(** The timer delays requested, oldest first. *)
Fixpoint timers (tr : list Event) : list Z :=
  match tr with
  | [] => []
  | Timer ms :: tr' => ms :: timers tr'
  | _ :: tr' => timers tr'
  end.

Module Notations.
Notation "x <- m ;; k" := (bind m (fun x => k))
  (at level 61, m at next level, right associativity).
Notation "m ;; k" := (bind m (fun _ => k))
  (at level 61, right associativity).
End Notations.

End Js.

(** ** tests/imageStressTest.ts, third script: LLM gateway with retries *)

Module LlmRetry.
Import JsString Js Js.Notations Regex.Notations.

Definition MAX_RETRIES : nat := 3.
Definition RETRY_DELAY : Z := 1000.

(** [interface RequestResult { success; duration; retries? }] *)
Record RequestResult := mkResult {
  success : bool;
  duration : Z;
  retries : option nat
}.

Section MakeRequest.

(** The retry ceiling is the module constant [MAX_RETRIES]; the runner is
    written over a variable so that it can be studied for every ceiling. *)
Variable maxRetries : nat.
Variable logFile : string.
Variables (url : string) (payload : Payload) (requestNum : nat).
Variable endpoint : Endpoint.
Variable startTime : Z.

(** One iteration of [while (retries <= MAX_RETRIES) { try {..} catch {..} }]. *)
Definition attempt (retries : nat) : M unit (Flow RequestResult) :=
  console_log "Starting request" ;;
  console_log "Payload" ;;
  try_catch
    (response <- axios_post url payload 300000 (endpoint retries) ;;
     console_log "Response status" ;;
     console_log "Response data" ;;
     sleep 1000 (timer_lag (endpoint retries)) ;;
     endTime <- date_now ;;
     let duration := endTime - startTime in
     fs_appendFileSync logFile
       (LineOk requestNum retries startTime endTime duration None) ;;
     ret (Return (mkResult true duration (Some retries))))
    (fun error =>
     endTime <- date_now ;;
     let duration := endTime - startTime in
     console_error "Failed with error" ;;
     if Nat.eqb retries maxRetries then
       fs_appendFileSync logFile
         (LineFailed requestNum (Some retries) startTime endTime duration
                     (message error)) ;;
       ret (Return (mkResult false duration (Some retries)))
     else
       console_log "Retrying" ;;
       sleep RETRY_DELAY (timer_lag (endpoint retries)) ;;
       ret (Next (S retries))).

(** The statement after the loop:
    [return { success: false, duration: Date.now() - startTime, retries }]. *)
Definition after_loop (retries : nat) : M unit RequestResult :=
  endTime <- date_now ;;
  ret (mkResult false (endTime - startTime) (Some retries)).

Fixpoint loop (fuel : nat) (retries : nat) : M unit RequestResult :=
  match fuel with
  | O => out_of_fuel
  | S fuel' =>
    if Nat.leb retries maxRetries then
      flow <- attempt retries ;;
      match flow with
      | Return r => ret r
      | Break retries' => after_loop retries'
      | Next retries' => loop fuel' retries'
      end
    else after_loop retries
  end.

End MakeRequest.

(** [async function makeRequest(url, payload, requestNum)] *)
Definition makeRequest (maxRetries : nat) (logFile url : string)
    (payload : Payload) (requestNum : nat) (endpoint : Endpoint)
    : M unit RequestResult :=
  startTime <- date_now ;;
  loop maxRetries logFile url payload requestNum endpoint startTime
       (S (S maxRetries)) 0.

(** [promptsContent.match(/llm_prompt=(.*?)(?=\n\s*img_prompt|$)/s)] *)
Definition llm_prompt_re : Regex.Matcher :=
  Regex.lit (units "llm_prompt=") +++
  Regex.group_lazy (dot true) +++
  Regex.lookahead
    (Regex.alt (Regex.lit [10%N] +++ Regex.star is_space +++
                Regex.lit (units "img_prompt"))
               (Regex.dollar false)).

(** [function readPrompt(): string]; [prompts] is the file of that name next
    to the script. *)
Definition readPrompt {G} (prompts : option jsstring) : M G jsstring :=
  promptsContent <- fs_readFileSync prompts ;;
  match Regex.exec llm_prompt_re promptsContent with
  | None => throw (mkError "Could not find llm_prompt in prompts file" None)
  | Some group1 => ret (trim group1)
  end.

(** What the process is started with: environment, files and the network. *)
Record Env := mkEnv {
  LIVEPEER_GATEWAY_URL : option string;
  totalRequests : Z;
  prompts : option jsstring;
  network : nat -> Endpoint
}.

Definition outputDir : string := "output/llm_gen".
Definition logFile : string := "output/llm_gen/stress_test_results.log".
Definition TOTAL_PROMPT_TOKENS : Z := 32 + 1024.

Definition successCount (results : list RequestResult) : nat :=
  List.length (filter (fun r => success r) results).
Definition failureCount (results : list RequestResult) : nat :=
  List.length (filter (fun r => negb (success r)) results).
Definition totalRetries (results : list RequestResult) : nat :=
  fold_left (fun acc r => acc + match retries r with Some n => n | None => 0 end)%nat
            results 0%nat.

Definition summary (env : Env) (results : list RequestResult) : LogLine :=
  LineSummary
    [("Total Requests", totalRequests env);
     ("Successes", Z.of_nat (successCount results));
     ("Failures", Z.of_nat (failureCount results));
     ("Total Retries", Z.of_nat (totalRetries results))]
    [("Average Response Time", average (map duration results))].

(** [async function main()] *)
Definition main (env : Env) : M unit unit :=
  fs_mkdirSync outputDir ;;
  fs_writeFileSync logFile (LineText "--- New Stress Test Run ---") ;;
  fs_appendFileSync logFile (LineText "Initial prompt tokens: 1056") ;;
  let gatewayUrl := LIVEPEER_GATEWAY_URL env in
  (if falsy gatewayUrl then
     console_error "LIVEPEER_GATEWAY_URL environment variable not set" ;;
     process_exit 1
   else ret tt) ;;
  prompt <- readPrompt (prompts env) ;;
  let url := (match gatewayUrl with Some u => u | None => "" end ++ "/llm")%string in
  let payload :=
    LLMPayload "meta-llama/Meta-Llama-3.1-8B-Instruct"
      [mkChat "system" (units "You are a helpful assistant");
       mkChat "user" prompt]
      1000 false in
  console_log "Request configuration" ;;
  console_log "Starting stress test" ;;
  let requests :=
    array_from (totalRequests env) (fun i =>
      makeRequest MAX_RETRIES logFile url payload (i + 1) (network env (i + 1)%nat)) in
  results <- promise_all requests ;;
  fs_appendFileSync logFile (summary env results) ;;
  console_log "--- Final Results ---".

(** [main().catch((err) => { console.error(..); fs.appendFileSync(..) })] *)
Definition script (env : Env) : M unit unit :=
  try_catch (main env) (fun err =>
    console_error "Error during stress test" ;;
    fs_appendFileSync logFile (LineError (message err))).

End LlmRetry.

(** ** scripts/livepeer/imageStressTest.ts: image gateway with retries *)

Module ImageScript.
Import JsString Js Js.Notations Regex.Notations.

Definition maxRetries : nat := 3.
Definition outputDir : string := "output/img_gen".
Definition testRunDir : string := "output/img_gen/image_stress_test_results".
Definition logFile : string :=
  "output/img_gen/image_stress_test_results/test_results.log".
Definition imageDir : string := "output/img_gen/image_stress_test_results/images".

(** [interface RequestResult { success; duration; retryCount? }] *)
Record RequestResult := mkResult {
  success : bool;
  duration : Z;
  retryCount : option Z
}.

(** [promptsContent.match(/img_prompt=(.*?)$/s)] *)
Definition img_prompt_re : Regex.Matcher :=
  Regex.lit (units "img_prompt=") +++
  Regex.group_lazy (dot true) +++
  Regex.dollar false.

(** [function readPrompt(): string] *)
Definition readPrompt {G} (prompts : option jsstring) : M G jsstring :=
  promptsContent <- fs_readFileSync prompts ;;
  match Regex.exec img_prompt_re promptsContent with
  | None => throw (mkError "Could not find img_prompt in prompts file" None)
  | Some group1 => ret (trim group1)
  end.

(** [process.env.LIVEPEER_GATEWAY_URL + url] *)
Definition env_concat (v : option string) (url : string) : string :=
  (match v with Some u => u | None => "undefined" end ++ url)%string.

Section MakeRequest.

(** [maxRetries] and [retryDelayMs] are module constants of the script (the
    delay comes from [RETRY_DELAY_MS], 2000 by default); the runner is
    written over variables. *)
Variable maxRetries_ : nat.
Variable retryDelayMs : Z.
Variable LIVEPEER_GATEWAY_URL_ : option string.
Variables (url : string) (payload : Payload) (requestNum : nat).
Variable endpoint : Endpoint.

(** The body of [for (let i = 0; i < response.data.images.length; i++)]. *)
Definition save_image (a : Attempt) (i : nat) (image_url : string)
    : M unit unit :=
  let imageUrl := env_concat LIVEPEER_GATEWAY_URL_ image_url in
  console_log "this is the image url" ;;
  try_catch
    (axios_get imageUrl (image_io a i) ;;
     fs_writeImage imageDir (image_io a i) ;;
     console_log "Saved image")
    (fun error => console_error "Failed to save image").

(** One iteration of [while (retryCount <= maxRetries)]. *)
Definition attempt (retryCount : nat) : M unit (Flow RequestResult) :=
  startTime <- date_now ;;
  let a := endpoint retryCount in
  console_log "Starting request" ;;
  console_log "Payload" ;;
  try_catch
    (response <- axios_post url payload 300000 a ;;
     console_log "Response status" ;;
     console_log "Response data" ;;
     match images response with
     | Some imgs => for_each (save_image a) 0 imgs
     | None => ret tt
     end ;;
     sleep 1000 (timer_lag a) ;;
     endTime <- date_now ;;
     let duration := endTime - startTime in
     fs_appendFileSync logFile
       (LineOk requestNum retryCount startTime endTime duration None) ;;
     ret (Return (mkResult true duration (Some (Z.of_nat retryCount)))))
    (fun error =>
     let retryCount := S retryCount in
     console_error "Failed with error" ;;
     if Nat.ltb maxRetries_ retryCount then
       endTime <- date_now ;;
       let duration := endTime - startTime in
       fs_appendFileSync logFile
         (LineFailed requestNum (Some (retryCount - 1)%nat) startTime endTime
                     duration (message error)) ;;
       ret (Break retryCount)
     else
       console_log "Retrying" ;;
       sleep retryDelayMs (timer_lag a) ;;
       ret (Next retryCount)).

(** The statement after the loop:
    [return { success: false, duration: 0, retryCount: retryCount - 1 }]. *)
Definition after_loop (retryCount : nat) : M unit RequestResult :=
  ret (mkResult false 0 (Some (Z.of_nat retryCount - 1))).

Fixpoint loop (fuel : nat) (retryCount : nat) : M unit RequestResult :=
  match fuel with
  | O => out_of_fuel
  | S fuel' =>
    if Nat.leb retryCount maxRetries_ then
      flow <- attempt retryCount ;;
      match flow with
      | Return r => ret r
      | Break retryCount' => after_loop retryCount'
      | Next retryCount' => loop fuel' retryCount'
      end
    else after_loop retryCount
  end.

(** [async function makeRequest(url, payload, requestNum)] *)
Definition makeRequest : M unit RequestResult :=
  loop (S (S maxRetries_)) 0.

End MakeRequest.

(** What the process is started with: environment, files and the network. *)
Record Env := mkEnv {
  LIVEPEER_GATEWAY_URL : option string;
  totalRequests : Z;
  retryDelayMs : Z;
  prompts : option jsstring;
  network : nat -> Endpoint
}.

(** A sample run: three requests against a gateway that is always down. *)
Definition sample_env : Env :=
  mkEnv (Some "http://gw") 3 2000 (Some (units "img_prompt=a cat"))
        (fun _ => always_down).

Definition retried (r : RequestResult) : bool :=
  0 <? match retryCount r with Some n => n | None => 0 end.

Definition successCount (results : list RequestResult) : nat :=
  List.length (filter (fun r => success r) results).
Definition failureCount (results : list RequestResult) : nat :=
  List.length (filter (fun r => negb (success r)) results).
Definition retriedCount (results : list RequestResult) : nat :=
  List.length (filter retried results).
Definition retriedSuccessCount (results : list RequestResult) : nat :=
  List.length (filter (fun r => success r && retried r) results).

Definition summary (env : Env) (results : list RequestResult) : LogLine :=
  LineSummary
    [("Total Requests", totalRequests env);
     ("Successes", Z.of_nat (successCount results));
     ("Failures", Z.of_nat (failureCount results));
     ("Requests that needed retries", Z.of_nat (retriedCount results));
     ("Successfully retried requests", Z.of_nat (retriedSuccessCount results))]
    [("Average Response Time", average (map duration results))].

(** [async function main()] *)
Definition main (env : Env) : M unit unit :=
  fs_mkdirSync outputDir ;;
  fs_mkdirSync testRunDir ;;
  fs_mkdirSync imageDir ;;
  fs_writeFileSync logFile
    (LineText "--- New Image Generation Stress Test Run ---") ;;
  let gatewayUrl := LIVEPEER_GATEWAY_URL env in
  (if falsy gatewayUrl then
     console_error "LIVEPEER_GATEWAY_URL environment variable not set" ;;
     process_exit 1
   else ret tt) ;;
  let url :=
    (match gatewayUrl with Some u => u | None => "" end ++ "/text-to-image")%string in
  prompt <- readPrompt (prompts env) ;;
  let payload := ImagePayload "ByteDance/SDXL-Lightning" prompt 1024 1024 in
  console_log "Request configuration" ;;
  console_log "Starting stress test" ;;
  let requests :=
    array_from (totalRequests env) (fun i =>
      makeRequest maxRetries (retryDelayMs env) gatewayUrl url payload
                  (i + 1) (network env (i + 1)%nat)) in
  results <- promise_all requests ;;
  fs_appendFileSync logFile (summary env results) ;;
  console_log "--- Final Results ---".

(** [main().catch((err) => { console.error(..); fs.appendFileSync(..) })] *)
Definition script (env : Env) : M unit unit :=
  try_catch (main env) (fun err =>
    console_error "Error during stress test" ;;
    fs_appendFileSync logFile (LineError (message err))).

End ImageScript.

(** ** tests/imageStressTest.ts, first script: image gateway, single attempt

    The second and fourth scripts of the file (LLM gateway) have the same
    runner and the same [main] up to payload, URL path and file names. *)

Module Simple.
Import JsString Js Js.Notations.

Definition logFile : string := "image_stress_test_results.log".

(** [interface RequestResult { success; duration }] *)
Record RequestResult := mkResult {
  success : bool;
  duration : Z
}.

(** [async function makeRequest(url, payload, requestNum)] *)
Definition makeRequest (url : string) (payload : Payload) (requestNum : nat)
    (a : Attempt) : M unit RequestResult :=
  startTime <- date_now ;;
  console_log "Starting request" ;;
  console_log "Payload" ;;
  try_catch
    (response <- axios_post url payload 300000 a ;;
     console_log "Response status" ;;
     console_log "Response data" ;;
     sleep 1000 (timer_lag a) ;;
     endTime <- date_now ;;
     let duration := endTime - startTime in
     fs_appendFileSync logFile
       (LineOk requestNum 0 startTime endTime duration None) ;;
     ret (mkResult true duration))
    (fun error =>
     console_error "Failed with error" ;;
     endTime <- date_now ;;
     let duration := endTime - startTime in
     fs_appendFileSync logFile
       (LineFailed requestNum None startTime endTime duration (message error)) ;;
     ret (mkResult false duration)).

Record Env := mkEnv {
  LIVEPEER_GATEWAY_URL : option string;
  totalRequests : Z;
  network : nat -> Attempt
}.

Definition successCount (results : list RequestResult) : nat :=
  List.length (filter (fun r => success r) results).
Definition failureCount (results : list RequestResult) : nat :=
  List.length (filter (fun r => negb (success r)) results).

Definition summary (env : Env) (results : list RequestResult) : LogLine :=
  LineSummary
    [("Total Requests", totalRequests env);
     ("Successes", Z.of_nat (successCount results));
     ("Failures", Z.of_nat (failureCount results))]
    [("Average Response Time", average (map duration results))].

(** [async function main()] *)
Definition main (env : Env) : M unit unit :=
  fs_writeFileSync logFile
    (LineText "--- New Image Generation Stress Test Run ---") ;;
  let gatewayUrl := LIVEPEER_GATEWAY_URL env in
  (if falsy gatewayUrl then
     console_error "LIVEPEER_GATEWAY_URL environment variable not set" ;;
     process_exit 1
   else ret tt) ;;
  let url :=
    (match gatewayUrl with Some u => u | None => "" end ++ "/text-to-image")%string in
  let payload :=
    ImagePayload "ByteDance/SDXL-Lightning"
      (units "A beautiful sunset over a mountain landscape") 1024 1024 in
  console_log "Request configuration" ;;
  console_log "Starting stress test" ;;
  let requests :=
    array_from (totalRequests env) (fun i =>
      makeRequest url payload (i + 1) (network env (i + 1)%nat)) in
  results <- promise_all requests ;;
  fs_appendFileSync logFile (summary env results) ;;
  console_log "--- Final Results ---".

(** [main().catch((err) => { console.error(..); fs.appendFileSync(..) })] *)
Definition script (env : Env) : M unit unit :=
  try_catch (main env) (fun err =>
    console_error "Error during stress test" ;;
    fs_appendFileSync logFile (LineError (message err))).

End Simple.

(** ** scripts/livepeer/dualStressTest.ts: two gateways, LLM and image calls *)

Module Dual.
Import JsString Js Js.Notations Regex.Notations.

Definition MAX_RETRIES : nat := 3.
Definition RETRY_DELAY_MS : Z := 2000.
Definition TIMEOUT_MS : Z := 300000.

Definition OUTPUT_DIR : string := "output/dual_stress_test".
Definition GW1_IMG_DIR : string := "output/dual_stress_test/gateway1_images".
Definition GW2_IMG_DIR : string := "output/dual_stress_test/gateway2_images".
Definition GW1_LLM_LOG : string := "output/dual_stress_test/gateway1_llm.log".
Definition GW1_IMG_LOG : string := "output/dual_stress_test/gateway1_image.log".
Definition GW2_LLM_LOG : string := "output/dual_stress_test/gateway2_llm.log".
Definition GW2_IMG_LOG : string := "output/dual_stress_test/gateway2_image.log".
Definition SUMMARY_LOG : string := "output/dual_stress_test/gateway_summary.log".

(** [type: 'LLM' | 'Image'] and [gatewayId: 1 | 2] *)
Inductive CallType := LLM | Image.
Inductive GatewayId := Gateway1 | Gateway2.

(** One entry of [interface GatewayStats]. *)
Record Counters := mkCounters {
  c_success : nat;
  c_failure : nat;
  c_retries : nat;
  c_totalDuration : Z;
  c_requests : nat
}.

Record GatewayStats := mkStats {
  llm : Counters;
  image : Counters
}.

(** The module-level variables [gateway1Stats] and [gateway2Stats]. *)
Record Globals := mkGlobals {
  gateway1Stats : GatewayStats;
  gateway2Stats : GatewayStats
}.

Definition zero : Counters := mkCounters 0 0 0 0 0.

Definition initial : Globals :=
  mkGlobals (mkStats zero zero) (mkStats zero zero).

(** [(gatewayId === 1 ? gateway1Stats : gateway2Stats)[type.toLowerCase()]] *)
Definition counters (g : Globals) (gatewayId : GatewayId) (type : CallType)
    : Counters :=
  let stats := match gatewayId with
               | Gateway1 => gateway1Stats g
               | Gateway2 => gateway2Stats g
               end in
  match type with
  | LLM => llm stats
  | Image => image stats
  end.

(** Assignment to the same entry. *)
Definition set_counters (gatewayId : GatewayId) (type : CallType)
    (c : Counters) (g : Globals) : Globals :=
  let upd (stats : GatewayStats) :=
    match type with
    | LLM => mkStats c (image stats)
    | Image => mkStats (llm stats) c
    end in
  match gatewayId with
  | Gateway1 => mkGlobals (upd (gateway1Stats g)) (gateway2Stats g)
  | Gateway2 => mkGlobals (gateway1Stats g) (upd (gateway2Stats g))
  end.

(** [interface RequestResult { success; duration; retryCount?; status? }] *)
Record RequestResult := mkResult {
  success : bool;
  duration : Z;
  retryCount : option nat;
  status : option Z
}.

(** [r.retryCount || 0] *)
Definition retryCount_or_0 (r : RequestResult) : nat :=
  match retryCount r with
  | Some n => n
  | None => 0
  end.

(** An entry after one more terminal outcome [r] of its pair has been
    counted: one more request, one more success or failure, the retries and
    the duration that [r] reports. *)
Definition tally (r : RequestResult) (c : Counters) : Counters :=
  mkCounters (c_success c + if success r then 1 else 0)
             (c_failure c + if success r then 0 else 1)
             (c_retries c + retryCount_or_0 r)
             (c_totalDuration c + duration r)
             (c_requests c + 1).

(** The globals after the outcome [r] has been counted for one pair. *)
Definition counted (gatewayId : GatewayId) (type : CallType)
    (r : RequestResult) (g : Globals) : Globals :=
  set_counters gatewayId type (tally r (counters g gatewayId type)) g.

(** The images that an answered call makes the runner fetch: those of the
    response for an image call, none for an LLM call. *)
Definition fetched (type : CallType) (r : Response) : list string :=
  match type, images r with
  | Image, Some imgs => imgs
  | _, _ => []
  end.

(** The images fetched after the answer to an attempt, none when it is
    rejected. *)
Definition answer_fetched (type : CallType) (a : Attempt) : list string :=
  match snd (settle TIMEOUT_MS a) with
  | inl r => fetched type r
  | inr _ => []
  end.

(** [getArgValue(flag, envVar, defaultValue)] over [process.argv.slice(2)] and
    [process.env]. *)
Definition getArgValue (args : list string) (environ : string -> option string)
    (flag envVar defaultValue : string) : string :=
  let flagPrefix := ("--" ++ flag ++ "=")%string in
  match find (fun a => String.prefix flagPrefix a) args with
  | Some arg =>
    substring (String.length flagPrefix)
              (String.length arg - String.length flagPrefix) arg
  | None =>
    match environ envVar with
    | Some v => if String.eqb v "" then defaultValue else v
    | None => defaultValue
    end
  end.

(** [promptsContent.match(re)] for the pattern [img_prompt\s*=\s*( .* )$]
    with flag [m] (written here with blanks inside the group). *)
Definition img_prompt_re : Regex.Matcher :=
  Regex.lit (units "img_prompt") +++ Regex.star is_space +++
  Regex.lit (units "=") +++ Regex.star is_space +++
  Regex.group_greedy (dot false) +++
  Regex.dollar true.

(** [promptsContent.match(/llm_prompt\s*=\s*(.*?)(?=\n\s*img_prompt|$)/s)] *)
Definition llm_prompt_re : Regex.Matcher :=
  Regex.lit (units "llm_prompt") +++ Regex.star is_space +++
  Regex.lit (units "=") +++ Regex.star is_space +++
  Regex.group_lazy (dot true) +++
  Regex.lookahead
    (Regex.alt (Regex.lit [10%N] +++ Regex.star is_space +++
                Regex.lit (units "img_prompt"))
               (Regex.dollar false)).

(** [function readImagePrompt(): string] *)
Definition readImagePrompt {G} (prompts : option jsstring) : M G jsstring :=
  match prompts with
  | None => throw (mkError "Could not find prompts file for image prompt" None)
  | Some _ =>
    promptsContent <- fs_readFileSync prompts ;;
    match Regex.exec img_prompt_re promptsContent with
    | None => throw (mkError "Could not find img_prompt in prompts file" None)
    | Some group1 => ret (trim group1)
    end
  end.

(** [function readLLMPrompt(): string] *)
Definition readLLMPrompt {G} (prompts : option jsstring) : M G jsstring :=
  match prompts with
  | None => throw (mkError "Could not find prompts file for LLM prompt" None)
  | Some _ =>
    promptsContent <- fs_readFileSync prompts ;;
    match Regex.exec llm_prompt_re promptsContent with
    | None => throw (mkError "Could not find llm_prompt in prompts file" None)
    | Some group1 => ret (trim group1)
    end
  end.

(** [function setupDirectories()] *)
Definition setupDirectories {G} (TEST_MODE : string) : M G unit :=
  fs_mkdirSync OUTPUT_DIR ;;
  fs_mkdirSync GW1_IMG_DIR ;;
  fs_mkdirSync GW2_IMG_DIR ;;
  (if String.eqb TEST_MODE "llm" || String.eqb TEST_MODE "both" then
     fs_writeFileSync GW1_LLM_LOG (LineText "--- Gateway1 LLM Test ---") ;;
     fs_writeFileSync GW2_LLM_LOG (LineText "--- Gateway2 LLM Test ---")
   else ret tt) ;;
  (if String.eqb TEST_MODE "image" || String.eqb TEST_MODE "both" then
     fs_writeFileSync GW1_IMG_LOG (LineText "--- Gateway1 Image Test ---") ;;
     fs_writeFileSync GW2_IMG_LOG (LineText "--- Gateway2 Image Test ---")
   else ret tt).

Section MakeRequest.

(** [MAX_RETRIES] is a module constant; the runner is written over a
    variable so that it can be studied for every ceiling. *)
Variable maxRetries : nat.
Variables (baseUrl endpointPath : string) (payload : Payload)
          (requestNum : nat) (type : CallType) (gatewayId : GatewayId).
Variable endpoint : Endpoint.

Definition logFile : string :=
  match gatewayId, type with
  | Gateway1, LLM => GW1_LLM_LOG
  | Gateway1, Image => GW1_IMG_LOG
  | Gateway2, LLM => GW2_LLM_LOG
  | Gateway2, Image => GW2_IMG_LOG
  end.

Definition imageDir : string :=
  match gatewayId with
  | Gateway1 => GW1_IMG_DIR
  | Gateway2 => GW2_IMG_DIR
  end.

Definition url : string := (baseUrl ++ "/" ++ endpointPath)%string.

Variable startTime : Z.

(** The body of [for (let i = 0; i < response.data.images.length; i++)]. *)
Definition save_image (a : Attempt) (i : nat) (relativeUrl : string)
    : M Globals unit :=
  let imageUrl := (baseUrl ++ relativeUrl)%string in
  console_log "Image URL" ;;
  try_catch
    (axios_get imageUrl (image_io a i) ;;
     fs_writeImage imageDir (image_io a i) ;;
     console_log "Saved image")
    (fun e => console_error "Failed to fetch/save image").

(** The statistics update of the success path. *)
Definition record_success (duration : Z) (retryCount : nat) : M Globals unit :=
  modify_globals (fun g =>
    let c := counters g gatewayId type in
    set_counters gatewayId type
      (mkCounters (c_success c + 1) (c_failure c)
                  (if Nat.ltb 0 retryCount then c_retries c + retryCount
                   else c_retries c)
                  (c_totalDuration c + duration) (c_requests c + 1)) g).

(** The statistics update of the final failure. *)
Definition record_failure (retryCount : nat) : M Globals unit :=
  modify_globals (fun g =>
    let c := counters g gatewayId type in
    set_counters gatewayId type
      (mkCounters (c_success c) (c_failure c + 1)
                  (if Nat.ltb 0 retryCount then c_retries c + retryCount
                   else c_retries c)
                  (c_totalDuration c) (c_requests c + 1)) g).

(** One iteration of [while (retryCount <= MAX_RETRIES)]. *)
Definition attempt (retryCount : nat) : M Globals (Flow RequestResult) :=
  let a := endpoint retryCount in
  console_log "=> url" ;;
  console_log "Payload" ;;
  try_catch
    (response <- axios_post url payload TIMEOUT_MS a ;;
     console_log "Response status" ;;
     match type, images response with
     | Image, Some imgs => for_each (save_image a) 0 imgs
     | _, _ => ret tt
     end ;;
     match type with
     | LLM => console_log "Response data"
     | Image => ret tt
     end ;;
     sleep 1000 (timer_lag a) ;;
     endTime <- date_now ;;
     let duration := endTime - startTime in
     let status := Js.status response in
     record_success duration retryCount ;;
     fs_appendFileSync logFile
       (LineOk requestNum retryCount startTime endTime duration (Some status)) ;;
     ret (Return (mkResult true duration (Some retryCount) (Some status))))
    (fun error =>
     let isFinalAttempt := Nat.leb maxRetries retryCount in
     console_error "Error" ;;
     if isFinalAttempt then
       endTime <- date_now ;;
       let duration := endTime - startTime in
       record_failure retryCount ;;
       fs_appendFileSync logFile
         (LineFailed requestNum (Some retryCount) startTime endTime duration
                     (message error)) ;;
       ret (Break retryCount)
     else
       let retryCount := S retryCount in
       console_log "Retrying" ;;
       sleep RETRY_DELAY_MS (timer_lag a) ;;
       ret (Next retryCount)).

(** The statement after the loop:
    [return { success: false, duration: 0, retryCount }]. *)
Definition after_loop (retryCount : nat) : M Globals RequestResult :=
  ret (mkResult false 0 (Some retryCount) None).

Fixpoint loop (fuel : nat) (retryCount : nat) : M Globals RequestResult :=
  match fuel with
  | O => out_of_fuel
  | S fuel' =>
    if Nat.leb retryCount maxRetries then
      flow <- attempt retryCount ;;
      match flow with
      | Return r => ret r
      | Break retryCount' => after_loop retryCount'
      | Next retryCount' => loop fuel' retryCount'
      end
    else after_loop retryCount
  end.

End MakeRequest.

(** [async function makeRequest(baseUrl, endpoint, payload, requestNum, type,
    gatewayId)] *)
Definition makeRequest (maxRetries : nat) (baseUrl endpointPath : string)
    (payload : Payload) (requestNum : nat) (type : CallType)
    (gatewayId : GatewayId) (endpoint : Endpoint) : M Globals RequestResult :=
  startTime <- date_now ;;
  loop maxRetries baseUrl endpointPath payload requestNum type gatewayId
       endpoint startTime (S (S maxRetries)) 0.

(** One block of the summary: the four counters and
    [requests ? totalDuration / requests : 0]. *)
Record SummaryBlock := mkBlock {
  s_total : nat;
  s_success : nat;
  s_failures : nat;
  s_retries : nat;
  s_avgDuration : Q
}.

Definition block (c : Counters) : SummaryBlock :=
  mkBlock (c_requests c) (c_success c) (c_failure c) (c_retries c)
          (if Nat.eqb (c_requests c) 0 then inject_Z 0
           else Qdiv (inject_Z (c_totalDuration c))
                     (inject_Z (Z.of_nat (c_requests c)))).

(** The text that [writeSummary] builds, as its blocks: gateway 1 LLM,
    gateway 1 image, gateway 2 LLM, gateway 2 image. *)
Definition summary (g : Globals) : list SummaryBlock :=
  [block (llm (gateway1Stats g)); block (image (gateway1Stats g));
   block (llm (gateway2Stats g)); block (image (gateway2Stats g))].

Definition summary_line (g : Globals) : LogLine :=
  LineSummary
    (flat_map (fun b => [("Total", Z.of_nat (s_total b));
                         ("Success", Z.of_nat (s_success b));
                         ("Failures", Z.of_nat (s_failures b));
                         ("Retries", Z.of_nat (s_retries b))]) (summary g))
    (map (fun b => ("Avg Duration", Some (s_avgDuration b))) (summary g)).

(** [function writeSummary()] *)
Definition writeSummary : M Globals unit :=
  g <- get_globals ;;
  fs_writeFileSync SUMMARY_LOG (summary_line g) ;;
  console_log "Summary written to" ;;
  console_log "=== Gateway Performance Summary ===".

(** The value of a string of decimal digits, most significant first. *)
Fixpoint decimal_value (s : string) (acc : Z) : option Z :=
  match s with
  | EmptyString => Some acc
  | String c s' =>
    let d := Z.of_nat (nat_of_ascii c) - 48 in
    if (0 <=? d) && (d <=? 9) then decimal_value s' (10 * acc + d) else None
  end.

(** [Number(s)] on the strings that consist of decimal digits only, the
    empty string included (it gives 0), up to 2^53, below which every
    integer is a double.  The other strings that [Number] reads (a sign, a
    fraction, an exponent, white space, [Infinity], another radix) and
    those for which it gives NaN are outside this fragment: [None]. *)
Definition Number_of_digits (s : string) : option Z :=
  match decimal_value s 0 with
  | Some n => if n <=? 9007199254740992 then Some n else None
  | None => None
  end.

(** What the process is started with: the command line, the environment,
    the prompts file and the behaviour of the gateways.  The field
    [rounds_otherwise] is used only when the text given for the number of
    requests is not a string of decimal digits (see [CONCURRENT_REQUESTS]). *)
Record Env := mkEnv {
  args : list string;
  environ : string -> option string;
  rounds_otherwise : Z;
  prompts : option jsstring;
  network : GatewayId -> CallType -> nat -> Endpoint
}.

(** [const CONCURRENT_REQUESTS =
       Number(getArgValue('concurrency', 'TOTAL_REQUESTS', '10'))].
    Apart from being printed with the configuration, the constant is only
    used as the bound of the loops
    [for (let i = 0; i < CONCURRENT_REQUESTS; i++)].  For a text of decimal
    digits it is the number written.  The other texts are not interpreted:
    for them [rounds_otherwise] stands for the number of rounds of these
    loops (none for NaN, a positive fraction rounded up); an infinite count,
    with which the loops do not end, is not represented. *)
Definition CONCURRENT_REQUESTS (env : Env) : Z :=
  match Number_of_digits
          (getArgValue (args env) (environ env)
                       "concurrency" "TOTAL_REQUESTS" "10") with
  | Some n => n
  | None => rounds_otherwise env
  end.

Definition TEST_MODE (env : Env) : string :=
  getArgValue (args env) (environ env) "test" "TEST_GATEWAYS" "both".
Definition GATEWAY1_URL (env : Env) : string :=
  getArgValue (args env) (environ env) "gateway1Url" "GATEWAY_1_URL" "".
Definition GATEWAY2_URL (env : Env) : string :=
  getArgValue (args env) (environ env) "gateway2Url" "GATEWAY_2_URL" "".
Definition LLM_ENDPOINT (env : Env) : string :=
  getArgValue (args env) (environ env) "llmEndpoint" "LLM_GATEWAY_ENDPOINT" "llm".
Definition IMAGE_ENDPOINT (env : Env) : string :=
  getArgValue (args env) (environ env) "imageEndpoint" "IMAGE_GATEWAY_ENDPOINT"
              "text-to-image".

(** The arguments of one invocation of [makeRequest], with the behaviour of
    the endpoint towards it. *)
Record Call := mkCall {
  call_baseUrl : string;
  call_endpoint : string;
  call_payload : Payload;
  call_requestNum : nat;
  call_type : CallType;
  call_gatewayId : GatewayId;
  call_network : Endpoint
}.

Definition run_call (maxRetries : nat) (c : Call) : M Globals RequestResult :=
  makeRequest maxRetries (call_baseUrl c) (call_endpoint c) (call_payload c)
              (call_requestNum c) (call_type c) (call_gatewayId c)
              (call_network c).

(** [addTasks(baseUrl, gatewayLabel, testType, payload)]: the invocations it
    pushes onto [tasks]. *)
Definition addTasks (env : Env) (baseUrl : string) (gatewayLabel : GatewayId)
    (testType : CallType) (payload : Payload) : list Call :=
  array_from (CONCURRENT_REQUESTS env) (fun i =>
    mkCall baseUrl
      (match testType with LLM => LLM_ENDPOINT env | Image => IMAGE_ENDPOINT env end)
      payload (i + 1) testType gatewayLabel
      (network env gatewayLabel testType (i + 1)%nat)).

(** The tasks created for one gateway. *)
Definition gateway_tasks (env : Env) (baseUrl : string) (gatewayLabel : GatewayId)
    (imagePayload llmPayload : option Payload) : list Call :=
  if String.eqb baseUrl "" then []
  else
    (if String.eqb (TEST_MODE env) "both" || String.eqb (TEST_MODE env) "image"
     then match imagePayload with
          | Some p => addTasks env baseUrl gatewayLabel Image p
          | None => []
          end
     else [])
    ++
    (if String.eqb (TEST_MODE env) "both" || String.eqb (TEST_MODE env) "llm"
     then match llmPayload with
          | Some p => addTasks env baseUrl gatewayLabel LLM p
          | None => []
          end
     else []).

(** A sample batch: an LLM call to gateway 1 that is refused once, and an
    image call to gateway 2 that is always refused. *)
Definition sample_calls : list Call :=
  [mkCall "http://gw1" "llm"
          (LLMPayload "meta-llama/Meta-Llama-3.1-8B-Instruct" [] 1000 false)
          1 LLM Gateway1 (down_for 1);
   mkCall "http://gw2" "text-to-image"
          (ImagePayload "ByteDance/SDXL-Lightning" (units "a cat") 512 512)
          1 Image Gateway2 always_down].

(** The outcomes that belong to one (gateway, call type) pair, among the
    outcomes [results] of the invocations [calls]. *)
Definition same_pair (gatewayId : GatewayId) (type : CallType) (c : Call)
    : bool :=
  match gatewayId, call_gatewayId c with
  | Gateway1, Gateway1 | Gateway2, Gateway2 =>
    match type, call_type c with
    | LLM, LLM | Image, Image => true
    | _, _ => false
    end
  | _, _ => false
  end.

Fixpoint outcomes_of (gatewayId : GatewayId) (type : CallType)
    (calls : list Call) (results : list RequestResult) : list RequestResult :=
  match calls, results with
  | c :: calls', r :: results' =>
    if same_pair gatewayId type c
    then r :: outcomes_of gatewayId type calls' results'
    else outcomes_of gatewayId type calls' results'
  | _, _ => []
  end.

(** The calls of [computeStats], which only prints. *)
Definition computeStats_calls (env : Env) (baseUrl : string) : M Globals unit :=
  if String.eqb baseUrl "" then ret tt
  else
    (if String.eqb (TEST_MODE env) "both" || String.eqb (TEST_MODE env) "image"
     then console_log "Please see log files for full details." else ret tt) ;;
    (if String.eqb (TEST_MODE env) "both" || String.eqb (TEST_MODE env) "llm"
     then console_log "Please see log files for full details." else ret tt).

(** [let prompt = null; if (cond) { prompt = reader(); }] *)
Definition read_if (cond : bool) (reader : M Globals jsstring)
    : M Globals (option jsstring) :=
  if cond then p <- reader ;; ret (Some p) else ret None.

(** [async function main()] *)
Definition main (env : Env) : M Globals unit :=
  (if String.eqb (GATEWAY1_URL env) "" && String.eqb (GATEWAY2_URL env) "" then
     console_error
       "At least one gateway URL must be specified (gateway1Url or gateway2Url)." ;;
     process_exit 1
   else ret tt) ;;
  console_log "--- Dual Stress Test for Two Gateways ---" ;;
  setupDirectories (TEST_MODE env) ;;
  imagePrompt <-
    read_if (String.eqb (TEST_MODE env) "both"
             || String.eqb (TEST_MODE env) "image")
            (readImagePrompt (prompts env)) ;;
  llmPrompt <-
    read_if (String.eqb (TEST_MODE env) "both"
             || String.eqb (TEST_MODE env) "llm")
            (readLLMPrompt (prompts env)) ;;
  let imagePayload :=
    match imagePrompt with
    | Some (c :: p) =>
      Some (ImagePayload "ByteDance/SDXL-Lightning" (c :: p) 512 512)
    | _ => None
    end in
  let llmPayload :=
    match llmPrompt with
    | Some (c :: p) =>
      Some (LLMPayload "meta-llama/Meta-Llama-3.1-8B-Instruct"
              [mkChat "system" (units "You are a helpful assistant");
               mkChat "user" (c :: p)]
              1000 false)
    | _ => None
    end in
  let tasks :=
    map (run_call MAX_RETRIES)
      (gateway_tasks env (GATEWAY1_URL env) Gateway1 imagePayload llmPayload ++
       gateway_tasks env (GATEWAY2_URL env) Gateway2 imagePayload llmPayload) in
  results <- promise_all tasks ;;
  computeStats_calls env (GATEWAY1_URL env) ;;
  computeStats_calls env (GATEWAY2_URL env) ;;
  writeSummary ;;
  console_log "--- Dual Stress Test Complete ---".

(** [main().catch((err) => { console.error(..); fs.appendFileSync(..) })] *)
Definition script (env : Env) : M Globals unit :=
  try_catch (main env) (fun err =>
    console_error "Error during dual stress test" ;;
    fs_appendFileSync "output/dual_stress_test/dual_stress_test_errors.log"
      (LineError (message err))).

End Dual.

(** ** Prompt values in closed form

    What the four patterns extract, written as plain list functions; the
    properties below relate them to the matcher. *)

Module PromptForm.
Import JsString.

(** [s] is [pre ++ key ++ post] for some [pre] and [post]. *)
Definition occurs (key s : jsstring) : Prop :=
  exists pre post, s = pre ++ key ++ post.

(** What follows the first occurrence of [key] in [s]. *)
Fixpoint after_first (key s : jsstring) : option jsstring :=
  match strip_prefix key s with
  | Some rest => Some rest
  | None =>
    match s with
    | [] => None
    | _ :: s' => after_first key s'
    end
  end.

(** What follows the first occurrence of [name], optional white space and
    [=] in [s]. *)
Fixpoint after_first_eq (name s : jsstring) : option jsstring :=
  let next := match s with
              | [] => None
              | _ :: s' => after_first_eq name s'
              end in
  match strip_prefix name s with
  | Some rest =>
    match strip_prefix (units "=") (trimStart rest) with
    | Some value => Some value
    | None => next
    end
  | None => next
  end.

(** [s] is [pre ++ name ++ ws ++ "=" ++ post] for some white space [ws]. *)
Definition occurs_eq (name s : jsstring) : Prop :=
  exists pre ws post,
    Forall (fun c => is_space c = true) ws
    /\ s = pre ++ name ++ ws ++ units "=" ++ post.

(** [s] starts with a newline, optional white space and [img_prompt]. *)
Definition starts_with (p s : jsstring) : bool :=
  match strip_prefix p s with
  | Some _ => true
  | None => false
  end.

Definition at_img_key (s : jsstring) : bool :=
  match s with
  | c :: s' => (10 =? c)%N && starts_with (units "img_prompt") (trimStart s')
  | [] => false
  end.

(** The text up to the next line that starts with [img_prompt], or all of it
    when there is none. *)
Fixpoint until_img_key (s : jsstring) : jsstring :=
  match s with
  | [] => []
  | c :: s' => if at_img_key s then [] else c :: until_img_key s'
  end.

(** The text up to the end of the line. *)
Fixpoint take_line (s : jsstring) : jsstring :=
  match s with
  | [] => []
  | c :: s' => if is_line_terminator c then [] else c :: take_line s'
  end.

End PromptForm.

(** ** The prompt file as the specification words it

    [value key content]: the text from [key] to the end of the line or to the
    next key, whichever comes first; [None] when the key is missing. *)

Module PromptSpec.
Import JsString.

Definition keys : list jsstring := [units "llm_prompt="; units "img_prompt="].

Definition at_key (s : jsstring) : bool :=
  existsb (fun key => match strip_prefix key s with
                      | Some _ => true
                      | None => false
                      end) keys.

Fixpoint to_eol_or_key (s : jsstring) : jsstring :=
  match s with
  | [] => []
  | c :: s' =>
    if is_line_terminator c || at_key s then [] else c :: to_eol_or_key s'
  end.

Definition value (key content : jsstring) : option jsstring :=
  option_map to_eol_or_key (PromptForm.after_first key content).

(** Two prompt files: an LLM prompt of two lines, and an image prompt
    followed by the LLM prompt. *)
Definition two_line_prompt : jsstring :=
  units "llm_prompt=a" ++ [10%N] ++ units "b".

Definition image_then_llm : jsstring :=
  units "img_prompt=cat" ++ [10%N] ++ units "llm_prompt=hi".

End PromptSpec.

(** ** Counting requests *)

Module Counts.
Import Js.

(** The request is answered at one of its attempts [0 .. maxRetries]. *)
Definition answered_within (maxRetries : nat) (endpoint : Endpoint) : bool :=
  existsb (fun k => negb (rejected 300000 (endpoint k)))
          (seq 0 (S maxRetries)).

(** The number of attempts that are rejected before the request is
    answered, at most [maxRetries]: the retries of the request.
    [retries_until fuel k endpoint] counts on from attempt [k] with [fuel]
    retries left. *)
Fixpoint retries_until (fuel k : nat) (endpoint : Endpoint) : nat :=
  match fuel with
  | O => k
  | S fuel' =>
    if rejected 300000 (endpoint k) then retries_until fuel' (S k) endpoint
    else k
  end.

Definition retries_of (maxRetries : nat) (endpoint : Endpoint) : nat :=
  retries_until maxRetries 0 endpoint.

End Counts.

(** ** Where the effects of the dual runner go *)

Module Routing.
Import Js.

(** The lines appended to the file [path], oldest first. *)
Fixpoint appended_to (path : string) (tr : list Event) : list LogLine :=
  match tr with
  | [] => []
  | FsAppend p l :: tr' =>
    if String.eqb p path then l :: appended_to path tr'
    else appended_to path tr'
  | _ :: tr' => appended_to path tr'
  end.

(** The effects that belong to an invocation
    [makeRequest(baseUrl, endpointPath, payload, _, type, gatewayId)] whose
    attempts are answered as [endpoint] says: a POST of [payload] to its own
    URL; for an image call, a GET of [baseUrl] followed by a [url] that the
    response to one of its attempts names (the two are concatenated as they
    are, so the result is on the host of the gateway only if that [url] is a
    path), and an image file in the directory of its gateway; a line
    appended to the log of its pair; timers and console output.  Creating a
    directory or overwriting a log file is not among them. *)
Definition on_target (baseUrl endpointPath : string) (payload : Payload)
    (type : Dual.CallType) (gatewayId : Dual.GatewayId) (endpoint : Endpoint)
    (ev : Event) : Prop :=
  match ev with
  | HttpPost u data => u = Dual.url baseUrl endpointPath /\ data = payload
  | HttpGet u =>
    type = Dual.Image
    /\ exists k response imgs relativeUrl,
         snd (settle Dual.TIMEOUT_MS (endpoint k)) = inl response
         /\ images response = Some imgs
         /\ In relativeUrl imgs
         /\ u = (baseUrl ++ relativeUrl)%string
  | FsWriteImage path => type = Dual.Image /\ path = Dual.imageDir gatewayId
  | FsAppend path _ => path = Dual.logFile type gatewayId
  | FsMkdir _ | FsWriteLog _ _ => False
  | Timer _ | Stdout _ | Stderr _ => True
  end.

(** The conditions under which [main] adds the tasks of a gateway and call
    type: [if (GATEWAYn_URL)], then the test on [TEST_MODE], then
    [if (imagePayload)] or [if (llmPayload)], a payload being built when the
    prompt that was read is not empty. *)
Definition tested (env : Dual.Env) (imagePrompt llmPrompt : JsString.jsstring)
    (gatewayId : Dual.GatewayId) (type : Dual.CallType) : bool :=
  negb (String.eqb (match gatewayId with
                    | Dual.Gateway1 => Dual.GATEWAY1_URL env
                    | Dual.Gateway2 => Dual.GATEWAY2_URL env
                    end) "")
  && match type with
     | Dual.Image =>
       (String.eqb (Dual.TEST_MODE env) "both"
        || String.eqb (Dual.TEST_MODE env) "image")
       && match imagePrompt with [] => false | _ :: _ => true end
     | Dual.LLM =>
       (String.eqb (Dual.TEST_MODE env) "both"
        || String.eqb (Dual.TEST_MODE env) "llm")
       && match llmPrompt with [] => false | _ :: _ => true end
     end.

(** [m] only adds effects that satisfy [P], whatever the world it starts in
    and however it ends. *)
Definition confined {G A} (P : Event -> Prop) (m : M G A) : Prop :=
  forall w, exists evs,
    trace (snd (m w)) = trace w ++ evs /\ Forall P evs.

End Routing.

(** * Properties of the embedding *)

Import JsString Js.

(** ** Traces *)

Lemma posts_app (tr1 tr2 : list Event) :
  posts (tr1 ++ tr2) = (posts tr1 + posts tr2)%nat.
Proof.
  induction tr1 as [|e tr1 IH]; simpl; [reflexivity|].
  destruct e; simpl; rewrite IH; reflexivity.
Qed.

Lemma http_requests_app (tr1 tr2 : list Event) :
  http_requests (tr1 ++ tr2) = (http_requests tr1 + http_requests tr2)%nat.
Proof.
  induction tr1 as [|e tr1 IH]; simpl; [reflexivity|].
  destruct e; simpl; rewrite IH; reflexivity.
Qed.

Lemma appended_app (tr1 tr2 : list Event) :
  appended (tr1 ++ tr2) = appended tr1 ++ appended tr2.
Proof.
  induction tr1 as [|e tr1 IH]; simpl; [reflexivity|].
  destruct e; simpl; rewrite IH; reflexivity.
Qed.

Lemma stderr_app (tr1 tr2 : list Event) :
  stderr (tr1 ++ tr2) = stderr tr1 ++ stderr tr2.
Proof.
  induction tr1 as [|e tr1 IH]; simpl; [reflexivity|].
  destruct e; simpl; rewrite IH; reflexivity.
Qed.

Lemma timers_app (tr1 tr2 : list Event) :
  timers (tr1 ++ tr2) = timers tr1 ++ timers tr2.
Proof.
  induction tr1 as [|e tr1 IH]; simpl; [reflexivity|].
  destruct e; simpl; rewrite IH; reflexivity.
Qed.

(** ** Settling of a POST *)

Lemma settle_time_nonneg (timeout : Z) (a : Attempt) :
  0 <= timeout -> 0 <= fst (settle timeout a).
Proof.
  intros Ht. unfold settle.
  destruct (timeout <? Z.of_N (latency a)); simpl; lia.
Qed.

Lemma timer_delay_pos (ms : Z) : 1 <= timer_delay ms.
Proof.
  unfold timer_delay.
  destruct (ms <? 1) eqn:E1; simpl; [lia|].
  destruct (2147483647 <? ms); lia.
Qed.

Lemma timer_delay_id (ms : Z) :
  1 <= ms <= 2147483647 -> timer_delay ms = ms.
Proof.
  intros [H1 H2]. unfold timer_delay.
  destruct (ms <? 1) eqn:E1; [lia|].
  destruct (2147483647 <? ms) eqn:E2; [lia|]. reflexivity.
Qed.
(** ** Symbolic execution of monadic code *)

Ltac run_m :=
  unfold axios_post, axios_get, fs_writeImage, console_log, console_error,
    fs_appendFileSync, fs_writeFileSync, fs_mkdirSync, fs_readFileSync, sleep,
    process_exit, out_of_fuel;
  unfold bind, try_catch, emit, elapse, date_now, ret, throw, modify_globals,
    get_globals;
  cbv beta iota zeta delta [now trace globals fst snd].

Ltac trace_eq := repeat rewrite <- app_assoc; reflexivity.

(** ** The LLM runner with retries (tests/imageStressTest.ts) *)

Section LlmRetryFacts.

Variable maxRetries : nat.
Variables (logFile url : string) (payload : Payload) (requestNum : nat).
Variable endpoint : Endpoint.
Variable startTime : Z.

Let attempt := LlmRetry.attempt maxRetries logFile url payload requestNum
                                endpoint startTime.
Let loop := LlmRetry.loop maxRetries logFile url payload requestNum endpoint
                          startTime.

(** An answered attempt returns success after the pause of one second. *)
Lemma llm_attempt_answered (k : nat) (w : World unit) (t : Z) (r : Response) :
  settle 300000 (endpoint k) = (t, inl r) ->
  let endTime := now w + t + (1000 + Z.of_N (timer_lag (endpoint k))) in
  attempt k w =
    (Ret (Return (LlmRetry.mkResult true (endTime - startTime) (Some k))),
     mkWorld endTime
       (trace w ++ [Stdout "Starting request"; Stdout "Payload";
                    HttpPost url payload; Stdout "Response status";
                    Stdout "Response data"; Timer 1000;
                    FsAppend logFile
                      (LineOk requestNum k startTime endTime
                              (endTime - startTime) None)])
       (globals w)).
Proof.
  intros H endTime. subst endTime. destruct w as [n tr g].
  unfold attempt, LlmRetry.attempt. run_m. rewrite H. run_m.
  change (timer_delay 1000) with 1000.
  f_equal. f_equal. trace_eq.
Qed.

(** A rejected attempt below the ceiling waits and asks for another one. *)
Lemma llm_attempt_retry (k : nat) (w : World unit) (t : Z) (e : Error) :
  settle 300000 (endpoint k) = (t, inr e) ->
  k <> maxRetries ->
  attempt k w =
    (Ret (Next (S k)),
     mkWorld (now w + t + (1000 + Z.of_N (timer_lag (endpoint k))))
       (trace w ++ [Stdout "Starting request"; Stdout "Payload";
                    HttpPost url payload; Stderr "Failed with error";
                    Stdout "Retrying"; Timer LlmRetry.RETRY_DELAY])
       (globals w)).
Proof.
  intros H Hk. destruct w as [n tr g].
  unfold attempt, LlmRetry.attempt. run_m. rewrite H. run_m.
  apply Nat.eqb_neq in Hk. rewrite Hk. run_m.
  change (timer_delay LlmRetry.RETRY_DELAY) with 1000.
  f_equal. f_equal. trace_eq.
Qed.

(** A rejected attempt at the ceiling returns the failure. *)
Lemma llm_attempt_final (w : World unit) (t : Z) (e : Error) :
  settle 300000 (endpoint maxRetries) = (t, inr e) ->
  let endTime := now w + t in
  attempt maxRetries w =
    (Ret (Return (LlmRetry.mkResult false (endTime - startTime)
                                    (Some maxRetries))),
     mkWorld endTime
       (trace w ++ [Stdout "Starting request"; Stdout "Payload";
                    HttpPost url payload; Stderr "Failed with error";
                    FsAppend logFile
                      (LineFailed requestNum (Some maxRetries) startTime
                                  endTime (endTime - startTime) (message e))])
       (globals w)).
Proof.
  intros H endTime. subst endTime. destruct w as [n tr g].
  unfold attempt, LlmRetry.attempt. run_m. rewrite H. run_m.
  rewrite Nat.eqb_refl. run_m.
  f_equal. f_equal. trace_eq.
Qed.

(** The loop as an invariant rule: if every attempt either establishes the
    postcondition or re-establishes the invariant for the next counter, the
    loop returns a result that satisfies the postcondition. *)
Lemma llm_loop_rule (I : nat -> World unit -> Prop)
    (Q : LlmRetry.RequestResult -> World unit -> Prop) :
  (forall k w, (k <= maxRetries)%nat -> I k w ->
     match attempt k w with
     | (Ret (Return r), w') => Q r w'
     | (Ret (Next k'), w') => k' = S k /\ (k < maxRetries)%nat /\ I k' w'
     | _ => False
     end) ->
  forall n k w fuel,
    (k + n = maxRetries)%nat -> (n < fuel)%nat -> I k w ->
    exists r w', loop fuel k w = (Ret r, w') /\ Q r w'.
Proof.
  intros Hstep. induction n as [|n IH]; intros k w fuel Hk Hfuel HI.
  - destruct fuel as [|fuel]; [lia|].
    unfold loop. simpl.
    replace (Nat.leb k maxRetries) with true by (symmetry; apply Nat.leb_le; lia).
    unfold bind. fold attempt.
    specialize (Hstep k w ltac:(lia) HI).
    destruct (attempt k w) as [[[r|c|c]|e|c|] w']; try contradiction.
    + exists r, w'. split; [reflexivity|assumption].
    + lia.
  - destruct fuel as [|fuel]; [lia|].
    unfold loop. simpl.
    replace (Nat.leb k maxRetries) with true by (symmetry; apply Nat.leb_le; lia).
    unfold bind. fold attempt.
    specialize (Hstep k w ltac:(lia) HI).
    destruct (attempt k w) as [[[r|c|c]|e|c|] w']; try contradiction.
    + exists r, w'. split; [reflexivity|assumption].
    + destruct Hstep as (-> & Hlt & HI').
      apply (IH (S k) w' fuel); [lia|lia|assumption].
Qed.

End LlmRetryFacts.

(** ** The image runner with retries (scripts/livepeer/imageStressTest.ts) *)

Lemma images_time_nonneg (a : Attempt) (imgs : list string) (i : nat) :
  0 <= images_time a i imgs.
Proof.
  revert i. induction imgs as [|u imgs IH]; intros i; simpl; [lia|].
  specialize (IH (S i)). lia.
Qed.

Section ImageScriptFacts.

Variable maxRetries : nat.
Variable retryDelayMs : Z.
Variable gatewayUrl : option string.
Variables (url : string) (payload : Payload) (requestNum : nat).
Variable endpoint : Endpoint.

Let attempt := ImageScript.attempt maxRetries retryDelayMs gatewayUrl url
                                   payload requestNum endpoint.
Let loop := ImageScript.loop maxRetries retryDelayMs gatewayUrl url payload
                             requestNum endpoint.

(** Fetching and saving one image never throws: a failure is reported on
    stderr and swallowed. *)
Lemma image_save_one (a : Attempt) (i : nat) (u : string) (w : World unit) :
  exists evs,
    ImageScript.save_image gatewayUrl a i u w =
      (Ret tt, mkWorld (now w + Z.of_N (fetch_latency (image_io a i)))
                       (trace w ++ evs) (globals w))
    /\ posts evs = 0%nat /\ appended evs = [] /\ timers evs = []
    /\ stderr evs =
       repeat "Failed to save image"
              (if fetch_ok (image_io a i) && save_ok (image_io a i) then 0 else 1).
Proof.
  destruct w as [n tr g]. unfold ImageScript.save_image. run_m.
  destruct (fetch_ok (image_io a i)); run_m;
    [destruct (save_ok (image_io a i)); run_m|];
    eexists; (split; [f_equal; f_equal; trace_eq|]); simpl; auto.
Qed.

(** Fetching and saving the images never throws, whatever fails; it issues no
    POST, appends nothing to the log and reports every failure on stderr. *)
Lemma image_save_all (a : Attempt) (imgs : list string) (i : nat)
    (w : World unit) :
  exists evs,
    for_each (ImageScript.save_image gatewayUrl a) i imgs w =
      (Ret tt, mkWorld (now w + images_time a i imgs) (trace w ++ evs)
                       (globals w))
    /\ posts evs = 0%nat /\ appended evs = [] /\ timers evs = []
    /\ stderr evs = repeat "Failed to save image" (failed_images a i imgs).
Proof.
  revert i w. induction imgs as [|u imgs IH]; intros i w.
  - exists []. destruct w as [n tr g]. simpl. unfold ret. simpl.
    rewrite app_nil_r, Z.add_0_r. auto.
  - simpl for_each. unfold bind.
    destruct (image_save_one a i u w) as (evs1 & -> & Hp1 & Ha1 & Ht1 & He1).
    match goal with |- context [for_each _ _ _ ?w0] =>
      destruct (IH (S i) w0) as (evs & -> & Hp & Ha & Ht & He) end.
    exists (evs1 ++ evs).
    cbv beta iota zeta delta [now trace globals fst snd].
    simpl images_time. simpl failed_images.
    rewrite posts_app, appended_app, timers_app, stderr_app.
    rewrite Hp1, Hp, Ha1, Ha, Ht1, Ht, He1, He, repeat_app.
    repeat split.
    f_equal. f_equal; [lia | trace_eq].
Qed.

(** An answered attempt returns success, whatever happens to the images; the
    duration starts at the beginning of this attempt. *)
Lemma img_attempt_answered (k : nat) (w : World unit) (t : Z) (r : Response) :
  settle 300000 (endpoint k) = (t, inl r) ->
  let a := endpoint k in
  let endTime :=
    now w + t + images_time a 0 (images_of r) + (1000 + Z.of_N (timer_lag a)) in
  exists evs,
    attempt k w =
      (Ret (Return (ImageScript.mkResult true (endTime - now w)
                                         (Some (Z.of_nat k)))),
       mkWorld endTime (trace w ++ evs) (globals w))
    /\ posts evs = 1%nat
    /\ appended evs =
       [LineOk requestNum k (now w) endTime (endTime - now w) None]
    /\ timers evs = [1000]
    /\ stderr evs =
       repeat "Failed to save image" (failed_images a 0 (images_of r)).
Proof.
  intros H a endTime. subst a endTime. destruct w as [n tr g].
  unfold attempt, ImageScript.attempt. run_m. rewrite H. run_m.
  change (timer_delay 1000) with 1000.
  unfold images_of. destruct (images r) as [imgs|].
  - match goal with |- context [for_each _ _ _ ?w0] =>
      destruct (image_save_all (endpoint k) imgs 0 w0)
        as (evs & -> & Hp & Ha & Ht & He) end.
    run_m. eexists. split; [f_equal; f_equal; trace_eq|].
    simpl. rewrite posts_app, appended_app, timers_app, stderr_app.
    rewrite Hp, Ha, Ht, He. simpl. rewrite app_nil_r. auto.
  - run_m. simpl images_time. rewrite Z.add_0_r.
    eexists. split; [f_equal; f_equal; trace_eq|]. simpl. auto.
Qed.

(** A rejected attempt below the ceiling waits and asks for another one. *)
Lemma img_attempt_retry (k : nat) (w : World unit) (t : Z) (e : Error) :
  settle 300000 (endpoint k) = (t, inr e) ->
  (k < maxRetries)%nat ->
  exists evs,
    attempt k w =
      (Ret (Next (S k)),
       mkWorld (now w + t + (timer_delay retryDelayMs
                             + Z.of_N (timer_lag (endpoint k))))
               (trace w ++ evs) (globals w))
    /\ posts evs = 1%nat /\ appended evs = [] /\ timers evs = [retryDelayMs]
    /\ stderr evs = ["Failed with error"].
Proof.
  intros H Hk. destruct w as [n tr g].
  unfold attempt, ImageScript.attempt. run_m. rewrite H. run_m.
  replace (Nat.ltb maxRetries (S k)) with false
    by (symmetry; apply Nat.ltb_ge; lia).
  run_m. eexists. split; [f_equal; f_equal; trace_eq|]. simpl. auto.
Qed.

(** A rejected attempt at the ceiling logs the failure and leaves the loop. *)
Lemma img_attempt_final (k : nat) (w : World unit) (t : Z) (e : Error) :
  settle 300000 (endpoint k) = (t, inr e) ->
  (maxRetries <= k)%nat ->
  exists evs,
    attempt k w =
      (Ret (Break (S k)), mkWorld (now w + t) (trace w ++ evs) (globals w))
    /\ posts evs = 1%nat
    /\ appended evs =
       [LineFailed requestNum (Some k) (now w) (now w + t) (now w + t - now w)
                   (message e)]
    /\ timers evs = [] /\ stderr evs = ["Failed with error"].
Proof.
  intros H Hk. destruct w as [n tr g].
  unfold attempt, ImageScript.attempt. run_m. rewrite H. run_m.
  replace (Nat.ltb maxRetries (S k)) with true
    by (symmetry; apply Nat.ltb_lt; lia).
  run_m. replace (S k - 1)%nat with k by lia.
  eexists. split; [f_equal; f_equal; trace_eq|]. simpl. auto.
Qed.

(** The loop as an invariant rule. *)
Lemma img_loop_rule (I : nat -> World unit -> Prop)
    (Q : ImageScript.RequestResult -> World unit -> Prop) :
  (forall k w, (k <= maxRetries)%nat -> I k w ->
     match attempt k w with
     | (Ret (Return r), w') => Q r w'
     | (Ret (Next k'), w') => k' = S k /\ (k < maxRetries)%nat /\ I k' w'
     | (Ret (Break k'), w') =>
       Q (ImageScript.mkResult false 0 (Some (Z.of_nat k' - 1))) w'
     | _ => False
     end) ->
  forall n k w fuel,
    (k + n = maxRetries)%nat -> (n < fuel)%nat -> I k w ->
    exists r w', loop fuel k w = (Ret r, w') /\ Q r w'.
Proof.
  intros Hstep. induction n as [|n IH]; intros k w fuel Hk Hfuel HI;
    (destruct fuel as [|fuel]; [lia|]);
    unfold loop; simpl;
    (replace (Nat.leb k maxRetries) with true
       by (symmetry; apply Nat.leb_le; lia));
    unfold bind; fold attempt;
    specialize (Hstep k w ltac:(lia) HI);
    destruct (attempt k w) as [[[r|c|c]|e|c|] w']; try contradiction;
    try (exists r, w'; split; [reflexivity|assumption]);
    try (eexists; eexists; split; [reflexivity|assumption]).
  - lia.
  - destruct Hstep as (-> & Hlt & HI').
    apply (IH (S k) w' fuel); [lia|lia|assumption].
Qed.

End ImageScriptFacts.

(** ** The dual-gateway runner (scripts/livepeer/dualStressTest.ts) *)

Lemma timeout_ms_nonneg : 0 <= Dual.TIMEOUT_MS.
Proof. unfold Dual.TIMEOUT_MS. lia. Qed.

Section DualFacts.

Variable maxRetries : nat.
Variables (baseUrl endpointPath : string) (payload : Payload)
          (requestNum : nat) (type : Dual.CallType)
          (gatewayId : Dual.GatewayId).
Variable endpoint : Endpoint.
Variable startTime : Z.

Let attempt := Dual.attempt maxRetries baseUrl endpointPath payload requestNum
                            type gatewayId endpoint startTime.
Let loop := Dual.loop maxRetries baseUrl endpointPath payload requestNum type
                      gatewayId endpoint startTime.
Let logFile := Dual.logFile type gatewayId.

Let counted := Dual.counted gatewayId type.
Let fetched := Dual.fetched type.

Lemma dual_save_one (a : Attempt) (i : nat) (u : string)
    (w : World Dual.Globals) :
  exists evs,
    Dual.save_image baseUrl gatewayId a i u w =
      (Ret tt, mkWorld (now w + Z.of_N (fetch_latency (image_io a i)))
                       (trace w ++ evs) (globals w))
    /\ posts evs = 0%nat /\ appended evs = [] /\ timers evs = []
    /\ stderr evs =
       repeat "Failed to fetch/save image"
              (if fetch_ok (image_io a i) && save_ok (image_io a i) then 0 else 1).
Proof.
  destruct w as [n tr g]. unfold Dual.save_image. run_m.
  destruct (fetch_ok (image_io a i)); run_m;
    [destruct (save_ok (image_io a i)); run_m|];
    eexists; (split; [f_equal; f_equal; trace_eq|]); simpl; auto.
Qed.

Lemma dual_save_all (a : Attempt) (imgs : list string) (i : nat)
    (w : World Dual.Globals) :
  exists evs,
    for_each (Dual.save_image baseUrl gatewayId a) i imgs w =
      (Ret tt, mkWorld (now w + images_time a i imgs) (trace w ++ evs)
                       (globals w))
    /\ posts evs = 0%nat /\ appended evs = [] /\ timers evs = []
    /\ stderr evs = repeat "Failed to fetch/save image" (failed_images a i imgs).
Proof.
  revert i w. induction imgs as [|u imgs IH]; intros i w.
  - exists []. destruct w as [n tr g]. simpl. unfold ret. simpl.
    rewrite app_nil_r, Z.add_0_r. auto.
  - simpl for_each. unfold bind.
    destruct (dual_save_one a i u w) as (evs1 & -> & Hp1 & Ha1 & Ht1 & He1).
    match goal with |- context [for_each _ _ _ ?w0] =>
      destruct (IH (S i) w0) as (evs & -> & Hp & Ha & Ht & He) end.
    exists (evs1 ++ evs).
    cbv beta iota zeta delta [now trace globals fst snd].
    simpl images_time. simpl failed_images.
    rewrite posts_app, appended_app, timers_app, stderr_app.
    rewrite Hp1, Hp, Ha1, Ha, Ht1, Ht, He1, He, repeat_app.
    repeat split.
    f_equal. f_equal; [lia | trace_eq].
Qed.

Lemma retries_update (c k : nat) :
  (if Nat.ltb 0 k then c + k else c)%nat = (c + k)%nat.
Proof. destruct k; simpl; lia. Qed.

(** An answered attempt counts a success for its pair and returns it; the
    duration starts at the beginning of the invocation. *)
Lemma dual_attempt_answered (k : nat) (w : World Dual.Globals) (t : Z)
    (r : Response) :
  settle Dual.TIMEOUT_MS (endpoint k) = (t, inl r) ->
  let a := endpoint k in
  let endTime :=
    now w + t + images_time a 0 (fetched r) + (1000 + Z.of_N (timer_lag a)) in
  let res := Dual.mkResult true (endTime - startTime) (Some k)
                           (Some (Js.status r)) in
  exists evs,
    attempt k w =
      (Ret (Return res),
       mkWorld endTime (trace w ++ evs) (counted res (globals w)))
    /\ posts evs = 1%nat
    /\ appended evs =
       [LineOk requestNum k startTime endTime (endTime - startTime)
               (Some (Js.status r))]
    /\ timers evs = [1000]
    /\ stderr evs =
       repeat "Failed to fetch/save image" (failed_images a 0 (fetched r)).
Proof.
  intros H a endTime res. subst a endTime res. destruct w as [n tr g].
  unfold attempt, Dual.attempt. run_m. rewrite H. run_m.
  change (timer_delay 1000) with 1000.
  unfold Dual.record_success, counted, Dual.counted, Dual.tally, fetched,
    Dual.fetched, Dual.retryCount_or_0.
  cbn [Dual.success Dual.duration Dual.retryCount].
  destruct type; [|destruct (images r) as [imgs|]].
  - run_m. rewrite retries_update, Nat.add_0_r. simpl images_time.
    rewrite Z.add_0_r.
    eexists. split; [f_equal; f_equal; trace_eq|]. simpl. auto.
  - match goal with |- context [for_each _ _ _ ?w0] =>
      destruct (dual_save_all (endpoint k) imgs 0 w0)
        as (evs & -> & Hp & Ha & Ht & He) end.
    run_m. rewrite retries_update, Nat.add_0_r.
    eexists. split; [f_equal; f_equal; trace_eq|].
    simpl. rewrite posts_app, appended_app, timers_app, stderr_app.
    rewrite Hp, Ha, Ht, He. simpl. rewrite app_nil_r. auto.
  - run_m. rewrite retries_update, Nat.add_0_r. simpl images_time.
    rewrite Z.add_0_r.
    eexists. split; [f_equal; f_equal; trace_eq|]. simpl. auto.
Qed.

(** A rejected attempt below the ceiling waits and asks for another one; the
    counters are left alone. *)
Lemma dual_attempt_retry (k : nat) (w : World Dual.Globals) (t : Z)
    (e : Error) :
  settle Dual.TIMEOUT_MS (endpoint k) = (t, inr e) ->
  (k < maxRetries)%nat ->
  exists evs,
    attempt k w =
      (Ret (Next (S k)),
       mkWorld (now w + t + (2000 + Z.of_N (timer_lag (endpoint k))))
               (trace w ++ evs) (globals w))
    /\ posts evs = 1%nat /\ appended evs = []
    /\ timers evs = [Dual.RETRY_DELAY_MS] /\ stderr evs = ["Error"].
Proof.
  intros H Hk. destruct w as [n tr g].
  unfold attempt, Dual.attempt. run_m. rewrite H. run_m.
  replace (Nat.leb maxRetries k) with false
    by (symmetry; apply Nat.leb_gt; lia).
  run_m. change (timer_delay Dual.RETRY_DELAY_MS) with 2000.
  eexists. split; [f_equal; f_equal; trace_eq|]. simpl. auto.
Qed.

(** A rejected attempt at the ceiling counts a failure for its pair, logs it
    and leaves the loop. *)
Lemma dual_attempt_final (k : nat) (w : World Dual.Globals) (t : Z)
    (e : Error) :
  settle Dual.TIMEOUT_MS (endpoint k) = (t, inr e) ->
  (maxRetries <= k)%nat ->
  let res := Dual.mkResult false 0 (Some k) None in
  exists evs,
    attempt k w =
      (Ret (Break k),
       mkWorld (now w + t) (trace w ++ evs) (counted res (globals w)))
    /\ posts evs = 1%nat
    /\ appended evs =
       [LineFailed requestNum (Some k) startTime (now w + t)
                   (now w + t - startTime) (message e)]
    /\ timers evs = [] /\ stderr evs = ["Error"].
Proof.
  intros H Hk res. subst res. destruct w as [n tr g].
  unfold attempt, Dual.attempt. run_m. rewrite H. run_m.
  replace (Nat.leb maxRetries k) with true
    by (symmetry; apply Nat.leb_le; lia).
  unfold Dual.record_failure, counted, Dual.counted, Dual.tally,
    Dual.retryCount_or_0.
  run_m. cbn [Dual.success Dual.duration Dual.retryCount].
  rewrite retries_update, Z.add_0_r, Nat.add_0_r.
  eexists. split; [f_equal; f_equal; trace_eq|]. simpl. auto.
Qed.

(** The loop as an invariant rule. *)
Lemma dual_loop_rule (I : nat -> World Dual.Globals -> Prop)
    (Q : Dual.RequestResult -> World Dual.Globals -> Prop) :
  (forall k w, (k <= maxRetries)%nat -> I k w ->
     match attempt k w with
     | (Ret (Return r), w') => Q r w'
     | (Ret (Next k'), w') => k' = S k /\ (k < maxRetries)%nat /\ I k' w'
     | (Ret (Break k'), w') => Q (Dual.mkResult false 0 (Some k') None) w'
     | _ => False
     end) ->
  forall n k w fuel,
    (k + n = maxRetries)%nat -> (n < fuel)%nat -> I k w ->
    exists r w', loop fuel k w = (Ret r, w') /\ Q r w'.
Proof.
  intros Hstep. induction n as [|n IH]; intros k w fuel Hk Hfuel HI;
    (destruct fuel as [|fuel]; [lia|]);
    unfold loop; simpl;
    (replace (Nat.leb k maxRetries) with true
       by (symmetry; apply Nat.leb_le; lia));
    unfold bind; fold attempt;
    specialize (Hstep k w ltac:(lia) HI);
    destruct (attempt k w) as [[[r|c|c]|e|c|] w']; try contradiction;
    try (exists r, w'; split; [reflexivity|assumption]);
    try (eexists; eexists; split; [reflexivity|assumption]).
  - lia.
  - destruct Hstep as (-> & Hlt & HI').
    apply (IH (S k) w' fuel); [lia|lia|assumption].
Qed.

End DualFacts.

(** ** What an invocation returns, for every behaviour of the endpoint *)

Lemma rejected_inr (timeout : Z) (a : Attempt) (t : Z) (e : Error) :
  settle timeout a = (t, inr e) -> rejected timeout a = true.
Proof. unfold rejected. intros ->. reflexivity. Qed.

Lemma rejected_inl (timeout : Z) (a : Attempt) (t : Z) (r : Response) :
  settle timeout a = (t, inl r) -> rejected timeout a = false.
Proof. unfold rejected. intros ->. reflexivity. Qed.

Lemma retry_time_nonneg (timeout delay : Z) (endpoint : Endpoint) (k : nat) :
  0 <= timeout -> 0 <= retry_time timeout delay endpoint k.
Proof.
  intros Ht. induction k as [|k IH]; simpl; [lia|].
  pose proof (settle_time_nonneg timeout (endpoint k) Ht).
  pose proof (timer_delay_pos delay). lia.
Qed.

(** The retry delays are part of the time the rejected attempts take. *)
Lemma retry_time_delays (timeout delay : Z) (endpoint : Endpoint) (k : nat) :
  0 <= timeout ->
  Z.of_nat k * timer_delay delay <= retry_time timeout delay endpoint k.
Proof.
  intros Ht. induction k as [|k IH]; [simpl; lia|].
  cbn [retry_time].
  pose proof (settle_time_nonneg timeout (endpoint k) Ht).
  pose proof (timer_delay_pos delay). nia.
Qed.

Lemma answer_time_bound (timeout : Z) (a : Attempt) (imgs : list string) :
  0 <= timeout -> 1000 <= answer_time timeout a imgs.
Proof.
  intros Ht. unfold answer_time.
  pose proof (settle_time_nonneg timeout a Ht).
  pose proof (images_time_nonneg a imgs 0). lia.
Qed.

Lemma lt_succ_cases (P : nat -> Prop) (k : nat) :
  (forall j, (j < k)%nat -> P j) -> P k -> forall j, (j < S k)%nat -> P j.
Proof.
  intros Hlt Hk j Hj. destruct (Nat.eq_dec j k) as [->|Hne]; [assumption|].
  apply Hlt. lia.
Qed.

Ltac obs :=
  cbn [posts http_requests appended timers stderr app fst snd images_time
       failed_images negb repeat is_ok_line is_failed_line Nat.add].

Section LlmRetryRunner.

Variable maxRetries : nat.
Variables (logFile url : string) (payload : Payload) (requestNum : nat).
Variable endpoint : Endpoint.

(** The runner always returns.  It returns after the first attempt [k] that
    is answered, or after attempt [maxRetries]; the result carries [k], the
    time since the invocation started, and exactly one line is logged. *)
Lemma llm_makeRequest_spec (w : World unit) :
  exists r w' evs k,
    LlmRetry.makeRequest maxRetries logFile url payload requestNum endpoint w
      = (Ret r, w')
    /\ trace w' = trace w ++ evs /\ globals w' = globals w
    /\ LlmRetry.retries r = Some k /\ (k <= maxRetries)%nat
    /\ (forall j, (j < k)%nat -> rejected 300000 (endpoint j) = true)
    /\ LlmRetry.success r = negb (rejected 300000 (endpoint k))
    /\ (LlmRetry.success r = false -> k = maxRetries)
    /\ LlmRetry.duration r = now w' - now w
    /\ now w' = now w + retry_time 300000 LlmRetry.RETRY_DELAY endpoint k
                + (if LlmRetry.success r
                   then answer_time 300000 (endpoint k) []
                   else fst (settle 300000 (endpoint k)))
    /\ posts evs = S k
    /\ timers evs = repeat LlmRetry.RETRY_DELAY k
                    ++ (if LlmRetry.success r then [1000] else [])
    /\ exists line, appended evs = [line]
       /\ (if LlmRetry.success r then is_ok_line line else is_failed_line line)
          = true.
Proof.
  unfold LlmRetry.makeRequest, bind, date_now.
  set (I := fun (k : nat) (w1 : World unit) =>
    exists evs, trace w1 = trace w ++ evs /\ globals w1 = globals w
      /\ now w1 = now w + retry_time 300000 LlmRetry.RETRY_DELAY endpoint k
      /\ posts evs = k /\ appended evs = []
      /\ timers evs = repeat LlmRetry.RETRY_DELAY k
      /\ forall j, (j < k)%nat -> rejected 300000 (endpoint j) = true).
  set (Q := fun (r : LlmRetry.RequestResult) (w' : World unit) =>
    exists evs k,
      trace w' = trace w ++ evs /\ globals w' = globals w
      /\ LlmRetry.retries r = Some k /\ (k <= maxRetries)%nat
      /\ (forall j, (j < k)%nat -> rejected 300000 (endpoint j) = true)
      /\ LlmRetry.success r = negb (rejected 300000 (endpoint k))
      /\ (LlmRetry.success r = false -> k = maxRetries)
      /\ LlmRetry.duration r = now w' - now w
      /\ now w' = now w + retry_time 300000 LlmRetry.RETRY_DELAY endpoint k
                  + (if LlmRetry.success r
                     then answer_time 300000 (endpoint k) []
                     else fst (settle 300000 (endpoint k)))
      /\ posts evs = S k
      /\ timers evs = repeat LlmRetry.RETRY_DELAY k
                      ++ (if LlmRetry.success r then [1000] else [])
      /\ exists line, appended evs = [line]
         /\ (if LlmRetry.success r then is_ok_line line else is_failed_line line)
            = true).
  destruct (llm_loop_rule maxRetries logFile url payload requestNum endpoint
              (now w) I Q) with (n := maxRetries) (k := 0%nat) (w := w)
              (fuel := S (S maxRetries)) as (r & w' & Hrun & evs & k & HQ).
  - intros k w1 Hk (evs & Htr & Hg & Hnow & Hp & Ha & Ht & Hrej).
    destruct (settle 300000 (endpoint k)) as [t [r|e]] eqn:Hs.
    + rewrite (llm_attempt_answered _ _ _ _ _ _ _ k w1 t r Hs).
      exists (evs ++ [Stdout "Starting request"; Stdout "Payload";
                 HttpPost url payload; Stdout "Response status";
                 Stdout "Response data"; Timer 1000;
                 FsAppend logFile
                   (LineOk requestNum k (now w)
                      (now w1 + t + (1000 + Z.of_N (timer_lag (endpoint k))))
                      (now w1 + t + (1000 + Z.of_N (timer_lag (endpoint k)))
                       - now w) None)]), k.
      cbn [now trace globals LlmRetry.success LlmRetry.retries LlmRetry.duration].
      rewrite (rejected_inl _ _ _ _ Hs), posts_app, timers_app, appended_app,
        Hp, Ha, Ht, Htr, Hnow.
      unfold answer_time. rewrite Hs. obs.
      repeat split; auto; try lia; try trace_eq; try discriminate.
      eexists; split; reflexivity.
    + destruct (Nat.eq_dec k maxRetries) as [->|Hne].
      * rewrite (llm_attempt_final _ _ _ _ _ _ _ w1 t e Hs).
        exists (evs ++ [Stdout "Starting request"; Stdout "Payload";
                   HttpPost url payload; Stderr "Failed with error";
                   FsAppend logFile
                     (LineFailed requestNum (Some maxRetries) (now w)
                        (now w1 + t) (now w1 + t - now w) (message e))]),
               maxRetries.
        cbn [now trace globals LlmRetry.success LlmRetry.retries
             LlmRetry.duration].
        rewrite (rejected_inr _ _ _ _ Hs), posts_app, timers_app, appended_app,
          Hp, Ha, Ht, Htr, Hnow.
        rewrite Hs. obs.
        repeat split; auto; try lia; try trace_eq.
        eexists; split; reflexivity.
      * rewrite (llm_attempt_retry _ _ _ _ _ _ _ k w1 t e Hs Hne).
        split; [reflexivity|]. split; [lia|].
        exists (evs ++ [Stdout "Starting request"; Stdout "Payload";
                   HttpPost url payload; Stderr "Failed with error";
                   Stdout "Retrying"; Timer LlmRetry.RETRY_DELAY]).
        cbn [now trace globals].
        rewrite posts_app, timers_app, appended_app, Hp, Ha, Ht, Htr, Hnow.
        cbn [retry_time]. rewrite Hs. obs.
        repeat split; auto; try lia; try trace_eq.
        -- change (timer_delay LlmRetry.RETRY_DELAY) with 1000. lia.
        -- symmetry. apply repeat_cons.
        -- apply lt_succ_cases; [assumption|].
           apply (rejected_inr _ _ _ _ Hs).
  - lia.
  - lia.
  - exists []. rewrite app_nil_r. simpl.
    repeat split; auto; try lia.
  - exists r, w', evs, k. split; [exact Hrun|exact HQ].
Qed.

End LlmRetryRunner.

Section ImageScriptRunner.

Variable maxRetries : nat.
Variable retryDelayMs : Z.
Variable gatewayUrl : option string.
Variables (url : string) (payload : Payload) (requestNum : nat).
Variable endpoint : Endpoint.

(** The runner always returns.  It returns after the first attempt [k] that
    is answered, or after attempt [maxRetries]; a success reports the time of
    the answered attempt alone, a failure reports 0; exactly one line is
    logged, and image failures only show on stderr. *)
Lemma img_makeRequest_spec (w : World unit) :
  exists r w' evs k,
    ImageScript.makeRequest maxRetries retryDelayMs gatewayUrl url payload
                            requestNum endpoint w = (Ret r, w')
    /\ trace w' = trace w ++ evs /\ globals w' = globals w
    /\ ImageScript.retryCount r = Some (Z.of_nat k) /\ (k <= maxRetries)%nat
    /\ (forall j, (j < k)%nat -> rejected 300000 (endpoint j) = true)
    /\ ImageScript.success r = negb (rejected 300000 (endpoint k))
    /\ (ImageScript.success r = false -> k = maxRetries)
    /\ ImageScript.duration r =
       (if ImageScript.success r
        then answer_time 300000 (endpoint k)
                         (answer_images 300000 (endpoint k))
        else 0)
    /\ now w' = now w + retry_time 300000 retryDelayMs endpoint k
                + (if ImageScript.success r
                   then answer_time 300000 (endpoint k)
                                    (answer_images 300000 (endpoint k))
                   else fst (settle 300000 (endpoint k)))
    /\ posts evs = S k
    /\ timers evs = repeat retryDelayMs k
                    ++ (if ImageScript.success r then [1000] else [])
    /\ stderr evs =
       (if ImageScript.success r
        then repeat "Failed with error" k
             ++ repeat "Failed to save image"
                  (failed_images (endpoint k) 0
                                 (answer_images 300000 (endpoint k)))
        else repeat "Failed with error" (S k))
    /\ exists line, appended evs = [line]
       /\ (if ImageScript.success r then is_ok_line line
           else is_failed_line line) = true.
Proof.
  unfold ImageScript.makeRequest.
  set (I := fun (k : nat) (w1 : World unit) =>
    exists evs, trace w1 = trace w ++ evs /\ globals w1 = globals w
      /\ now w1 = now w + retry_time 300000 retryDelayMs endpoint k
      /\ posts evs = k /\ appended evs = []
      /\ timers evs = repeat retryDelayMs k
      /\ stderr evs = repeat "Failed with error" k
      /\ forall j, (j < k)%nat -> rejected 300000 (endpoint j) = true).
  set (Q := fun (r : ImageScript.RequestResult) (w' : World unit) =>
    exists evs k,
      trace w' = trace w ++ evs /\ globals w' = globals w
      /\ ImageScript.retryCount r = Some (Z.of_nat k) /\ (k <= maxRetries)%nat
      /\ (forall j, (j < k)%nat -> rejected 300000 (endpoint j) = true)
      /\ ImageScript.success r = negb (rejected 300000 (endpoint k))
      /\ (ImageScript.success r = false -> k = maxRetries)
      /\ ImageScript.duration r =
         (if ImageScript.success r
          then answer_time 300000 (endpoint k)
                           (answer_images 300000 (endpoint k))
          else 0)
      /\ now w' = now w + retry_time 300000 retryDelayMs endpoint k
                  + (if ImageScript.success r
                     then answer_time 300000 (endpoint k)
                                      (answer_images 300000 (endpoint k))
                     else fst (settle 300000 (endpoint k)))
      /\ posts evs = S k
      /\ timers evs = repeat retryDelayMs k
                      ++ (if ImageScript.success r then [1000] else [])
      /\ stderr evs =
         (if ImageScript.success r
          then repeat "Failed with error" k
               ++ repeat "Failed to save image"
                    (failed_images (endpoint k) 0
                                   (answer_images 300000 (endpoint k)))
          else repeat "Failed with error" (S k))
      /\ exists line, appended evs = [line]
         /\ (if ImageScript.success r then is_ok_line line
             else is_failed_line line) = true).
  destruct (img_loop_rule maxRetries retryDelayMs gatewayUrl url payload
              requestNum endpoint I Q) with (n := maxRetries) (k := 0%nat)
              (w := w) (fuel := S (S maxRetries))
    as (r & w' & Hrun & evs & k & HQ).
  - intros k w1 Hk (evs & Htr & Hg & Hnow & Hp & Ha & Ht & He & Hrej).
    destruct (settle 300000 (endpoint k)) as [t [r|e]] eqn:Hs.
    + destruct (img_attempt_answered maxRetries retryDelayMs gatewayUrl url
                  payload requestNum endpoint k w1 t r Hs)
        as (evs1 & -> & Hp1 & Ha1 & Ht1 & He1).
      exists (evs ++ evs1), k.
      cbn [now trace globals ImageScript.success ImageScript.retryCount
           ImageScript.duration].
      rewrite (rejected_inl _ _ _ _ Hs), posts_app, timers_app, appended_app,
        stderr_app, Hp, Ha, Ht, He, Htr, Hnow, Hp1, Ha1, Ht1, He1.
      unfold answer_time, answer_images. rewrite Hs. obs.
      repeat split; auto; try lia; try trace_eq; try discriminate.
      eexists; split; reflexivity.
    + destruct (Nat.eq_dec k maxRetries) as [->|Hne].
      * destruct (img_attempt_final maxRetries retryDelayMs gatewayUrl url
                    payload requestNum endpoint maxRetries w1 t e Hs
                    (Nat.le_refl _))
          as (evs1 & -> & Hp1 & Ha1 & Ht1 & He1).
        exists (evs ++ evs1), maxRetries.
        cbn [now trace globals ImageScript.success ImageScript.retryCount
             ImageScript.duration].
        rewrite (rejected_inr _ _ _ _ Hs), posts_app, timers_app, appended_app,
          stderr_app, Hp, Ha, Ht, He, Htr, Hnow, Hp1, Ha1, Ht1, He1.
        rewrite Hs. obs.
        repeat split; auto; try lia; try trace_eq.
        -- f_equal. lia.
        -- symmetry. apply repeat_cons.
        -- eexists; split; reflexivity.
      * destruct (img_attempt_retry maxRetries retryDelayMs gatewayUrl url
                    payload requestNum endpoint k w1 t e Hs ltac:(lia))
          as (evs1 & -> & Hp1 & Ha1 & Ht1 & He1).
        split; [reflexivity|]. split; [lia|].
        exists (evs ++ evs1).
        cbn [now trace globals].
        rewrite posts_app, timers_app, appended_app, stderr_app,
          Hp, Ha, Ht, He, Htr, Hnow, Hp1, Ha1, Ht1, He1.
        cbn [retry_time]. rewrite Hs. obs.
        repeat split; auto; try lia; try trace_eq.
        -- symmetry. apply repeat_cons.
        -- symmetry. apply repeat_cons.
        -- apply lt_succ_cases; [assumption|].
           apply (rejected_inr _ _ _ _ Hs).
  - lia.
  - lia.
  - exists []. rewrite app_nil_r. simpl.
    repeat split; auto; try lia.
  - exists r, w', evs, k. split; [exact Hrun|exact HQ].
Qed.

End ImageScriptRunner.

Section DualRunner.

Variable maxRetries : nat.
Variables (baseUrl endpointPath : string) (payload : Payload)
          (requestNum : nat) (type : Dual.CallType)
          (gatewayId : Dual.GatewayId).
Variable endpoint : Endpoint.

(** The runner always returns.  It returns after the first attempt [k] that
    is answered, or after attempt [maxRetries]; a success reports the time
    since the invocation started, a failure reports 0; the outcome is counted
    once for its pair and exactly one line is logged. *)
Lemma dual_makeRequest_spec (w : World Dual.Globals) :
  exists r w' evs k,
    Dual.makeRequest maxRetries baseUrl endpointPath payload requestNum type
                     gatewayId endpoint w = (Ret r, w')
    /\ trace w' = trace w ++ evs
    /\ globals w' = Dual.counted gatewayId type r (globals w)
    /\ Dual.retryCount r = Some k /\ (k <= maxRetries)%nat
    /\ (forall j, (j < k)%nat -> rejected Dual.TIMEOUT_MS (endpoint j) = true)
    /\ Dual.success r = negb (rejected Dual.TIMEOUT_MS (endpoint k))
    /\ (Dual.success r = false -> k = maxRetries)
    /\ Dual.duration r = (if Dual.success r then now w' - now w else 0)
    /\ Dual.status r = answer_status Dual.TIMEOUT_MS (endpoint k)
    /\ now w' = now w
                + retry_time Dual.TIMEOUT_MS Dual.RETRY_DELAY_MS endpoint k
                + (if Dual.success r
                   then answer_time Dual.TIMEOUT_MS (endpoint k)
                                    (Dual.answer_fetched type (endpoint k))
                   else fst (settle Dual.TIMEOUT_MS (endpoint k)))
    /\ posts evs = S k
    /\ timers evs = repeat Dual.RETRY_DELAY_MS k
                    ++ (if Dual.success r then [1000] else [])
    /\ stderr evs =
       (if Dual.success r
        then repeat "Error" k
             ++ repeat "Failed to fetch/save image"
                  (failed_images (endpoint k) 0
                                 (Dual.answer_fetched type (endpoint k)))
        else repeat "Error" (S k))
    /\ exists line, appended evs = [line]
       /\ (if Dual.success r then is_ok_line line else is_failed_line line)
          = true.
Proof.
  unfold Dual.makeRequest, bind, date_now.
  set (I := fun (k : nat) (w1 : World Dual.Globals) =>
    exists evs, trace w1 = trace w ++ evs /\ globals w1 = globals w
      /\ now w1 = now w
                  + retry_time Dual.TIMEOUT_MS Dual.RETRY_DELAY_MS endpoint k
      /\ posts evs = k /\ appended evs = []
      /\ timers evs = repeat Dual.RETRY_DELAY_MS k
      /\ stderr evs = repeat "Error" k
      /\ forall j, (j < k)%nat -> rejected Dual.TIMEOUT_MS (endpoint j) = true).
  set (Q := fun (r : Dual.RequestResult) (w' : World Dual.Globals) =>
    exists evs k,
      trace w' = trace w ++ evs
      /\ globals w' = Dual.counted gatewayId type r (globals w)
      /\ Dual.retryCount r = Some k /\ (k <= maxRetries)%nat
      /\ (forall j, (j < k)%nat -> rejected Dual.TIMEOUT_MS (endpoint j) = true)
      /\ Dual.success r = negb (rejected Dual.TIMEOUT_MS (endpoint k))
      /\ (Dual.success r = false -> k = maxRetries)
      /\ Dual.duration r = (if Dual.success r then now w' - now w else 0)
      /\ Dual.status r = answer_status Dual.TIMEOUT_MS (endpoint k)
      /\ now w' = now w
                  + retry_time Dual.TIMEOUT_MS Dual.RETRY_DELAY_MS endpoint k
                  + (if Dual.success r
                     then answer_time Dual.TIMEOUT_MS (endpoint k)
                                      (Dual.answer_fetched type (endpoint k))
                     else fst (settle Dual.TIMEOUT_MS (endpoint k)))
      /\ posts evs = S k
      /\ timers evs = repeat Dual.RETRY_DELAY_MS k
                      ++ (if Dual.success r then [1000] else [])
      /\ stderr evs =
         (if Dual.success r
          then repeat "Error" k
               ++ repeat "Failed to fetch/save image"
                    (failed_images (endpoint k) 0
                                   (Dual.answer_fetched type (endpoint k)))
          else repeat "Error" (S k))
      /\ exists line, appended evs = [line]
         /\ (if Dual.success r then is_ok_line line else is_failed_line line)
            = true).
  destruct (dual_loop_rule maxRetries baseUrl endpointPath payload requestNum
              type gatewayId endpoint (now w) I Q) with (n := maxRetries)
              (k := 0%nat) (w := w) (fuel := S (S maxRetries))
    as (r & w' & Hrun & evs & k & HQ).
  - intros k w1 Hk (evs & Htr & Hg & Hnow & Hp & Ha & Ht & He & Hrej).
    destruct (settle Dual.TIMEOUT_MS (endpoint k)) as [t [r|e]] eqn:Hs.
    + destruct (dual_attempt_answered maxRetries baseUrl endpointPath payload
                  requestNum type gatewayId endpoint (now w) k w1 t r Hs)
        as (evs1 & -> & Hp1 & Ha1 & Ht1 & He1).
      exists (evs ++ evs1), k.
      cbn [now trace globals Dual.success Dual.retryCount Dual.duration
           Dual.status].
      rewrite (rejected_inl _ _ _ _ Hs), posts_app, timers_app, appended_app,
        stderr_app, Hp, Ha, Ht, He, Htr, Hnow, Hp1, Ha1, Ht1, He1, Hg.
      unfold answer_time, Dual.answer_fetched, answer_status. rewrite Hs. obs.
      repeat split; auto; try lia; try trace_eq; try discriminate.
      eexists; split; reflexivity.
    + destruct (Nat.eq_dec k maxRetries) as [->|Hne].
      * destruct (dual_attempt_final maxRetries baseUrl endpointPath payload
                    requestNum type gatewayId endpoint (now w) maxRetries w1
                    t e Hs (Nat.le_refl _))
          as (evs1 & -> & Hp1 & Ha1 & Ht1 & He1).
        exists (evs ++ evs1), maxRetries.
        cbn [now trace globals Dual.success Dual.retryCount Dual.duration
             Dual.status].
        rewrite (rejected_inr _ _ _ _ Hs), posts_app, timers_app, appended_app,
          stderr_app, Hp, Ha, Ht, He, Htr, Hnow, Hp1, Ha1, Ht1, He1, Hg.
        unfold answer_status. rewrite Hs. obs.
        repeat split; auto; try lia; try trace_eq.
        -- symmetry. apply repeat_cons.
        -- eexists; split; reflexivity.
      * destruct (dual_attempt_retry maxRetries baseUrl endpointPath payload
                    requestNum type gatewayId endpoint (now w) k w1 t e Hs
                    ltac:(lia))
          as (evs1 & -> & Hp1 & Ha1 & Ht1 & He1).
        split; [reflexivity|]. split; [lia|].
        exists (evs ++ evs1).
        cbn [now trace globals].
        rewrite posts_app, timers_app, appended_app, stderr_app,
          Hp, Ha, Ht, He, Htr, Hnow, Hp1, Ha1, Ht1, He1.
        cbn [retry_time]. rewrite Hs. obs.
        change (timer_delay Dual.RETRY_DELAY_MS) with 2000.
        repeat split; auto; try lia; try trace_eq.
        -- symmetry. apply repeat_cons.
        -- symmetry. apply repeat_cons.
        -- apply lt_succ_cases; [assumption|].
           apply (rejected_inr _ _ _ _ Hs).
  - lia.
  - lia.
  - exists []. rewrite app_nil_r. simpl.
    repeat split; auto; try lia.
  - exists r, w', evs, k. split; [exact Hrun|exact HQ].
Qed.

End DualRunner.

(** ** Retry counts *)

(** The attempt after which a runner returns is determined by the endpoint:
    it is the first attempt that is answered, or the ceiling. *)
Lemma returning_attempt_unique (timeout : Z) (endpoint : Endpoint)
    (maxRetries k m : nat) (ok : bool) :
  (k <= maxRetries)%nat ->
  (forall j, (j < k)%nat -> rejected timeout (endpoint j) = true) ->
  ok = negb (rejected timeout (endpoint k)) ->
  (ok = false -> k = maxRetries) ->
  (m <= maxRetries)%nat ->
  (forall j, (j < m)%nat -> rejected timeout (endpoint j) = true) ->
  (rejected timeout (endpoint m) = true -> m = maxRetries) ->
  k = m.
Proof.
  intros Hk Hrej Hok Hfail Hm Hrejm Hmfail.
  destruct (Nat.lt_trichotomy k m) as [Hlt|[Heq|Hgt]]; [|assumption|].
  - specialize (Hrejm k Hlt). rewrite Hrejm in Hok. simpl in Hok.
    specialize (Hfail Hok). lia.
  - specialize (Hrej m Hgt). specialize (Hmfail Hrej). lia.
Qed.

(** C2. For every retry ceiling [r], an invocation of a retry-enabled runner
    against an endpoint whose every attempt fails returns an outcome with
    [success = false] and a retry count of exactly [r], after [r + 1] POST
    requests.  This holds for the three runners with retries. *)
Theorem failing_endpoint_exhausts_retries (r : nat) (endpoint : Endpoint) :
  (forall n, rejected 300000 (endpoint n) = true) ->
  (forall logFile url payload requestNum (w : World unit),
     exists res w',
       LlmRetry.makeRequest r logFile url payload requestNum endpoint w
         = (Ret res, w')
       /\ LlmRetry.success res = false
       /\ LlmRetry.retries res = Some r
       /\ posts (trace w') = (posts (trace w) + (r + 1))%nat)
  /\ (forall retryDelayMs gatewayUrl url payload requestNum (w : World unit),
     exists res w',
       ImageScript.makeRequest r retryDelayMs gatewayUrl url payload
                               requestNum endpoint w = (Ret res, w')
       /\ ImageScript.success res = false
       /\ ImageScript.retryCount res = Some (Z.of_nat r)
       /\ posts (trace w') = (posts (trace w) + (r + 1))%nat)
  /\ (forall baseUrl endpointPath payload requestNum type gatewayId
             (w : World Dual.Globals),
     exists res w',
       Dual.makeRequest r baseUrl endpointPath payload requestNum type
                        gatewayId endpoint w = (Ret res, w')
       /\ Dual.success res = false
       /\ Dual.retryCount res = Some r
       /\ posts (trace w') = (posts (trace w) + (r + 1))%nat).
Proof.
  intros Hdown. repeat split.
  - intros logFile url payload requestNum w.
    destruct (llm_makeRequest_spec r logFile url payload requestNum endpoint w)
      as (res & w' & evs & k & Hrun & Htr & _ & Hk & _ & _ & Hok & Hmax & _
          & _ & Hp & _).
    rewrite Hdown in Hok. simpl in Hok. specialize (Hmax Hok). subst k.
    exists res, w'. rewrite Htr, posts_app, Hp.
    repeat split; auto. lia.
  - intros retryDelayMs gatewayUrl url payload requestNum w.
    destruct (img_makeRequest_spec r retryDelayMs gatewayUrl url payload
                requestNum endpoint w)
      as (res & w' & evs & k & Hrun & Htr & _ & Hk & _ & _ & Hok & Hmax & _
          & _ & Hp & _).
    rewrite Hdown in Hok. simpl in Hok. specialize (Hmax Hok). subst k.
    exists res, w'. rewrite Htr, posts_app, Hp.
    repeat split; auto. lia.
  - intros baseUrl endpointPath payload requestNum type gatewayId w.
    destruct (dual_makeRequest_spec r baseUrl endpointPath payload requestNum
                type gatewayId endpoint w)
      as (res & w' & evs & k & Hrun & Htr & _ & Hk & _ & _ & Hok & Hmax & _
          & _ & _ & Hp & _).
    change Dual.TIMEOUT_MS with 300000 in Hok.
    rewrite Hdown in Hok. simpl in Hok. specialize (Hmax Hok). subst k.
    exists res, w'. rewrite Htr, posts_app, Hp.
    repeat split; auto. lia.
Qed.

(** C2 at a concrete input: ceiling 3 and the endpoint that is always down. *)
Lemma failing_endpoint_exhausts_retries_witness :
  (forall n, rejected 300000 (always_down n) = true)
  /\ exists res w',
       LlmRetry.makeRequest 3 "log" "http://gw/llm" (LLMPayload "m" [] 1000 false)
                            1 always_down (mkWorld 0 [] tt) = (Ret res, w')
       /\ LlmRetry.success res = false
       /\ LlmRetry.retries res = Some 3%nat
       /\ posts (trace w') = (posts [] + (3 + 1))%nat.
Proof.
  split; [intros n; reflexivity|].
  exact (proj1 (failing_endpoint_exhausts_retries 3 always_down
                 (fun n => eq_refl))
               "log" "http://gw/llm" (LLMPayload "m" [] 1000 false) 1%nat
               (mkWorld 0 [] tt)).
Defined.

(** C7. With a ceiling of 3, an invocation of a retry-enabled runner against
    an endpoint that fails on the first two attempts and succeeds on the
    third returns an outcome with [success = true] and a retry count of 2. *)
Theorem two_failures_then_success (endpoint : Endpoint) :
  rejected 300000 (endpoint 0%nat) = true ->
  rejected 300000 (endpoint 1%nat) = true ->
  rejected 300000 (endpoint 2%nat) = false ->
  (forall logFile url payload requestNum (w : World unit),
     exists res w',
       LlmRetry.makeRequest LlmRetry.MAX_RETRIES logFile url payload
                            requestNum endpoint w = (Ret res, w')
       /\ LlmRetry.success res = true
       /\ LlmRetry.retries res = Some 2%nat)
  /\ (forall retryDelayMs gatewayUrl url payload requestNum (w : World unit),
     exists res w',
       ImageScript.makeRequest ImageScript.maxRetries retryDelayMs gatewayUrl
                               url payload requestNum endpoint w = (Ret res, w')
       /\ ImageScript.success res = true
       /\ ImageScript.retryCount res = Some 2)
  /\ (forall baseUrl endpointPath payload requestNum type gatewayId
             (w : World Dual.Globals),
     exists res w',
       Dual.makeRequest Dual.MAX_RETRIES baseUrl endpointPath payload
                        requestNum type gatewayId endpoint w = (Ret res, w')
       /\ Dual.success res = true
       /\ Dual.retryCount res = Some 2%nat).
Proof.
  intros H0 H1 H2.
  assert (Hlt : forall j, (j < 2)%nat -> rejected 300000 (endpoint j) = true).
  { intros j Hj. destruct j as [|[|j]]; [assumption|assumption|lia]. }
  assert (Hne : rejected 300000 (endpoint 2%nat) = true -> 2%nat = 3%nat).
  { rewrite H2. discriminate. }
  repeat split.
  - intros logFile url payload requestNum w.
    destruct (llm_makeRequest_spec LlmRetry.MAX_RETRIES logFile url payload
                requestNum endpoint w)
      as (res & w' & evs & k & Hrun & _ & _ & Hr & Hk & Hrej & Hok & Hmax & _).
    assert (k = 2%nat) as ->.
    { apply (returning_attempt_unique 300000 endpoint 3 k 2
               (LlmRetry.success res)); auto. }
    exists res, w'. rewrite Hok, H2. auto.
  - intros retryDelayMs gatewayUrl url payload requestNum w.
    destruct (img_makeRequest_spec ImageScript.maxRetries retryDelayMs
                gatewayUrl url payload requestNum endpoint w)
      as (res & w' & evs & k & Hrun & _ & _ & Hr & Hk & Hrej & Hok & Hmax & _).
    assert (k = 2%nat) as ->.
    { apply (returning_attempt_unique 300000 endpoint 3 k 2
               (ImageScript.success res)); auto. }
    exists res, w'. rewrite Hok, H2. auto.
  - intros baseUrl endpointPath payload requestNum type gatewayId w.
    destruct (dual_makeRequest_spec Dual.MAX_RETRIES baseUrl endpointPath
                payload requestNum type gatewayId endpoint w)
      as (res & w' & evs & k & Hrun & _ & _ & Hr & Hk & Hrej & Hok & Hmax & _).
    assert (k = 2%nat) as ->.
    { apply (returning_attempt_unique 300000 endpoint 3 k 2
               (Dual.success res)); auto. }
    exists res, w'. change Dual.TIMEOUT_MS with 300000 in Hok.
    rewrite Hok, H2. auto.
Qed.

(** C7 at a concrete input: the endpoint that is down for two attempts. *)
Lemma two_failures_then_success_witness :
  rejected 300000 (down_for 2 0%nat) = true
  /\ rejected 300000 (down_for 2 1%nat) = true
  /\ rejected 300000 (down_for 2 2%nat) = false
  /\ exists res w',
       Dual.makeRequest Dual.MAX_RETRIES "http://gw" "llm"
         (LLMPayload "m" [] 1000 false) 1 Dual.LLM Dual.Gateway1 (down_for 2)
         (mkWorld 0 [] Dual.initial) = (Ret res, w')
       /\ Dual.success res = true
       /\ Dual.retryCount res = Some 2%nat.
Proof.
  repeat split; try reflexivity.
  exact (proj2 (proj2 (two_failures_then_success (down_for 2)
                         eq_refl eq_refl eq_refl))
               "http://gw" "llm" (LLMPayload "m" [] 1000 false) 1%nat
               Dual.LLM Dual.Gateway1 (mkWorld 0 [] Dual.initial)).
Defined.

(** ** The single-attempt runner (tests/imageStressTest.ts, first script) *)

(** The runner always returns: an answered call gives a success, a rejected
    one a failure; the duration is the time since the invocation started and
    exactly one line is logged. *)
Lemma simple_makeRequest_spec (url : string) (payload : Payload)
    (requestNum : nat) (a : Attempt) (w : World unit) :
  exists r w' evs,
    Simple.makeRequest url payload requestNum a w = (Ret r, w')
    /\ trace w' = trace w ++ evs /\ globals w' = globals w
    /\ Simple.success r = negb (rejected 300000 a)
    /\ Simple.duration r = now w' - now w
    /\ now w' = now w + (if Simple.success r then answer_time 300000 a []
                         else fst (settle 300000 a))
    /\ posts evs = 1%nat
    /\ exists line, appended evs = [line]
       /\ (if Simple.success r then is_ok_line line else is_failed_line line)
          = true.
Proof.
  destruct w as [n tr g]. unfold Simple.makeRequest. run_m.
  unfold rejected, answer_time.
  destruct (settle 300000 a) as [t [r|e]] eqn:Hs; run_m;
    change (timer_delay 1000) with 1000;
    eexists; eexists; eexists; (split; [reflexivity|]);
    cbn [now trace globals Simple.success Simple.duration negb];
    (split; [trace_eq|]); obs;
    repeat split; try lia;
    eexists; split; reflexivity.
Qed.

(** ** Invariants of an outcome *)

(** C9. Every outcome returned by a runner satisfies the invariants of the
    data model: the retry count is at most the ceiling, the duration is not
    negative, and the outcome is terminal: the invocation returns exactly
    one result and logs exactly one line for it, a success line for a
    success and a failure line for a final failure. *)
Theorem outcome_invariants :
  (forall maxRetries logFile url payload requestNum endpoint (w : World unit),
     exists res w' evs k line,
       LlmRetry.makeRequest maxRetries logFile url payload requestNum endpoint w
         = (Ret res, w')
       /\ LlmRetry.retries res = Some k /\ (k <= maxRetries)%nat
       /\ 0 <= LlmRetry.duration res
       /\ trace w' = trace w ++ evs /\ appended evs = [line]
       /\ (if LlmRetry.success res then is_ok_line line
           else is_failed_line line) = true)
  /\ (forall maxRetries retryDelayMs gatewayUrl url payload requestNum endpoint
             (w : World unit),
     exists res w' evs k line,
       ImageScript.makeRequest maxRetries retryDelayMs gatewayUrl url payload
                               requestNum endpoint w = (Ret res, w')
       /\ ImageScript.retryCount res = Some (Z.of_nat k)
       /\ (k <= maxRetries)%nat
       /\ 0 <= ImageScript.duration res
       /\ trace w' = trace w ++ evs /\ appended evs = [line]
       /\ (if ImageScript.success res then is_ok_line line
           else is_failed_line line) = true)
  /\ (forall maxRetries baseUrl endpointPath payload requestNum type gatewayId
             endpoint (w : World Dual.Globals),
     exists res w' evs k line,
       Dual.makeRequest maxRetries baseUrl endpointPath payload requestNum
                        type gatewayId endpoint w = (Ret res, w')
       /\ Dual.retryCount res = Some k /\ (k <= maxRetries)%nat
       /\ 0 <= Dual.duration res
       /\ trace w' = trace w ++ evs /\ appended evs = [line]
       /\ (if Dual.success res then is_ok_line line
           else is_failed_line line) = true)
  /\ (forall url payload requestNum a (w : World unit),
     exists res w' evs line,
       Simple.makeRequest url payload requestNum a w = (Ret res, w')
       /\ 0 <= Simple.duration res
       /\ trace w' = trace w ++ evs /\ appended evs = [line]
       /\ (if Simple.success res then is_ok_line line
           else is_failed_line line) = true).
Proof.
  assert (H300 : 0 <= 300000) by lia.
  repeat split.
  - intros maxRetries logFile url payload requestNum endpoint w.
    destruct (llm_makeRequest_spec maxRetries logFile url payload requestNum
                endpoint w)
      as (res & w' & evs & k & Hrun & Htr & _ & Hr & Hk & _ & _ & _ & Hd
          & Hnow & _ & _ & line & Hline & Hkind).
    exists res, w', evs, k, line. repeat split; auto.
    rewrite Hd, Hnow.
    pose proof (retry_time_nonneg 300000 LlmRetry.RETRY_DELAY endpoint k H300).
    pose proof (answer_time_bound 300000 (endpoint k) [] H300).
    pose proof (settle_time_nonneg 300000 (endpoint k) H300).
    destruct (LlmRetry.success res); lia.
  - intros maxRetries retryDelayMs gatewayUrl url payload requestNum endpoint w.
    destruct (img_makeRequest_spec maxRetries retryDelayMs gatewayUrl url
                payload requestNum endpoint w)
      as (res & w' & evs & k & Hrun & Htr & _ & Hr & Hk & _ & _ & _ & Hd
          & _ & _ & _ & _ & line & Hline & Hkind).
    exists res, w', evs, k, line. repeat split; auto.
    rewrite Hd.
    pose proof (answer_time_bound 300000 (endpoint k)
                  (answer_images 300000 (endpoint k)) H300).
    destruct (ImageScript.success res); lia.
  - intros maxRetries baseUrl endpointPath payload requestNum type gatewayId
           endpoint w.
    destruct (dual_makeRequest_spec maxRetries baseUrl endpointPath payload
                requestNum type gatewayId endpoint w)
      as (res & w' & evs & k & Hrun & Htr & _ & Hr & Hk & _ & _ & _ & Hd
          & _ & Hnow & _ & _ & _ & line & Hline & Hkind).
    exists res, w', evs, k, line. repeat split; auto.
    rewrite Hd, Hnow.
    pose proof (retry_time_nonneg Dual.TIMEOUT_MS Dual.RETRY_DELAY_MS endpoint
                  k timeout_ms_nonneg).
    pose proof (answer_time_bound Dual.TIMEOUT_MS (endpoint k)
                  (Dual.answer_fetched type (endpoint k)) timeout_ms_nonneg).
    destruct (Dual.success res); lia.
  - intros url payload requestNum a w.
    destruct (simple_makeRequest_spec url payload requestNum a w)
      as (res & w' & evs & Hrun & Htr & _ & _ & Hd & Hnow & _ & line & Hline
          & Hkind).
    exists res, w', evs, line. repeat split; auto.
    rewrite Hd, Hnow.
    pose proof (answer_time_bound 300000 a [] H300).
    pose proof (settle_time_nonneg 300000 a H300).
    destruct (Simple.success res); lia.
Qed.

(** ** Durations *)

(** In the LLM runner of tests/imageStressTest.ts the duration runs from the
    start of the first attempt to the return, for successes and final
    failures alike, and so covers the delay of every retry. *)
Lemma llm_duration_covers_retries (maxRetries : nat) (logFile url : string)
    (payload : Payload) (requestNum : nat) (endpoint : Endpoint)
    (w : World unit) :
  exists res w' k,
    LlmRetry.makeRequest maxRetries logFile url payload requestNum endpoint w
      = (Ret res, w')
    /\ LlmRetry.retries res = Some k
    /\ LlmRetry.duration res = now w' - now w
    /\ Z.of_nat k * LlmRetry.RETRY_DELAY <= LlmRetry.duration res.
Proof.
  destruct (llm_makeRequest_spec maxRetries logFile url payload requestNum
              endpoint w)
    as (res & w' & evs & k & Hrun & _ & _ & Hr & _ & _ & _ & _ & Hd & Hnow & _).
  exists res, w', k. repeat split; auto.
  rewrite Hd, Hnow.
  assert (H300 : 0 <= 300000) by lia.
  pose proof (retry_time_delays 300000 LlmRetry.RETRY_DELAY endpoint k H300) as Hdel.
  change (timer_delay LlmRetry.RETRY_DELAY) with LlmRetry.RETRY_DELAY in Hdel.
  pose proof (answer_time_bound 300000 (endpoint k) [] H300).
  pose proof (settle_time_nonneg 300000 (endpoint k) H300).
  destruct (LlmRetry.success res); lia.
Qed.

(** In the dual-gateway runner the duration of a success runs from the start
    of the first attempt and covers the delay of every retry. *)
Lemma dual_success_duration_covers_retries (maxRetries : nat)
    (baseUrl endpointPath : string) (payload : Payload) (requestNum : nat)
    (type : Dual.CallType) (gatewayId : Dual.GatewayId) (endpoint : Endpoint)
    (w : World Dual.Globals) :
  exists res w' k,
    Dual.makeRequest maxRetries baseUrl endpointPath payload requestNum type
                     gatewayId endpoint w = (Ret res, w')
    /\ Dual.retryCount res = Some k
    /\ (Dual.success res = true ->
        Dual.duration res = now w' - now w
        /\ Z.of_nat k * Dual.RETRY_DELAY_MS <= Dual.duration res)
    /\ (Dual.success res = false -> Dual.duration res = 0).
Proof.
  destruct (dual_makeRequest_spec maxRetries baseUrl endpointPath payload
              requestNum type gatewayId endpoint w)
    as (res & w' & evs & k & Hrun & _ & _ & Hr & _ & _ & _ & _ & Hd & _ & Hnow
        & _).
  exists res, w', k. repeat split; auto.
  - rewrite Hd, H. reflexivity.
  - rewrite Hd, Hnow, H.
    pose proof (retry_time_delays Dual.TIMEOUT_MS Dual.RETRY_DELAY_MS endpoint
                  k timeout_ms_nonneg) as Hdel.
    change (timer_delay Dual.RETRY_DELAY_MS) with Dual.RETRY_DELAY_MS in Hdel.
    pose proof (answer_time_bound Dual.TIMEOUT_MS (endpoint k)
                  (Dual.answer_fetched type (endpoint k)) timeout_ms_nonneg).
    lia.
  - intros H. rewrite Hd, H. reflexivity.
Qed.

(** C1 (defect). The image runner of scripts/livepeer restarts its clock at
    every attempt: against an endpoint that refuses the first attempt and
    answers the second at once, 3000 ms pass, 2000 ms of them in the retry
    delay, and the outcome reports 1000 ms.  The dual-gateway runner reports
    0 ms for a final failure: against an endpoint that is always down,
    6000 ms pass in three retry delays and the outcome reports 0. *)
Theorem duration_misses_retry_delays :
  (exists res w',
     ImageScript.makeRequest ImageScript.maxRetries 2000 (Some "http://gw")
       "http://gw/text-to-image"
       (ImagePayload "ByteDance/SDXL-Lightning" (units "a cat") 1024 1024)
       1 (down_for 1) (mkWorld 0 [] tt) = (Ret res, w')
     /\ ImageScript.success res = true
     /\ ImageScript.retryCount res = Some 1
     /\ timers (trace w') = [2000; 1000]
     /\ now w' = 3000
     /\ ImageScript.duration res = 1000)
  /\ (exists res w',
     Dual.makeRequest Dual.MAX_RETRIES "http://gw" "llm"
       (LLMPayload "meta-llama/Meta-Llama-3.1-8B-Instruct" [] 1000 false)
       1 Dual.LLM Dual.Gateway1 always_down (mkWorld 0 [] Dual.initial)
       = (Ret res, w')
     /\ Dual.success res = false
     /\ Dual.retryCount res = Some 3%nat
     /\ timers (trace w') = [2000; 2000; 2000]
     /\ now w' = 6000
     /\ Dual.duration res = 0).
Proof.
  split; eexists; eexists; (split; [vm_compute; reflexivity|]);
    repeat split; reflexivity.
Qed.

(** ** Side effects of an image request *)

Lemma images_time_saved (a : Attempt) (imgs : list string) (i : nat) :
  images_time (images_saved a) i imgs = images_time a i imgs.
Proof.
  revert i. induction imgs as [|u imgs IH]; intros i; simpl; [reflexivity|].
  rewrite IH. reflexivity.
Qed.

Lemma retry_time_saved (timeout delay : Z) (endpoint : Endpoint) (k : nat) :
  retry_time timeout delay (fun n => images_saved (endpoint n)) k
  = retry_time timeout delay endpoint k.
Proof.
  induction k as [|k IH]; simpl; [reflexivity|]. rewrite IH. reflexivity.
Qed.

Lemma answer_time_saved (timeout : Z) (a : Attempt) (imgs : list string) :
  answer_time timeout (images_saved a) imgs = answer_time timeout a imgs.
Proof.
  unfold answer_time. rewrite images_time_saved. reflexivity.
Qed.

(** C8. For every image request whose POST is answered (at an attempt [m]
    within the ceiling), failures to fetch or save the images named in the
    response are reported on stderr and swallowed: the invocation returns
    [success = true], and its outcome is the one it returns when every image
    is fetched and saved without error. *)
Theorem image_failures_do_not_change_outcome (maxRetries m : nat)
    (endpoint : Endpoint) :
  (m <= maxRetries)%nat ->
  (forall j, (j < m)%nat -> rejected 300000 (endpoint j) = true) ->
  rejected 300000 (endpoint m) = false ->
  (forall retryDelayMs gatewayUrl url payload requestNum (w : World unit),
     exists res w' w0 evs,
       ImageScript.makeRequest maxRetries retryDelayMs gatewayUrl url payload
                               requestNum endpoint w = (Ret res, w')
       /\ ImageScript.success res = true
       /\ ImageScript.makeRequest maxRetries retryDelayMs gatewayUrl url
            payload requestNum (fun n => images_saved (endpoint n)) w
          = (Ret res, w0)
       /\ trace w' = trace w ++ evs
       /\ stderr evs =
          repeat "Failed with error" m
          ++ repeat "Failed to save image"
               (failed_images (endpoint m) 0
                              (answer_images 300000 (endpoint m))))
  /\ (forall baseUrl endpointPath payload requestNum gatewayId
             (w : World Dual.Globals),
     exists res w' w0 evs,
       Dual.makeRequest maxRetries baseUrl endpointPath payload requestNum
                        Dual.Image gatewayId endpoint w = (Ret res, w')
       /\ Dual.success res = true
       /\ Dual.makeRequest maxRetries baseUrl endpointPath payload requestNum
            Dual.Image gatewayId (fun n => images_saved (endpoint n)) w
          = (Ret res, w0)
       /\ trace w' = trace w ++ evs
       /\ stderr evs =
          repeat "Error" m
          ++ repeat "Failed to fetch/save image"
               (failed_images (endpoint m) 0
                              (Dual.answer_fetched Dual.Image (endpoint m)))).
Proof.
  intros Hm Hrej Hans.
  assert (Hfin : rejected 300000 (endpoint m) = true -> m = maxRetries).
  { rewrite Hans. discriminate. }
  split.
  - intros retryDelayMs gatewayUrl url payload requestNum w.
    destruct (img_makeRequest_spec maxRetries retryDelayMs gatewayUrl url
                payload requestNum endpoint w)
      as (res & w' & evs & k & Hrun & Htr & _ & Hr & Hk & Hrejk & Hok & Hmax
          & Hd & _ & _ & _ & He & _).
    destruct (img_makeRequest_spec maxRetries retryDelayMs gatewayUrl url
                payload requestNum (fun n => images_saved (endpoint n)) w)
      as (res0 & w0 & evs0 & k0 & Hrun0 & _ & _ & Hr0 & Hk0 & Hrejk0 & Hok0
          & Hmax0 & Hd0 & _).
    assert (k = m) as ->.
    { apply (returning_attempt_unique 300000 endpoint maxRetries k m
               (ImageScript.success res)); auto. }
    assert (k0 = m) as ->.
    { apply (returning_attempt_unique 300000 endpoint maxRetries k0 m
               (ImageScript.success res0)); auto. }
    change (rejected 300000 (images_saved (endpoint m)))
      with (rejected 300000 (endpoint m)) in Hok0.
    rewrite Hans in Hok, Hok0. simpl in Hok, Hok0.
    rewrite Hok in Hd, He. rewrite Hok0 in Hd0.
    rewrite answer_time_saved in Hd0.
    change (answer_images 300000 (images_saved (endpoint m)))
      with (answer_images 300000 (endpoint m)) in Hd0.
    assert (res0 = res) as ->.
    { destruct res, res0. simpl in *. congruence. }
    exists res, w', w0, evs. auto.
  - intros baseUrl endpointPath payload requestNum gatewayId w.
    destruct (dual_makeRequest_spec maxRetries baseUrl endpointPath payload
                requestNum Dual.Image gatewayId endpoint w)
      as (res & w' & evs & k & Hrun & Htr & _ & Hr & Hk & Hrejk & Hok & Hmax
          & Hd & Hst & Hnow & _ & _ & He & _).
    destruct (dual_makeRequest_spec maxRetries baseUrl endpointPath payload
                requestNum Dual.Image gatewayId
                (fun n => images_saved (endpoint n)) w)
      as (res0 & w0 & evs0 & k0 & Hrun0 & _ & _ & Hr0 & Hk0 & Hrejk0 & Hok0
          & Hmax0 & Hd0 & Hst0 & Hnow0 & _).
    change Dual.TIMEOUT_MS with 300000 in *.
    assert (k = m) as ->.
    { apply (returning_attempt_unique 300000 endpoint maxRetries k m
               (Dual.success res)); auto. }
    assert (k0 = m) as ->.
    { apply (returning_attempt_unique 300000 endpoint maxRetries k0 m
               (Dual.success res0)); auto. }
    change (rejected 300000 (images_saved (endpoint m)))
      with (rejected 300000 (endpoint m)) in Hok0.
    rewrite Hans in Hok, Hok0. simpl in Hok, Hok0.
    rewrite Hok in Hd, He, Hnow. rewrite Hok0 in Hd0, Hnow0.
    rewrite answer_time_saved, retry_time_saved in Hnow0.
    change (Dual.answer_fetched Dual.Image (images_saved (endpoint m)))
      with (Dual.answer_fetched Dual.Image (endpoint m)) in Hnow0.
    change (answer_status 300000 (images_saved (endpoint m)))
      with (answer_status 300000 (endpoint m)) in Hst0.
    assert (res0 = res) as ->.
    { destruct res, res0. simpl in *. subst. f_equal; congruence. }
    exists res, w', w0, evs. auto.
Qed.

(** C8 at a concrete input: both images of the answer fail. *)
Lemma image_failures_do_not_change_outcome_witness :
  (0 <= 3)%nat
  /\ (forall j, (j < 0)%nat -> rejected 300000 (broken_images j) = true)
  /\ rejected 300000 (broken_images 0%nat) = false
  /\ exists res w' w0 evs,
       Dual.makeRequest 3 "http://gw" "text-to-image"
         (ImagePayload "ByteDance/SDXL-Lightning" (units "a cat") 512 512)
         1 Dual.Image Dual.Gateway2 broken_images (mkWorld 0 [] Dual.initial)
         = (Ret res, w')
       /\ Dual.success res = true
       /\ Dual.makeRequest 3 "http://gw" "text-to-image"
            (ImagePayload "ByteDance/SDXL-Lightning" (units "a cat") 512 512)
            1 Dual.Image Dual.Gateway2
            (fun n => images_saved (broken_images n))
            (mkWorld 0 [] Dual.initial)
          = (Ret res, w0)
       /\ trace w' = [] ++ evs
       /\ stderr evs =
          repeat "Error" 0
          ++ repeat "Failed to fetch/save image"
               (failed_images (broken_images 0%nat) 0
                  (Dual.answer_fetched Dual.Image (broken_images 0%nat))).
Proof.
  split; [lia|]. split; [intros j Hj; lia|]. split; [reflexivity|].
  exact (proj2 (image_failures_do_not_change_outcome 3 0 broken_images
                  (Nat.le_0_l 3)
                  (fun j Hj => match Nat.nlt_0_r j Hj with end)
                  eq_refl)
               "http://gw" "text-to-image"
               (ImagePayload "ByteDance/SDXL-Lightning" (units "a cat") 512 512)
               1%nat Dual.Gateway2 (mkWorld 0 [] Dual.initial)).
Defined.

(** ** Batches *)

(** If every invocation returns, so does the join of any number of them, and
    the results and the globals are those of running them in turn. *)
Lemma join_all_chain {G X A : Type} (run : X -> M G A)
    (R : X -> G -> A -> G -> Prop) :
  (forall x w, exists a w' evs,
      run x w = (Ret a, w') /\ trace w' = trace w ++ evs
      /\ R x (globals w) a (globals w')) ->
  forall xs t0 w, exists l w' evs,
    join_all t0 (map run xs) w = (Ret l, w')
    /\ trace w' = trace w ++ evs
    /\ Chain R xs (globals w) l (globals w').
Proof.
  intros Hrun. induction xs as [|x xs IH]; intros t0 w.
  - exists [], w, []. simpl. unfold ret. rewrite app_nil_r.
    repeat split. constructor.
  - simpl.
    destruct (Hrun x (mkWorld t0 (trace w) (globals w)))
      as (a & w1 & evs1 & -> & Htr1 & HR).
    unfold bind.
    destruct (IH t0 (mkWorld (Z.max (now w) (now w1)) (trace w1) (globals w1)))
      as (l & w2 & evs2 & -> & Htr2 & Hchain).
    exists (a :: l), w2, (evs1 ++ evs2). unfold ret.
    cbn [trace globals] in *.
    repeat split.
    + rewrite Htr2, Htr1. trace_eq.
    + econstructor; eassumption.
Qed.

Lemma chain_length {G X A : Type} (R : X -> G -> A -> G -> Prop)
    (xs : list X) (g : G) (l : list A) (g' : G) :
  Chain R xs g l g' -> List.length l = List.length xs.
Proof. induction 1; simpl; congruence. Qed.

Lemma chain_forall {G X A : Type} (R : X -> G -> A -> G -> Prop)
    (P : A -> Prop) (xs : list X) (g : G) (l : list A) (g' : G) :
  (forall x g a g1, R x g a g1 -> P a) ->
  Chain R xs g l g' -> Forall P l.
Proof. intros HP. induction 1; constructor; eauto. Qed.

Lemma array_from_length {A : Type} (n : Z) (f : nat -> A) :
  List.length (array_from n f) = Z.to_nat n.
Proof. unfold array_from. rewrite length_map, length_seq. reflexivity. Qed.

(** Every outcome is a success or a failure, and not both. *)
Lemma filter_partition_length {A : Type} (p : A -> bool) (l : list A) :
  (List.length (filter p l) + List.length (filter (fun x => negb (p x)) l)
   = List.length l)%nat.
Proof.
  induction l as [|x l IH]; simpl; [reflexivity|].
  destruct (p x); simpl; lia.
Qed.

Lemma filter_none {A : Type} (p : A -> bool) (l : list A) :
  Forall (fun x => p x = false) l -> filter p l = [].
Proof.
  induction 1 as [|x l Hx _ IH]; simpl; [reflexivity|].
  rewrite Hx. assumption.
Qed.

Lemma filter_all {A : Type} (p : A -> bool) (l : list A) :
  Forall (fun x => p x = true) l -> filter p l = l.
Proof.
  induction 1 as [|x l Hx _ IH]; simpl; [reflexivity|].
  rewrite Hx, IH. reflexivity.
Qed.

(** The batch of the single-attempt script always completes. *)
Lemma simple_batch (env : Simple.Env) (url : string) (payload : Payload)
    (w : World unit) :
  exists results w' evs,
    promise_all
      (array_from (Simple.totalRequests env) (fun i =>
         Simple.makeRequest url payload (i + 1) (Simple.network env (i + 1)%nat)))
      w = (Ret results, w')
    /\ trace w' = trace w ++ evs
    /\ List.length results = Z.to_nat (Simple.totalRequests env)
    /\ Forall2 (fun i r =>
                  Simple.success r
                  = negb (rejected 300000 (Simple.network env (i + 1)%nat)))
               (seq 0 (Z.to_nat (Simple.totalRequests env))) results.
Proof.
  unfold promise_all, array_from.
  destruct (join_all_chain
              (fun i => Simple.makeRequest url payload (i + 1)
                          (Simple.network env (i + 1)%nat))
              (fun i (_ : unit) r (_ : unit) =>
                 Simple.success r
                 = negb (rejected 300000 (Simple.network env (i + 1)%nat))))
    with (xs := seq 0 (Z.to_nat (Simple.totalRequests env))) (t0 := now w)
         (w := w) as (l & w' & evs & Hrun & Htr & Hchain).
  - intros i w1.
    destruct (simple_makeRequest_spec url payload (i + 1)
                (Simple.network env (i + 1)%nat) w1)
      as (r & w1' & evs1 & Hrun1 & Htr1 & _ & Hok & _).
    exists r, w1', evs1. auto.
  - exists l, w', evs. repeat split; auto.
    + rewrite (chain_length _ _ _ _ _ Hchain), length_seq. reflexivity.
    + clear Hrun Htr. induction Hchain; constructor; auto.
Qed.

(** With a gateway URL the single-attempt script runs its batch and writes
    the summary, whatever the requests do. *)
Lemma simple_main_runs (env : Simple.Env) (w : World unit) :
  falsy (Simple.LIVEPEER_GATEWAY_URL env) = false ->
  exists results w' tr0,
    Simple.main env w = (Ret tt, w')
    /\ trace w' = tr0 ++ [FsAppend Simple.logFile (Simple.summary env results);
                          Stdout "--- Final Results ---"]
    /\ List.length results = Z.to_nat (Simple.totalRequests env)
    /\ Forall2 (fun i r =>
                  Simple.success r
                  = negb (rejected 300000 (Simple.network env (i + 1)%nat)))
               (seq 0 (Z.to_nat (Simple.totalRequests env))) results.
Proof.
  intros Hurl. destruct w as [n tr g]. unfold Simple.main.
  rewrite Hurl. run_m.
  match goal with |- context [promise_all ?ts ?w0] =>
    destruct (simple_batch env
                (match Simple.LIVEPEER_GATEWAY_URL env with
                 | Some u => u | None => "" end ++ "/text-to-image")%string
                (ImagePayload "ByteDance/SDXL-Lightning"
                   (units "A beautiful sunset over a mountain landscape")
                   1024 1024) w0)
      as (results & w1 & evs & Hrun & Htr & Hlen & Hall)
  end.
  rewrite Hrun. destruct w1 as [n1 tr1 g1]. cbn [trace] in Htr.
  exists results. eexists. eexists.
  split; [reflexivity|]. cbn [trace]. repeat split; auto.
  rewrite <- app_assoc. reflexivity.
Qed.

(** The batch of the image script always completes. *)
Lemma img_batch (env : ImageScript.Env) (url : string) (payload : Payload)
    (w : World unit) :
  exists results w' evs,
    promise_all
      (array_from (ImageScript.totalRequests env) (fun i =>
         ImageScript.makeRequest ImageScript.maxRetries
           (ImageScript.retryDelayMs env) (ImageScript.LIVEPEER_GATEWAY_URL env)
           url payload (i + 1) (ImageScript.network env (i + 1)%nat)))
      w = (Ret results, w')
    /\ trace w' = trace w ++ evs
    /\ List.length results = Z.to_nat (ImageScript.totalRequests env)
    /\ Forall2 (fun i r =>
                  exists k,
                    ImageScript.success r
                    = negb (rejected 300000
                              (ImageScript.network env (i + 1)%nat k)))
               (seq 0 (Z.to_nat (ImageScript.totalRequests env))) results.
Proof.
  unfold promise_all, array_from.
  destruct (join_all_chain
              (fun i => ImageScript.makeRequest ImageScript.maxRetries
                 (ImageScript.retryDelayMs env)
                 (ImageScript.LIVEPEER_GATEWAY_URL env) url payload (i + 1)
                 (ImageScript.network env (i + 1)%nat))
              (fun i (_ : unit) r (_ : unit) =>
                 exists k,
                   ImageScript.success r
                   = negb (rejected 300000
                             (ImageScript.network env (i + 1)%nat k))))
    with (xs := seq 0 (Z.to_nat (ImageScript.totalRequests env)))
         (t0 := now w) (w := w) as (l & w' & evs & Hrun & Htr & Hchain).
  - intros i w1.
    destruct (img_makeRequest_spec ImageScript.maxRetries
                (ImageScript.retryDelayMs env)
                (ImageScript.LIVEPEER_GATEWAY_URL env) url payload (i + 1)
                (ImageScript.network env (i + 1)%nat) w1)
      as (r & w1' & evs1 & k & Hrun1 & Htr1 & _ & _ & _ & _ & Hok & _).
    exists r, w1', evs1. eauto.
  - exists l, w', evs. repeat split; auto.
    + rewrite (chain_length _ _ _ _ _ Hchain), length_seq. reflexivity.
    + clear Hrun Htr. induction Hchain; constructor; auto.
Qed.

(** ** Gateway statistics *)

(** Counting an outcome changes the entry of its pair and no other. *)
Lemma counters_counted (gatewayId g1 : Dual.GatewayId)
    (type t1 : Dual.CallType) (r : Dual.RequestResult) (g : Dual.Globals)
    (c : Dual.Call) :
  Dual.call_gatewayId c = gatewayId -> Dual.call_type c = type ->
  Dual.counters (Dual.counted gatewayId type r g) g1 t1
  = if Dual.same_pair g1 t1 c
    then Dual.tally r (Dual.counters g g1 t1)
    else Dual.counters g g1 t1.
Proof.
  intros Hg Ht. unfold Dual.same_pair. rewrite Hg, Ht.
  destruct gatewayId, type, g1, t1; reflexivity.
Qed.

(** The invocations of any list of calls all return; each outcome is counted
    for its pair, in the order in which the invocations settle. *)
Lemma dual_batch (maxRetries : nat) (calls : list Dual.Call)
    (w : World Dual.Globals) :
  exists results w' evs,
    promise_all (map (Dual.run_call maxRetries) calls) w = (Ret results, w')
    /\ trace w' = trace w ++ evs
    /\ Chain (fun c g r g1 =>
                g1 = Dual.counted (Dual.call_gatewayId c) (Dual.call_type c) r g
                /\ (exists k, Dual.retryCount r = Some k)
                /\ exists k,
                     Dual.success r
                     = negb (rejected 300000 (Dual.call_network c k)))
             calls (globals w) results (globals w').
Proof.
  unfold promise_all.
  apply join_all_chain. intros c w1. unfold Dual.run_call.
  destruct (dual_makeRequest_spec maxRetries (Dual.call_baseUrl c)
              (Dual.call_endpoint c) (Dual.call_payload c)
              (Dual.call_requestNum c) (Dual.call_type c)
              (Dual.call_gatewayId c) (Dual.call_network c) w1)
    as (r & w1' & evs1 & k & Hrun1 & Htr1 & Hg & Hr & _ & _ & Hok & _).
  exists r, w1', evs1. repeat split; eauto.
Qed.

(** The entries after a batch: every entry has been tallied with the
    outcomes of its pair. *)
Lemma chain_counters (calls : list Dual.Call) (g : Dual.Globals)
    (results : list Dual.RequestResult) (g' : Dual.Globals)
    (P : Dual.Call -> Dual.RequestResult -> Prop) :
  Chain (fun c g r g1 =>
           g1 = Dual.counted (Dual.call_gatewayId c) (Dual.call_type c) r g
           /\ P c r)
        calls g results g' ->
  forall g1 t1,
    Dual.counters g' g1 t1
    = fold_left (fun c r => Dual.tally r c)
                (Dual.outcomes_of g1 t1 calls results)
                (Dual.counters g g1 t1).
Proof.
  induction 1 as [g|c calls g r g1 results g2 [Hg HP] Hchain IH];
    intros ga ta; [reflexivity|].
  rewrite IH. subst g1. simpl Dual.outcomes_of.
  rewrite (counters_counted _ ga _ ta r g c eq_refl eq_refl).
  destruct (Dual.same_pair ga ta c); reflexivity.
Qed.

(** What tallying a list of outcomes does to an entry. *)
Lemma fold_tally (outs : list Dual.RequestResult) (c : Dual.Counters) :
  let c' := fold_left (fun c r => Dual.tally r c) outs c in
  Dual.c_requests c' = (Dual.c_requests c + List.length outs)%nat
  /\ Dual.c_success c'
     = (Dual.c_success c
        + List.length (filter (fun r => Dual.success r) outs))%nat
  /\ Dual.c_failure c'
     = (Dual.c_failure c
        + List.length (filter (fun r => negb (Dual.success r)) outs))%nat
  /\ Dual.c_retries c'
     = (Dual.c_retries c + list_sum (map Dual.retryCount_or_0 outs))%nat.
Proof.
  revert c. induction outs as [|r outs IH]; intros c; simpl.
  - repeat split; lia.
  - destruct (IH (Dual.tally r c)) as (H1 & H2 & H3 & H4).
    rewrite H1, H2, H3, H4. unfold Dual.tally. simpl.
    destruct (Dual.success r); simpl; repeat split; lia.
Qed.

(** C10. In the dual-gateway script every terminal outcome is counted exactly
    once: it adds one to the [requests] counter of its (gateway, call type)
    pair, tallies its success or failure and its retry count there, and
    leaves the counters of the other pairs unchanged.  At summary time, after
    any batch started from zeroed statistics, every entry satisfies
    [success + failure = requests], [requests] is the number of outcomes of
    its pair and [retries] is the sum of their retry counts; these are the
    numbers that [writeSummary] writes. *)
Theorem gateway_stats_account_for_outcomes :
  (forall maxRetries (c : Dual.Call) (w : World Dual.Globals),
     exists res w',
       Dual.run_call maxRetries c w = (Ret res, w')
       /\ Dual.counters (globals w') (Dual.call_gatewayId c) (Dual.call_type c)
          = Dual.tally res (Dual.counters (globals w) (Dual.call_gatewayId c)
                                          (Dual.call_type c))
       /\ Dual.c_requests (Dual.counters (globals w') (Dual.call_gatewayId c)
                                         (Dual.call_type c))
          = S (Dual.c_requests (Dual.counters (globals w)
                                  (Dual.call_gatewayId c) (Dual.call_type c)))
       /\ forall g1 t1, Dual.same_pair g1 t1 c = false ->
            Dual.counters (globals w') g1 t1 = Dual.counters (globals w) g1 t1)
  /\ (forall maxRetries (calls : list Dual.Call) (w : World Dual.Globals),
     globals w = Dual.initial ->
     exists results w' w'' tr,
       promise_all (map (Dual.run_call maxRetries) calls) w = (Ret results, w')
       /\ List.length results = List.length calls
       /\ (forall g1 t1,
             let c := Dual.counters (globals w') g1 t1 in
             let outs := Dual.outcomes_of g1 t1 calls results in
             (Dual.c_success c + Dual.c_failure c = Dual.c_requests c)%nat
             /\ Dual.c_requests c = List.length outs
             /\ Dual.c_retries c = list_sum (map Dual.retryCount_or_0 outs)
             /\ Dual.c_success c
                = List.length (filter (fun r => Dual.success r) outs))
       /\ Dual.writeSummary w' = (Ret tt, w'')
       /\ trace w'' = tr ++ [FsWriteLog Dual.SUMMARY_LOG
                               (Dual.summary_line (globals w'));
                             Stdout "Summary written to";
                             Stdout "=== Gateway Performance Summary ==="]).
Proof.
  split.
  - intros maxRetries c w. unfold Dual.run_call.
    destruct (dual_makeRequest_spec maxRetries (Dual.call_baseUrl c)
                (Dual.call_endpoint c) (Dual.call_payload c)
                (Dual.call_requestNum c) (Dual.call_type c)
                (Dual.call_gatewayId c) (Dual.call_network c) w)
      as (r & w' & evs & k & Hrun & _ & Hg & _).
    exists r, w'. split; [exact Hrun|]. rewrite Hg.
    assert (Hself : Dual.same_pair (Dual.call_gatewayId c) (Dual.call_type c) c
                    = true).
    { unfold Dual.same_pair.
      destruct (Dual.call_gatewayId c), (Dual.call_type c); reflexivity. }
    repeat split.
    + rewrite (counters_counted _ _ _ _ r (globals w) c eq_refl eq_refl).
      rewrite Hself. reflexivity.
    + rewrite (counters_counted _ _ _ _ r (globals w) c eq_refl eq_refl).
      rewrite Hself. unfold Dual.tally. simpl. lia.
    + intros g1 t1 Hother.
      rewrite (counters_counted _ g1 _ t1 r (globals w) c eq_refl eq_refl).
      rewrite Hother. reflexivity.
  - intros maxRetries calls w Hinit.
    destruct (dual_batch maxRetries calls w)
      as (results & w' & evs & Hrun & Htr & Hchain).
    destruct w' as [n' tr' g'].
    exists results, (mkWorld n' tr' g'). eexists. exists tr'.
    split; [exact Hrun|].
    split; [apply (chain_length _ _ _ _ _ Hchain)|].
    split; [|split; [reflexivity|]].
    + intros g1 t1. cbn [globals] in *.
      rewrite (chain_counters _ _ _ _ _ Hchain g1 t1), Hinit.
      destruct (fold_tally (Dual.outcomes_of g1 t1 calls results)
                  (Dual.counters Dual.initial g1 t1)) as (H1 & H2 & H3 & H4).
      cbv zeta. rewrite H1, H2, H3, H4.
      pose proof (filter_partition_length (fun r => Dual.success r)
                    (Dual.outcomes_of g1 t1 calls results)).
      assert (Hz : Dual.counters Dual.initial g1 t1 = Dual.zero)
        by (destruct g1, t1; reflexivity).
      rewrite Hz. simpl. repeat split; lia.
    + cbn [trace]. repeat rewrite <- app_assoc. reflexivity.
Qed.

(** C10 at a concrete input: the sample batch, started from zeroed
    statistics. *)
Lemma gateway_stats_account_for_outcomes_witness :
  globals (mkWorld 0 [] Dual.initial) = Dual.initial
  /\ exists results w' w'' tr,
       promise_all (map (Dual.run_call 3) Dual.sample_calls)
                   (mkWorld 0 [] Dual.initial) = (Ret results, w')
       /\ List.length results = List.length Dual.sample_calls
       /\ (forall g1 t1,
             let c := Dual.counters (globals w') g1 t1 in
             let outs := Dual.outcomes_of g1 t1 Dual.sample_calls results in
             (Dual.c_success c + Dual.c_failure c = Dual.c_requests c)%nat
             /\ Dual.c_requests c = List.length outs
             /\ Dual.c_retries c = list_sum (map Dual.retryCount_or_0 outs)
             /\ Dual.c_success c
                = List.length (filter (fun r => Dual.success r) outs))
       /\ Dual.writeSummary w' = (Ret tt, w'')
       /\ trace w'' = tr ++ [FsWriteLog Dual.SUMMARY_LOG
                               (Dual.summary_line (globals w'));
                             Stdout "Summary written to";
                             Stdout "=== Gateway Performance Summary ==="].
Proof.
  split; [reflexivity|].
  exact (proj2 gateway_stats_account_for_outcomes 3%nat Dual.sample_calls
               (mkWorld 0 [] Dual.initial) eq_refl).
Defined.

(** ** The dual-gateway script as a whole *)

Lemma setupDirectories_spec (mode : string) (w : World Dual.Globals) :
  exists evs,
    Dual.setupDirectories mode w
      = (Ret tt, mkWorld (now w) (trace w ++ evs) (globals w))
    /\ http_requests evs = 0%nat.
Proof.
  destruct w as [n tr g]. unfold Dual.setupDirectories.
  destruct (String.eqb mode "llm" || String.eqb mode "both");
    destruct (String.eqb mode "image" || String.eqb mode "both");
    run_m; eexists; (split; [f_equal; f_equal; trace_eq|]); reflexivity.
Qed.

Lemma computeStats_calls_spec (env : Dual.Env) (baseUrl : string)
    (w : World Dual.Globals) :
  exists evs,
    Dual.computeStats_calls env baseUrl w
      = (Ret tt, mkWorld (now w) (trace w ++ evs) (globals w)).
Proof.
  destruct w as [n tr g]. unfold Dual.computeStats_calls.
  destruct (String.eqb baseUrl "");
    [run_m; exists []; rewrite app_nil_r; reflexivity|].
  destruct (String.eqb (Dual.TEST_MODE env) "both"
            || String.eqb (Dual.TEST_MODE env) "image");
    destruct (String.eqb (Dual.TEST_MODE env) "both"
              || String.eqb (Dual.TEST_MODE env) "llm");
    run_m; eexists; f_equal; f_equal;
    try trace_eq; try (rewrite app_nil_r; reflexivity).
Qed.

Lemma addTasks_network (env : Dual.Env) (baseUrl : string)
    (gatewayLabel : Dual.GatewayId) (testType : Dual.CallType)
    (payload : Payload) (c : Dual.Call) :
  In c (Dual.addTasks env baseUrl gatewayLabel testType payload) ->
  exists gid type n, Dual.call_network c = Dual.network env gid type n.
Proof.
  unfold Dual.addTasks, array_from. intros Hin.
  apply in_map_iff in Hin. destruct Hin as (i & <- & _).
  simpl. eauto.
Qed.

Lemma gateway_tasks_network (env : Dual.Env) (baseUrl : string)
    (gatewayLabel : Dual.GatewayId) (imagePayload llmPayload : option Payload)
    (c : Dual.Call) :
  In c (Dual.gateway_tasks env baseUrl gatewayLabel imagePayload llmPayload) ->
  exists gid type n, Dual.call_network c = Dual.network env gid type n.
Proof.
  unfold Dual.gateway_tasks. destruct (String.eqb baseUrl ""); [intros []|].
  intros Hin. apply in_app_or in Hin. destruct Hin as [Hin|Hin].
  - destruct (_ || _); [|destruct Hin].
    destruct imagePayload; [|destruct Hin].
    eapply addTasks_network; eassumption.
  - destruct (_ || _); [|destruct Hin].
    destruct llmPayload; [|destruct Hin].
    eapply addTasks_network; eassumption.
Qed.

(** ** The single-gateway scripts as a whole *)

(** The batch of the LLM script with retries always completes. *)
Lemma llm_batch (env : LlmRetry.Env) (url : string) (payload : Payload)
    (w : World unit) :
  exists results w' evs,
    promise_all
      (array_from (LlmRetry.totalRequests env) (fun i =>
         LlmRetry.makeRequest LlmRetry.MAX_RETRIES LlmRetry.logFile url payload
           (i + 1) (LlmRetry.network env (i + 1)%nat)))
      w = (Ret results, w')
    /\ trace w' = trace w ++ evs
    /\ List.length results = Z.to_nat (LlmRetry.totalRequests env).
Proof.
  unfold promise_all, array_from.
  destruct (join_all_chain
              (fun i => LlmRetry.makeRequest LlmRetry.MAX_RETRIES
                 LlmRetry.logFile url payload (i + 1)
                 (LlmRetry.network env (i + 1)%nat))
              (fun i (_ : unit) (r : LlmRetry.RequestResult) (_ : unit) => True))
    with (xs := seq 0 (Z.to_nat (LlmRetry.totalRequests env)))
         (t0 := now w) (w := w) as (l & w' & evs & Hrun & Htr & Hchain).
  - intros i w1.
    destruct (llm_makeRequest_spec LlmRetry.MAX_RETRIES LlmRetry.logFile url
                payload (i + 1) (LlmRetry.network env (i + 1)%nat) w1)
      as (r & w1' & evs1 & k & Hrun1 & Htr1 & _).
    exists r, w1', evs1. auto.
  - exists l, w', evs. repeat split; auto.
    rewrite (chain_length _ _ _ _ _ Hchain), length_seq. reflexivity.
Qed.

(** ** Exit status *)

(** Without the gateway URL in the flags and in the environment, the
    dual-gateway script has no gateway. *)
Lemma dual_gateway_url_absent (args : list string)
    (environ : string -> option string) (flag envVar : string) :
  find (fun a => String.prefix ("--" ++ flag ++ "=")%string a) args = None ->
  environ envVar = None ->
  Dual.getArgValue args environ flag envVar "" = "".
Proof.
  intros Hflag Henv. unfold Dual.getArgValue. rewrite Hflag, Henv. reflexivity.
Qed.

(** ** Request errors stay inside the outcome *)

Lemma outcomes_of_forall (P : Dual.RequestResult -> Prop)
    (g1 : Dual.GatewayId) (t1 : Dual.CallType) (calls : list Dual.Call)
    (results : list Dual.RequestResult) :
  Forall P results -> Forall P (Dual.outcomes_of g1 t1 calls results).
Proof.
  intros Hall. revert calls.
  induction Hall as [|r results Hr _ IH]; intros calls;
    destruct calls as [|c calls]; simpl; auto.
  destruct (Dual.same_pair g1 t1 c); auto.
Qed.

Lemma forall2_forall {A B : Type} (R : A -> B -> Prop) (P : B -> Prop)
    (xs : list A) (ys : list B) :
  (forall x y, R x y -> P y) -> Forall2 R xs ys -> Forall P ys.
Proof. intros HP. induction 1; constructor; eauto. Qed.

(** ** The patterns of the prompt readers *)

Lemma orelse_none_r (a : option jsstring) : Regex.orelse a None = a.
Proof. destruct a; reflexivity. Qed.

(** White space before a literal that starts with another character: the
    star takes all of it. *)
Lemma star_then_lit (x : N) (p input cap : jsstring) (k : Regex.Cont) :
  is_space x = false ->
  Regex.star is_space input cap (fun r c => Regex.lit (x :: p) r c k)
  = Regex.lit (x :: p) (trimStart input) cap k.
Proof.
  intros Hx. induction input as [|h rest IH]; simpl; [reflexivity|].
  destruct (is_space h) eqn:Hh; [|reflexivity].
  rewrite IH. unfold Regex.lit at 2. simpl.
  destruct (N.eqb_spec x h) as [->|Hne]; [congruence|].
  apply orelse_none_r.
Qed.

(** White space before a rest of the pattern that matches everywhere: the
    star takes all of it. *)
Lemma star_then_total (input cap : jsstring) (k : Regex.Cont) :
  (forall s, k s cap <> None) ->
  Regex.star is_space input cap k = k (trimStart input) cap.
Proof.
  intros Hk. induction input as [|h rest IH]; simpl; [reflexivity|].
  destruct (is_space h); [|reflexivity].
  rewrite IH. destruct (k (trimStart rest) cap) eqn:E; [reflexivity|].
  exfalso. apply (Hk (trimStart rest)). assumption.
Qed.

(** A lookahead for a newline, white space and a word, or for the end of the
    input. *)
Lemma lookahead_line_start (x : N) (p input cap : jsstring) (k : Regex.Cont) :
  is_space x = false ->
  Regex.lookahead
    (Regex.alt (Regex.seq (Regex.lit [10%N])
                  (Regex.seq (Regex.star is_space) (Regex.lit (x :: p))))
               (Regex.dollar false)) input cap k
  = if match input with
       | c :: s' =>
         (10 =? c)%N && PromptForm.starts_with (x :: p) (trimStart s')
       | [] => true
       end
    then k input cap else None.
Proof.
  intros Hx. unfold Regex.lookahead, Regex.alt, Regex.seq.
  unfold Regex.lit at 1.
  destruct input as [|c rest]; [reflexivity|].
  cbn [strip_prefix Regex.dollar].
  destruct (10 =? c)%N; cbn [andb].
  - rewrite (star_then_lit x p rest cap (fun _ c => Some c) Hx).
    unfold Regex.lit, PromptForm.starts_with.
    destruct (strip_prefix (x :: p) (trimStart rest)); reflexivity.
  - reflexivity.
Qed.

(** The lazy group of the [llm_prompt] patterns stops at the first position
    where the lookahead holds. *)
Lemma group_lazy_until_img_key (input acc : jsstring) :
  Regex.group_lazy_from (dot true) acc input
    (fun rest cap' =>
       Regex.lookahead
         (Regex.alt (Regex.seq (Regex.lit [10%N])
                       (Regex.seq (Regex.star is_space)
                                  (Regex.lit (units "img_prompt"))))
                    (Regex.dollar false))
         rest cap' (fun _ cap => Some cap))
  = Some (acc ++ PromptForm.until_img_key input).
Proof.
  revert acc. induction input as [|c rest IH]; intros acc.
  - cbn [Regex.group_lazy_from].
    rewrite (lookahead_line_start 105 (units "mg_prompt") [] acc _ eq_refl).
    simpl. rewrite app_nil_r. reflexivity.
  - cbn [Regex.group_lazy_from].
    rewrite (lookahead_line_start 105 (units "mg_prompt") (c :: rest) acc _
               eq_refl).
    cbn [PromptForm.until_img_key PromptForm.at_img_key].
    change (105%N :: units "mg_prompt") with (units "img_prompt").
    destruct ((10 =? c)%N
              && PromptForm.starts_with (units "img_prompt") (trimStart rest)).
    + rewrite app_nil_r. reflexivity.
    + cbn [dot orb]. rewrite IH, <- app_assoc. reflexivity.
Qed.

(** The lazy group of the image script runs to the end of the input. *)
Lemma group_lazy_to_end (input acc : jsstring) :
  Regex.group_lazy_from (dot true) acc input
    (fun rest cap' => Regex.dollar false rest cap' (fun _ cap => Some cap))
  = Some (acc ++ input).
Proof.
  revert acc. induction input as [|c rest IH]; intros acc.
  - simpl. rewrite app_nil_r. reflexivity.
  - cbn [Regex.group_lazy_from Regex.dollar andb dot orb].
    rewrite IH, <- app_assoc. reflexivity.
Qed.

(** The greedy group of the dual script runs to the end of the line. *)
Lemma group_greedy_line (input acc : jsstring) :
  Regex.group_greedy_from (dot false) acc input
    (fun rest cap' => Regex.dollar true rest cap' (fun _ cap => Some cap))
  = Some (acc ++ PromptForm.take_line input).
Proof.
  revert acc. induction input as [|c rest IH]; intros acc.
  - simpl. rewrite app_nil_r. reflexivity.
  - cbn [Regex.group_greedy_from Regex.dollar PromptForm.take_line dot orb andb].
    destruct (is_line_terminator c); cbn [negb].
    + rewrite app_nil_r. reflexivity.
    + rewrite IH, <- app_assoc. reflexivity.
Qed.

Lemma strip_prefix_app (p rest : jsstring) :
  strip_prefix p (p ++ rest) = Some rest.
Proof.
  induction p as [|c p IH]; simpl; [reflexivity|].
  rewrite N.eqb_refl. assumption.
Qed.

Lemma strip_prefix_some (p s rest : jsstring) :
  strip_prefix p s = Some rest -> s = p ++ rest.
Proof.
  revert s. induction p as [|c p IH]; intros s H; simpl in *.
  - congruence.
  - destruct s as [|d s]; [discriminate|].
    destruct (N.eqb_spec c d) as [->|Hne]; [|discriminate].
    rewrite (IH s H). reflexivity.
Qed.

(** A missing key is a key that occurs nowhere in the file. *)
Lemma after_first_none (key s : jsstring) :
  PromptForm.after_first key s = None <-> ~ PromptForm.occurs key s.
Proof.
  induction s as [|c s IH]; simpl.
  - destruct (strip_prefix key []) as [rest|] eqn:E.
    + split; [discriminate|]. intros Hno. exfalso. apply Hno.
      exists [], rest. apply strip_prefix_some in E. assumption.
    + split; [|reflexivity]. intros _ (pre & post & Heq).
      destruct pre as [|x pre]; [|discriminate].
      simpl in Heq. rewrite Heq, strip_prefix_app in E. discriminate.
  - destruct (strip_prefix key (c :: s)) as [rest|] eqn:E.
    + split; [discriminate|]. intros Hno. exfalso. apply Hno.
      exists [], rest. apply strip_prefix_some in E. assumption.
    + rewrite IH. split.
      * intros Hno (pre & post & Heq). destruct pre as [|x pre].
        -- simpl in Heq. rewrite Heq, strip_prefix_app in E. discriminate.
        -- injection Heq as _ Heq. apply Hno. exists pre, post. assumption.
      * intros Hno (pre & post & Heq). apply Hno.
        exists (c :: pre), post. rewrite Heq. reflexivity.
Qed.

(** The value starts after the first occurrence of the key. *)
Lemma after_first_at (key pre v : jsstring) :
  (forall p1 p2, pre = p1 ++ p2 -> p2 <> [] ->
     strip_prefix key (p2 ++ key ++ v) = None) ->
  PromptForm.after_first key (pre ++ key ++ v) = Some v.
Proof.
  induction pre as [|c pre IH]; intros Hfirst.
  - simpl app. destruct (key ++ v) eqn:E; simpl;
      rewrite <- E, strip_prefix_app; reflexivity.
  - simpl app. simpl PromptForm.after_first.
    change (c :: pre ++ key ++ v) with ((c :: pre) ++ key ++ v).
    rewrite (Hfirst [] (c :: pre) eq_refl ltac:(discriminate)).
    apply IH. intros p1 p2 Heq Hne.
    apply (Hfirst (c :: p1) p2); [rewrite Heq; reflexivity|assumption].
Qed.

Lemma trimStart_spaces (ws : jsstring) (x : N) (t : jsstring) :
  Forall (fun c => is_space c = true) ws -> is_space x = false ->
  trimStart (ws ++ x :: t) = x :: t.
Proof.
  intros Hws Hx. induction Hws as [|c ws Hc _ IH]; simpl.
  - rewrite Hx. reflexivity.
  - rewrite Hc. assumption.
Qed.

Lemma trimStart_split (s : jsstring) :
  exists ws, Forall (fun c => is_space c = true) ws /\ s = ws ++ trimStart s.
Proof.
  induction s as [|c s (ws & Hws & Heq)]; simpl.
  - exists []. auto.
  - destruct (is_space c) eqn:Hc.
    + exists (c :: ws). split; [constructor; assumption|].
      simpl. rewrite <- Heq. reflexivity.
    + exists []. auto.
Qed.

(** In the dual script a missing key is a key that is nowhere followed by
    optional white space and [=]. *)
Lemma after_first_eq_none (name s : jsstring) :
  PromptForm.after_first_eq name s = None <-> ~ PromptForm.occurs_eq name s.
Proof.
  assert (Hhere : forall s rest value,
            strip_prefix name s = Some rest ->
            strip_prefix (units "=") (trimStart rest) = Some value ->
            PromptForm.occurs_eq name s).
  { intros s0 rest value H1 H2.
    apply strip_prefix_some in H1. apply strip_prefix_some in H2.
    destruct (trimStart_split rest) as (ws & Hws & Heq).
    exists [], ws, value. split; [assumption|].
    simpl. rewrite H1, Heq at 1. rewrite H2. reflexivity. }
  assert (Hnot : forall s,
            match strip_prefix name s with
            | Some rest => strip_prefix (units "=") (trimStart rest) = None
            | None => True
            end ->
            forall ws post, Forall (fun c => is_space c = true) ws ->
              s <> name ++ ws ++ units "=" ++ post).
  { intros s0 H ws post Hws Heq. rewrite Heq, strip_prefix_app in H.
    change (units "=" ++ post) with (61%N :: post) in H.
    rewrite (trimStart_spaces ws 61 post Hws eq_refl) in H.
    simpl in H. discriminate. }
  induction s as [|c s IH].
  - cbn [PromptForm.after_first_eq].
    destruct (strip_prefix name []) as [rest|] eqn:E1;
      [destruct (strip_prefix (units "=") (trimStart rest)) as [value|] eqn:E2|].
    + split; [discriminate|]. intros Hno. exfalso. apply Hno. eauto.
    + split; [|reflexivity]. intros _ (pre & ws & post & Hws & Heq).
      destruct pre as [|x pre]; [|discriminate].
      apply (Hnot [] ltac:(rewrite E1; exact E2) ws post Hws Heq).
    + split; [|reflexivity]. intros _ (pre & ws & post & Hws & Heq).
      destruct pre as [|x pre]; [|discriminate].
      apply (Hnot [] ltac:(rewrite E1; exact I) ws post Hws Heq).
  - cbn [PromptForm.after_first_eq].
    destruct (strip_prefix name (c :: s)) as [rest|] eqn:E1;
      [destruct (strip_prefix (units "=") (trimStart rest)) as [value|] eqn:E2|].
    + split; [discriminate|]. intros Hno. exfalso. apply Hno. eauto.
    + rewrite IH. split.
      * intros Hno (pre & ws & post & Hws & Heq). destruct pre as [|x pre].
        -- apply (Hnot (c :: s) ltac:(rewrite E1; exact E2) ws post Hws Heq).
        -- injection Heq as _ Heq. apply Hno. exists pre, ws, post. auto.
      * intros Hno (pre & ws & post & Hws & Heq). apply Hno.
        exists (c :: pre), ws, post. rewrite Heq. auto.
    + rewrite IH. split.
      * intros Hno (pre & ws & post & Hws & Heq). destruct pre as [|x pre].
        -- apply (Hnot (c :: s) ltac:(rewrite E1; exact I) ws post Hws Heq).
        -- injection Heq as _ Heq. apply Hno. exists pre, ws, post. auto.
      * intros Hno (pre & ws & post & Hws & Heq). apply Hno.
        exists (c :: pre), ws, post. rewrite Heq. auto.
Qed.

(** A pattern that is a literal key followed by a part that matches whatever
    follows: the first occurrence of the key decides. *)
Lemma exec_after_first (key : jsstring) (m : Regex.Matcher)
    (f : jsstring -> jsstring) :
  (forall rest, m rest [] (fun _ cap => Some cap) = Some (f rest)) ->
  forall input,
    Regex.exec (Regex.seq (Regex.lit key) m) input
    = option_map f (PromptForm.after_first key input).
Proof.
  intros Hm. induction input as [|c input IH].
  - cbn [Regex.exec PromptForm.after_first]. unfold Regex.seq, Regex.lit.
    destruct (strip_prefix key []) as [rest|]; [rewrite Hm|]; reflexivity.
  - cbn [Regex.exec PromptForm.after_first]. unfold Regex.seq at 1, Regex.lit.
    destruct (strip_prefix key (c :: input)) as [rest|].
    + rewrite Hm. reflexivity.
    + exact IH.
Qed.

(** The same for a name, optional white space, [=], optional white space and
    a part that matches whatever follows. *)
Lemma exec_after_first_eq (name : jsstring) (m : Regex.Matcher)
    (f : jsstring -> jsstring) :
  (forall rest, m rest [] (fun _ cap => Some cap) = Some (f rest)) ->
  forall input,
    Regex.exec
      (Regex.seq (Regex.lit name)
         (Regex.seq (Regex.star is_space)
            (Regex.seq (Regex.lit (units "="))
               (Regex.seq (Regex.star is_space) m)))) input
    = option_map (fun v => f (trimStart v))
                 (PromptForm.after_first_eq name input).
Proof.
  intros Hm.
  assert (Hhere : forall input,
    Regex.seq (Regex.lit name)
      (Regex.seq (Regex.star is_space)
         (Regex.seq (Regex.lit (units "="))
            (Regex.seq (Regex.star is_space) m))) input []
      (fun _ cap => Some cap)
    = match strip_prefix name input with
      | Some rest =>
        match strip_prefix (units "=") (trimStart rest) with
        | Some value => Some (f (trimStart value))
        | None => None
        end
      | None => None
      end).
  { intros input. unfold Regex.seq at 1, Regex.lit at 1.
    destruct (strip_prefix name input) as [rest|]; [|reflexivity].
    unfold Regex.seq at 1 2.
    change (units "=") with [61%N].
    rewrite (star_then_lit 61 [] rest [] _ eq_refl).
    unfold Regex.lit.
    destruct (strip_prefix [61%N] (trimStart rest)) as [value|]; [|reflexivity].
    unfold Regex.seq.
    rewrite star_then_total; [apply Hm|].
    intros s. rewrite Hm. discriminate. }
  induction input as [|c input IH].
  - cbn [Regex.exec PromptForm.after_first_eq]. rewrite Hhere.
    destruct (strip_prefix name []) as [rest|]; [|reflexivity].
    destruct (strip_prefix (units "=") (trimStart rest)); reflexivity.
  - cbn [Regex.exec PromptForm.after_first_eq]. rewrite Hhere.
    destruct (strip_prefix name (c :: input)) as [rest|]; [|exact IH].
    destruct (strip_prefix (units "=") (trimStart rest)); [reflexivity|exact IH].
Qed.

(** What the four patterns extract. *)
Lemma llm_prompt_re_form (input : jsstring) :
  Regex.exec LlmRetry.llm_prompt_re input
  = option_map PromptForm.until_img_key
               (PromptForm.after_first (units "llm_prompt=") input).
Proof.
  apply exec_after_first. intros rest.
  unfold Regex.seq, Regex.group_lazy.
  apply (group_lazy_until_img_key rest []).
Qed.

Lemma img_prompt_re_form (input : jsstring) :
  Regex.exec ImageScript.img_prompt_re input
  = option_map (fun v => v) (PromptForm.after_first (units "img_prompt=") input).
Proof.
  apply exec_after_first. intros rest.
  unfold Regex.seq, Regex.group_lazy.
  apply (group_lazy_to_end rest []).
Qed.

Lemma dual_img_prompt_re_form (input : jsstring) :
  Regex.exec Dual.img_prompt_re input
  = option_map (fun v => PromptForm.take_line (trimStart v))
               (PromptForm.after_first_eq (units "img_prompt") input).
Proof.
  apply (exec_after_first_eq (units "img_prompt")
           (Regex.seq (Regex.group_greedy (dot false)) (Regex.dollar true))
           PromptForm.take_line).
  intros rest. unfold Regex.seq, Regex.group_greedy.
  apply (group_greedy_line rest []).
Qed.

Lemma dual_llm_prompt_re_form (input : jsstring) :
  Regex.exec Dual.llm_prompt_re input
  = option_map (fun v => PromptForm.until_img_key (trimStart v))
               (PromptForm.after_first_eq (units "llm_prompt") input).
Proof.
  apply (exec_after_first_eq (units "llm_prompt")
           (Regex.seq (Regex.group_lazy (dot true))
              (Regex.lookahead
                 (Regex.alt (Regex.seq (Regex.lit [10%N])
                               (Regex.seq (Regex.star is_space)
                                          (Regex.lit (units "img_prompt"))))
                            (Regex.dollar false))))
           PromptForm.until_img_key).
  intros rest. unfold Regex.seq, Regex.group_lazy.
  apply (group_lazy_until_img_key rest []).
Qed.

(** * Further properties of the scripts *)

(** ** The pause of one second is part of the measured duration *)

(** X1. Every successful outcome reports at least the 1000 ms that the runner
    sleeps after the response, before it reads the clock again. *)
Theorem success_duration_includes_pause :
  (forall url payload requestNum a (w : World unit),
     exists res w',
       Simple.makeRequest url payload requestNum a w = (Ret res, w')
       /\ (Simple.success res = true -> 1000 <= Simple.duration res))
  /\ (forall maxRetries logFile url payload requestNum endpoint
             (w : World unit),
     exists res w',
       LlmRetry.makeRequest maxRetries logFile url payload requestNum endpoint w
         = (Ret res, w')
       /\ (LlmRetry.success res = true -> 1000 <= LlmRetry.duration res))
  /\ (forall maxRetries retryDelayMs gatewayUrl url payload requestNum endpoint
             (w : World unit),
     exists res w',
       ImageScript.makeRequest maxRetries retryDelayMs gatewayUrl url payload
                               requestNum endpoint w = (Ret res, w')
       /\ (ImageScript.success res = true -> 1000 <= ImageScript.duration res))
  /\ (forall maxRetries baseUrl endpointPath payload requestNum type gatewayId
             endpoint (w : World Dual.Globals),
     exists res w',
       Dual.makeRequest maxRetries baseUrl endpointPath payload requestNum
                        type gatewayId endpoint w = (Ret res, w')
       /\ (Dual.success res = true -> 1000 <= Dual.duration res)).
Proof.
  assert (H300 : 0 <= 300000) by lia.
  repeat apply conj.
  - intros url payload requestNum a w.
    destruct (simple_makeRequest_spec url payload requestNum a w)
      as (res & w' & evs & Hrun & _ & _ & _ & Hd & Hnow & _).
    exists res, w'. split; [assumption|]. intros Hs.
    rewrite Hd, Hnow, Hs.
    pose proof (answer_time_bound 300000 a [] H300). lia.
  - intros maxRetries logFile url payload requestNum endpoint w.
    destruct (llm_makeRequest_spec maxRetries logFile url payload requestNum
                endpoint w)
      as (res & w' & evs & k & Hrun & _ & _ & _ & _ & _ & _ & _ & Hd & Hnow & _).
    exists res, w'. split; [assumption|]. intros Hs.
    rewrite Hd, Hnow, Hs.
    pose proof (retry_time_nonneg 300000 LlmRetry.RETRY_DELAY endpoint k H300).
    pose proof (answer_time_bound 300000 (endpoint k) [] H300). lia.
  - intros maxRetries retryDelayMs gatewayUrl url payload requestNum endpoint w.
    destruct (img_makeRequest_spec maxRetries retryDelayMs gatewayUrl url
                payload requestNum endpoint w)
      as (res & w' & evs & k & Hrun & _ & _ & _ & _ & _ & _ & _ & Hd & _).
    exists res, w'. split; [assumption|]. intros Hs.
    rewrite Hd, Hs.
    apply (answer_time_bound 300000 (endpoint k) _ H300).
  - intros maxRetries baseUrl endpointPath payload requestNum type gatewayId
           endpoint w.
    destruct (dual_makeRequest_spec maxRetries baseUrl endpointPath payload
                requestNum type gatewayId endpoint w)
      as (res & w' & evs & k & Hrun & _ & _ & _ & _ & _ & _ & _ & Hd & _ & Hnow
          & _).
    exists res, w'. split; [assumption|]. intros Hs.
    rewrite Hd, Hs, Hnow, Hs.
    pose proof (retry_time_nonneg Dual.TIMEOUT_MS Dual.RETRY_DELAY_MS endpoint
                  k timeout_ms_nonneg).
    pose proof (answer_time_bound Dual.TIMEOUT_MS (endpoint k)
                  (Dual.answer_fetched type (endpoint k)) timeout_ms_nonneg).
    lia.
Qed.

(** At a concrete input: one request that is answered at once. *)
Lemma success_duration_includes_pause_witness :
  exists res w',
    Simple.makeRequest "http://gw/text-to-image"
      (ImagePayload "ByteDance/SDXL-Lightning" (units "a cat") 1024 1024)
      1 instant_ok (mkWorld 0 [] tt) = (Ret res, w')
    /\ Simple.success res = true
    /\ 1000 <= Simple.duration res.
Proof.
  destruct (proj1 success_duration_includes_pause "http://gw/text-to-image"
              (ImagePayload "ByteDance/SDXL-Lightning" (units "a cat")
                            1024 1024)
              1%nat instant_ok (mkWorld 0 [] tt)) as (res & w' & Hrun & H).
  exists res, w'. split; [exact Hrun|].
  assert (Hs : Simple.success res = true).
  { vm_compute in Hrun. injection Hrun as <- _. reflexivity. }
  split; [exact Hs | exact (H Hs)].
Defined.

(** ** The timeout bounds the time of an invocation *)

Lemma settle_time_le (timeout : Z) (a : Attempt) :
  fst (settle timeout a) <= timeout.
Proof.
  unfold settle. destruct (timeout <? Z.of_N (latency a)) eqn:E; simpl; lia.
Qed.

Lemma retry_time_le (timeout delay : Z) (endpoint : Endpoint) (k : nat) :
  (forall j, timer_lag (endpoint j) = 0%N) ->
  retry_time timeout delay endpoint k
  <= Z.of_nat k * (timeout + timer_delay delay).
Proof.
  intros Hlag. induction k as [|k IH]; [simpl; lia|].
  cbn [retry_time]. rewrite Hlag.
  pose proof (settle_time_le timeout (endpoint k)). lia.
Qed.

Lemma answer_fetched_llm (a : Attempt) : Dual.answer_fetched Dual.LLM a = [].
Proof.
  unfold Dual.answer_fetched.
  destruct (snd (settle Dual.TIMEOUT_MS a)); reflexivity.
Qed.

(** X2. When timers fire on time, an LLM invocation returns within
    [(maxRetries + 1)] timeouts, [maxRetries] retry delays and the pause of
    one second, however slow the endpoint is. *)
Theorem llm_invocation_time_is_bounded (maxRetries : nat)
    (endpoint : Endpoint) :
  (forall j, timer_lag (endpoint j) = 0%N) ->
  (forall logFile url payload requestNum (w : World unit),
     exists res w',
       LlmRetry.makeRequest maxRetries logFile url payload requestNum endpoint w
         = (Ret res, w')
       /\ now w' - now w
          <= (Z.of_nat maxRetries + 1) * 300000
             + Z.of_nat maxRetries * 1000 + 1000)
  /\ (forall baseUrl endpointPath payload requestNum gatewayId
             (w : World Dual.Globals),
     exists res w',
       Dual.makeRequest maxRetries baseUrl endpointPath payload requestNum
                        Dual.LLM gatewayId endpoint w = (Ret res, w')
       /\ now w' - now w
          <= (Z.of_nat maxRetries + 1) * 300000
             + Z.of_nat maxRetries * 2000 + 1000).
Proof.
  intros Hlag. split.
  - intros logFile url payload requestNum w.
    destruct (llm_makeRequest_spec maxRetries logFile url payload requestNum
                endpoint w)
      as (res & w' & evs & k & Hrun & _ & _ & _ & Hk & _ & _ & _ & _ & Hnow & _).
    exists res, w'. split; [assumption|]. rewrite Hnow.
    pose proof (retry_time_le 300000 LlmRetry.RETRY_DELAY endpoint k Hlag) as Hr.
    change (timer_delay LlmRetry.RETRY_DELAY) with 1000 in Hr.
    pose proof (settle_time_le 300000 (endpoint k)).
    unfold answer_time. simpl images_time. rewrite Hlag.
    destruct (LlmRetry.success res); nia.
  - intros baseUrl endpointPath payload requestNum gatewayId w.
    destruct (dual_makeRequest_spec maxRetries baseUrl endpointPath payload
                requestNum Dual.LLM gatewayId endpoint w)
      as (res & w' & evs & k & Hrun & _ & _ & _ & Hk & _ & _ & _ & _ & _ & Hnow
          & _).
    exists res, w'. split; [assumption|]. rewrite Hnow.
    pose proof (retry_time_le Dual.TIMEOUT_MS Dual.RETRY_DELAY_MS endpoint k
                  Hlag) as Hr.
    change (timer_delay Dual.RETRY_DELAY_MS) with 2000 in Hr.
    change Dual.TIMEOUT_MS with 300000 in *.
    pose proof (settle_time_le 300000 (endpoint k)).
    rewrite answer_fetched_llm.
    unfold answer_time. simpl images_time. rewrite Hlag.
    destruct (Dual.success res); nia.
Qed.

(** At a concrete input: the endpoint that is always down, ceiling 3. *)
Lemma llm_invocation_time_is_bounded_witness :
  (forall j, timer_lag (always_down j) = 0%N)
  /\ exists res w',
       LlmRetry.makeRequest 3 "log" "http://gw/llm"
         (LLMPayload "m" [] 1000 false) 1 always_down (mkWorld 0 [] tt)
         = (Ret res, w')
       /\ now w' - 0 <= (Z.of_nat 3 + 1) * 300000 + Z.of_nat 3 * 1000 + 1000.
Proof.
  split; [intros j; reflexivity|].
  exact (proj1 (llm_invocation_time_is_bounded 3 always_down
                 (fun j => eq_refl))
               "log" "http://gw/llm" (LLMPayload "m" [] 1000 false) 1%nat
               (mkWorld 0 [] tt)).
Defined.

(** ** An empty batch *)

Lemma array_from_nonpositive {A : Type} (n : Z) (f : nat -> A) :
  n <= 0 -> array_from n f = [].
Proof.
  intros Hn. unfold array_from.
  replace (Z.to_nat n) with 0%nat by lia. reflexivity.
Qed.

(** X3. A negative total is accepted (zero is not: the scripts replace it by 50)
    and makes the batch empty: no request is issued, and the summary prints
    the negative total beside zero successes, zero failures and an average
    that is not a number. *)
Theorem negative_total_runs_empty_batch :
  (forall (env : Simple.Env) (w : World unit),
     falsy (Simple.LIVEPEER_GATEWAY_URL env) = false ->
     Simple.totalRequests env < 0 ->
     exists w',
       Simple.main env w = (Ret tt, w')
       /\ http_requests (trace w') = http_requests (trace w)
       /\ appended (trace w')
          = appended (trace w)
            ++ [LineSummary [("Total Requests", Simple.totalRequests env);
                             ("Successes", 0); ("Failures", 0)]
                            [("Average Response Time", None)]])
  /\ (forall (env : ImageScript.Env) (w : World unit)
             (promptsContent group1 : jsstring),
     falsy (ImageScript.LIVEPEER_GATEWAY_URL env) = false ->
     ImageScript.prompts env = Some promptsContent ->
     Regex.exec ImageScript.img_prompt_re promptsContent = Some group1 ->
     ImageScript.totalRequests env < 0 ->
     exists w',
       ImageScript.main env w = (Ret tt, w')
       /\ http_requests (trace w') = http_requests (trace w)
       /\ appended (trace w')
          = appended (trace w)
            ++ [LineSummary [("Total Requests", ImageScript.totalRequests env);
                             ("Successes", 0); ("Failures", 0);
                             ("Requests that needed retries", 0);
                             ("Successfully retried requests", 0)]
                            [("Average Response Time", None)]]).
Proof.
  split.
  - intros env [n tr g] Hurl Hn. unfold Simple.main. rewrite Hurl.
    rewrite (array_from_nonpositive _ _ (Z.lt_le_incl _ _ Hn)).
    unfold promise_all.
    cbn [join_all]. run_m.
    eexists. split; [reflexivity|]. cbn [trace].
    rewrite !http_requests_app, !appended_app. simpl.
    rewrite !app_nil_r. split; [lia|reflexivity].
  - intros env [n tr g] promptsContent group1 Hurl Hfile Hkey Hn.
    unfold ImageScript.main, ImageScript.readPrompt. rewrite Hurl, Hfile.
    run_m. rewrite Hkey. run_m.
    rewrite (array_from_nonpositive _ _ (Z.lt_le_incl _ _ Hn)).
    unfold promise_all.
    cbn [join_all]. run_m.
    eexists. split; [reflexivity|]. cbn [trace].
    rewrite !http_requests_app, !appended_app. simpl.
    rewrite !app_nil_r. split; [lia|reflexivity].
Qed.

(** At a concrete input: [TOTAL_REQUESTS=-3]. *)
Lemma negative_total_runs_empty_batch_witness :
  falsy (Some "http://gw") = false
  /\ -3 < 0
  /\ exists w',
       Simple.main (Simple.mkEnv (Some "http://gw") (-3) (fun _ => instant_ok))
                   (mkWorld 0 [] tt) = (Ret tt, w')
       /\ http_requests (trace w') = http_requests []
       /\ appended (trace w')
          = appended []
            ++ [LineSummary [("Total Requests", -3);
                             ("Successes", 0); ("Failures", 0)]
                            [("Average Response Time", None)]].
Proof.
  split; [reflexivity|]. split; [lia|].
  exact (proj1 negative_total_runs_empty_batch
               (Simple.mkEnv (Some "http://gw") (-3) (fun _ => instant_ok))
               (mkWorld 0 [] tt) eq_refl ltac:(simpl; lia)).
Defined.

(** ** Requests sent and retries reported *)

(** Every result of a join is the result of its own invocation. *)
Lemma join_all_results {G A : Type} (tasks : list (M G A)) (t0 : Z)
    (w : World G) (l : list A) (w' : World G) :
  join_all t0 tasks w = (Ret l, w') ->
  Forall2 (fun t a => exists w0 w1, t w0 = (Ret a, w1)) tasks l.
Proof.
  revert w l w'. induction tasks as [|t tasks IH]; intros w l w' Hrun.
  - simpl in Hrun. unfold ret in Hrun. injection Hrun as <- _. constructor.
  - simpl in Hrun.
    destruct (t (mkWorld t0 (trace w) (globals w))) as [[a| | |] w1] eqn:Ht;
      try discriminate.
    unfold bind in Hrun.
    destruct (join_all t0 tasks _) as [[l1| | |] w2] eqn:Hj; try discriminate.
    unfold ret in Hrun. injection Hrun as <- _.
    constructor; [eauto|]. eapply IH. eassumption.
Qed.

(** The POST requests of a join are those of its invocations. *)
Lemma join_all_posts {G A : Type} (cost : A -> nat) (tasks : list (M G A))
    (t0 : Z) (w : World G) (l : list A) (w' : World G) :
  Forall (fun t => forall w0 a w1, t w0 = (Ret a, w1) ->
            posts (trace w1) = (posts (trace w0) + cost a)%nat) tasks ->
  join_all t0 tasks w = (Ret l, w') ->
  posts (trace w') = (posts (trace w) + list_sum (map cost l))%nat.
Proof.
  intros Hall. revert w l w'.
  induction Hall as [|t tasks Ht _ IH]; intros w l w' Hrun.
  - simpl in Hrun. unfold ret in Hrun. injection Hrun as <- <-. simpl. lia.
  - simpl in Hrun.
    destruct (t (mkWorld t0 (trace w) (globals w))) as [[a| | |] w1] eqn:Et;
      try discriminate.
    unfold bind in Hrun.
    destruct (join_all t0 tasks _) as [[l1| | |] w2] eqn:Hj; try discriminate.
    unfold ret in Hrun. injection Hrun as <- <-.
    rewrite (IH _ _ _ Hj). cbn [trace].
    rewrite (Ht _ _ _ Et). cbn [trace]. simpl. lia.
Qed.

Lemma fold_left_add_sum {A : Type} (f : A -> nat) (l : list A) (acc : nat) :
  fold_left (fun a x => (a + f x)%nat) l acc = (acc + list_sum (map f l))%nat.
Proof.
  revert acc. induction l as [|x l IH]; intros acc; simpl; [lia|].
  rewrite IH. lia.
Qed.

(** An invocation of the LLM runner sends one POST more than the retry count
    it reports. *)
Lemma llm_posts_of_result (maxRetries : nat) (logFile url : string)
    (payload : Payload) (requestNum : nat) (endpoint : Endpoint)
    (w0 : World unit) (a : LlmRetry.RequestResult) (w1 : World unit) :
  LlmRetry.makeRequest maxRetries logFile url payload requestNum endpoint w0
    = (Ret a, w1) ->
  posts (trace w1)
  = (posts (trace w0)
     + S (match LlmRetry.retries a with Some n => n | None => 0 end))%nat.
Proof.
  intros Hrun.
  destruct (llm_makeRequest_spec maxRetries logFile url payload requestNum
              endpoint w0)
    as (res & w' & evs & k & Hrun' & Htr & _ & Hr & _ & _ & _ & _ & _ & _ & Hp
        & _).
  rewrite Hrun in Hrun'. injection Hrun' as <- <-.
  rewrite Htr, posts_app, Hp, Hr. reflexivity.
Qed.

(** ** The retry counts of the image script's summary *)

(** What holds of every invocation that returns holds of every result of a
    batch, position by position. *)
Lemma batch_results {G X A : Type} (run : X -> M G A) (P : X -> A -> Prop)
    (xs : list X) (t0 : Z) (w : World G) (l : list A) (w' : World G) :
  (forall x w0 a w1, run x w0 = (Ret a, w1) -> P x a) ->
  join_all t0 (map run xs) w = (Ret l, w') ->
  Forall2 P xs l.
Proof.
  intros HP Hrun. apply join_all_results in Hrun.
  remember (map run xs) as tasks eqn:Etasks. revert xs Etasks.
  induction Hrun as [|t a tasks l (w0 & w1 & Ht) _ IH]; intros xs Etasks.
  - destruct xs; [constructor | discriminate].
  - destruct xs as [|x xs]; [discriminate|].
    simpl in Etasks. injection Etasks as -> ->.
    constructor; [eapply HP; eassumption | apply IH; reflexivity].
Qed.

Lemma forall2_filter_length {A B : Type} (p : A -> bool) (q : B -> bool)
    (xs : list A) (ys : list B) :
  Forall2 (fun x y => q y = p x) xs ys ->
  List.length (filter q ys) = List.length (filter p xs).
Proof.
  induction 1 as [|x y xs ys Hxy _ IH]; [reflexivity|].
  simpl. rewrite Hxy. destruct (p x); simpl; congruence.
Qed.

(** An invocation of the image runner reports a retry exactly when its first
    attempt was rejected, and every failure reports one. *)
Lemma img_retried_iff_first_rejected (retryDelayMs : Z)
    (gatewayUrl : option string) (url : string) (payload : Payload)
    (requestNum : nat) (endpoint : Endpoint)
    (w0 : World unit) (r : ImageScript.RequestResult) (w1 : World unit) :
  ImageScript.makeRequest ImageScript.maxRetries retryDelayMs gatewayUrl url
                          payload requestNum endpoint w0 = (Ret r, w1) ->
  ImageScript.retried r = rejected 300000 (endpoint 0%nat)
  /\ (ImageScript.success r = false -> ImageScript.retried r = true).
Proof.
  intros Hrun.
  destruct (img_makeRequest_spec ImageScript.maxRetries retryDelayMs gatewayUrl
              url payload requestNum endpoint w0)
    as (r' & w' & evs & k & Hrun' & _ & _ & Hr & _ & Hrej & Hok & Hmax & _).
  rewrite Hrun in Hrun'. injection Hrun' as <- <-.
  unfold ImageScript.retried. rewrite Hr. split.
  - destruct k as [|k].
    + simpl. destruct (rejected 300000 (endpoint 0%nat)) eqn:E; [|reflexivity].
      try rewrite E in Hok. simpl in Hok. specialize (Hmax Hok). discriminate.
    + rewrite (Hrej 0%nat ltac:(lia)). apply Z.ltb_lt. lia.
  - intros Hf. rewrite (Hmax Hf). reflexivity.
Qed.

Lemma retried_splits (results : list ImageScript.RequestResult) :
  Forall (fun r => ImageScript.success r = false
                   -> ImageScript.retried r = true) results ->
  ImageScript.retriedCount results
  = (ImageScript.retriedSuccessCount results
     + ImageScript.failureCount results)%nat.
Proof.
  unfold ImageScript.retriedCount, ImageScript.retriedSuccessCount,
    ImageScript.failureCount.
  induction 1 as [|r l Hr _ IH]; [reflexivity|].
  simpl. destruct (ImageScript.success r) eqn:Es; simpl.
  - destruct (ImageScript.retried r); simpl; lia.
  - rewrite (Hr eq_refl). simpl. lia.
Qed.

(** ** What the summary of the dual script accounts for *)

Lemma outcomes_partition_sum (f : Dual.RequestResult -> nat)
    (calls : list Dual.Call) (results : list Dual.RequestResult) :
  List.length results = List.length calls ->
  (list_sum (map f (Dual.outcomes_of Dual.Gateway1 Dual.LLM calls results))
   + list_sum (map f (Dual.outcomes_of Dual.Gateway1 Dual.Image calls results))
   + list_sum (map f (Dual.outcomes_of Dual.Gateway2 Dual.LLM calls results))
   + list_sum (map f (Dual.outcomes_of Dual.Gateway2 Dual.Image calls results))
   = list_sum (map f results))%nat.
Proof.
  revert results. induction calls as [|c calls IH]; intros [|r results] Hlen;
    try discriminate; [reflexivity|].
  simpl in Hlen. injection Hlen as Hlen. specialize (IH _ Hlen).
  cbn [Dual.outcomes_of]. unfold Dual.same_pair.
  destruct (Dual.call_gatewayId c), (Dual.call_type c);
    unfold list_sum in *; cbn [map fold_right] in *; lia.
Qed.

Lemma list_sum_ones {A : Type} (l : list A) :
  list_sum (map (fun _ => 1%nat) l) = List.length l.
Proof. induction l; simpl; congruence. Qed.

(** An invocation of the dual runner sends one POST more than the retry
    count it reports. *)
Lemma dual_posts_of_result (maxRetries : nat) (c : Dual.Call)
    (w0 : World Dual.Globals) (r : Dual.RequestResult)
    (w1 : World Dual.Globals) :
  Dual.run_call maxRetries c w0 = (Ret r, w1) ->
  posts (trace w1) = (posts (trace w0) + S (Dual.retryCount_or_0 r))%nat.
Proof.
  intros Hrun. unfold Dual.run_call in Hrun.
  destruct (dual_makeRequest_spec maxRetries (Dual.call_baseUrl c)
              (Dual.call_endpoint c) (Dual.call_payload c)
              (Dual.call_requestNum c) (Dual.call_type c)
              (Dual.call_gatewayId c) (Dual.call_network c) w0)
    as (r' & w' & evs & k & Hrun' & Htr & _ & Hr & _ & _ & _ & _ & _ & _ & _
        & Hp & _).
  rewrite Hrun in Hrun'. injection Hrun' as <- <-.
  rewrite Htr, posts_app, Hp. unfold Dual.retryCount_or_0. rewrite Hr.
  reflexivity.
Qed.

(** X6. The four blocks of the summary of the dual script account for every
    request sent: their [Total] fields add up to the number of invocations,
    and [Total] plus [Retries], added over the blocks, is the number of POST
    requests of the batch. *)
Theorem dual_summary_accounts_for_posts (maxRetries : nat)
    (calls : list Dual.Call) (w : World Dual.Globals) :
  globals w = Dual.initial ->
  exists results w',
    promise_all (map (Dual.run_call maxRetries) calls) w = (Ret results, w')
    /\ list_sum (map Dual.s_total (Dual.summary (globals w')))
       = List.length calls
    /\ posts (trace w')
       = (posts (trace w)
          + list_sum (map (fun b => (Dual.s_total b + Dual.s_retries b)%nat)
                          (Dual.summary (globals w'))))%nat.
Proof.
  intros Hinit.
  destruct (dual_batch maxRetries calls w)
    as (results & w' & evs & Hrun & _ & Hchain).
  exists results, w'. split; [exact Hrun|].
  pose proof (chain_length _ _ _ _ _ Hchain) as Hlen.
  pose proof (chain_counters _ _ _ _ _ Hchain) as Hc.
  rewrite Hinit in Hc.
  assert (Hfield : forall g1 t1,
            Dual.c_requests (Dual.counters (globals w') g1 t1)
            = List.length (Dual.outcomes_of g1 t1 calls results)
            /\ Dual.c_retries (Dual.counters (globals w') g1 t1)
               = list_sum (map Dual.retryCount_or_0
                               (Dual.outcomes_of g1 t1 calls results))).
  { intros g1 t1. rewrite Hc.
    destruct (fold_tally (Dual.outcomes_of g1 t1 calls results)
                (Dual.counters Dual.initial g1 t1)) as (H1 & _ & _ & H4).
    rewrite H1, H4. destruct g1, t1; simpl; auto. }
  pose proof (Hfield Dual.Gateway1 Dual.LLM) as [Ha1 Hb1].
  pose proof (Hfield Dual.Gateway1 Dual.Image) as [Ha2 Hb2].
  pose proof (Hfield Dual.Gateway2 Dual.LLM) as [Ha3 Hb3].
  pose proof (Hfield Dual.Gateway2 Dual.Image) as [Ha4 Hb4].
  cbn [Dual.counters] in Ha1, Ha2, Ha3, Ha4, Hb1, Hb2, Hb3, Hb4.
  pose proof (outcomes_partition_sum (fun _ => 1%nat) calls results Hlen)
    as Hones.
  rewrite !list_sum_ones in Hones.
  pose proof (outcomes_partition_sum Dual.retryCount_or_0 calls results Hlen)
    as Hretries.
  unfold Dual.summary, Dual.block.
  cbn [map list_sum fold_right Dual.s_total Dual.s_retries].
  rewrite Ha1, Ha2, Ha3, Ha4, Hb1, Hb2, Hb3, Hb4.
  split; [lia|].
  unfold promise_all in Hrun.
  apply (join_all_posts (fun r => S (Dual.retryCount_or_0 r))) in Hrun.
  2:{ apply Forall_forall. intros t Hin. apply in_map_iff in Hin.
      destruct Hin as (c & <- & _). intros wa a wb Ha.
      exact (dual_posts_of_result _ _ _ _ _ Ha). }
  rewrite Hrun.
  assert (Hsum : forall l : list Dual.RequestResult,
            list_sum (map (fun r => S (Dual.retryCount_or_0 r)) l)
            = (List.length l + list_sum (map Dual.retryCount_or_0 l))%nat).
  { induction l as [|x l IH]; simpl; [reflexivity|]. rewrite IH. lia. }
  rewrite Hsum. lia.
Qed.

Lemma dual_summary_accounts_for_posts_witness :
  Dual.initial = Dual.initial
  /\ exists results w',
       promise_all (map (Dual.run_call Dual.MAX_RETRIES) Dual.sample_calls)
                   (mkWorld 0 [] Dual.initial) = (Ret results, w')
       /\ list_sum (map Dual.s_total (Dual.summary (globals w'))) = 2%nat
       /\ posts (trace w')
          = (0 + list_sum (map (fun b => (Dual.s_total b + Dual.s_retries b)%nat)
                               (Dual.summary (globals w'))))%nat.
Proof.
  split; [reflexivity|].
  exact (dual_summary_accounts_for_posts Dual.MAX_RETRIES Dual.sample_calls
           (mkWorld 0 [] Dual.initial) eq_refl).
Defined.

Lemma fold_left_add_shift (l : list Z) (a : Z) :
  fold_left Z.add l a = a + fold_left Z.add l 0.
Proof.
  revert a. induction l as [|x l IH]; intros a; simpl; [lia|].
  rewrite (IH (a + x)), (IH x). lia.
Qed.

Lemma fold_tally_duration (outs : list Dual.RequestResult) (c : Dual.Counters) :
  Dual.c_totalDuration (fold_left (fun c r => Dual.tally r c) outs c)
  = Dual.c_totalDuration c + fold_left Z.add (map Dual.duration outs) 0.
Proof.
  revert c. induction outs as [|r outs IH]; intros c; simpl; [lia|].
  rewrite IH, (fold_left_add_shift _ (Dual.duration r)).
  unfold Dual.tally. simpl. lia.
Qed.

Lemma successful_durations (outs : list Dual.RequestResult) :
  Forall (fun r => Dual.success r = false -> Dual.duration r = 0) outs ->
  fold_left Z.add (map Dual.duration outs) 0
  = fold_left Z.add
      (map Dual.duration (filter (fun r => Dual.success r) outs)) 0.
Proof.
  induction 1 as [|r outs Hr _ IH]; [reflexivity|].
  simpl. destruct (Dual.success r) eqn:Es.
  - simpl. rewrite (fold_left_add_shift _ (Dual.duration r)), IH.
    symmetry. apply fold_left_add_shift.
  - rewrite (Hr eq_refl). exact IH.
Qed.

(** A failed invocation of the dual runner reports the duration 0. *)
Lemma dual_failure_duration (maxRetries : nat) (c : Dual.Call)
    (w0 : World Dual.Globals) (r : Dual.RequestResult)
    (w1 : World Dual.Globals) :
  Dual.run_call maxRetries c w0 = (Ret r, w1) ->
  Dual.success r = false -> Dual.duration r = 0.
Proof.
  intros Hrun Hf. unfold Dual.run_call in Hrun.
  destruct (dual_makeRequest_spec maxRetries (Dual.call_baseUrl c)
              (Dual.call_endpoint c) (Dual.call_payload c)
              (Dual.call_requestNum c) (Dual.call_type c)
              (Dual.call_gatewayId c) (Dual.call_network c) w0)
    as (r' & w' & evs & k & Hrun' & _ & _ & _ & _ & _ & _ & _ & Hd & _).
  rewrite Hrun in Hrun'. injection Hrun' as <- <-.
  rewrite Hd, Hf. reflexivity.
Qed.

(** X7. The [Avg Duration] of a block of the dual script's summary divides the
    time of the successful requests of its pair by the number of all its
    requests: a failed request adds nothing to the time and one to the
    divisor. *)
Theorem dual_average_spreads_success_time (maxRetries : nat)
    (calls : list Dual.Call) (w : World Dual.Globals) :
  globals w = Dual.initial ->
  exists results w',
    promise_all (map (Dual.run_call maxRetries) calls) w = (Ret results, w')
    /\ forall g1 t1,
         let c := Dual.counters (globals w') g1 t1 in
         let outs := Dual.outcomes_of g1 t1 calls results in
         let time :=
           fold_left Z.add
             (map Dual.duration (filter (fun r => Dual.success r) outs)) 0 in
         Dual.c_totalDuration c = time
         /\ Dual.s_avgDuration (Dual.block c)
            = if Nat.eqb (List.length outs) 0 then inject_Z 0
              else Qdiv (inject_Z time)
                        (inject_Z (Z.of_nat (List.length outs))).
Proof.
  intros Hinit.
  destruct (dual_batch maxRetries calls w)
    as (results & w' & evs & Hrun & _ & Hchain).
  exists results, w'. split; [exact Hrun|].
  pose proof (chain_counters _ _ _ _ _ Hchain) as Hc. rewrite Hinit in Hc.
  unfold promise_all in Hrun.
  apply (batch_results _
           (fun (_ : Dual.Call) r =>
              Dual.success r = false -> Dual.duration r = 0)) in Hrun.
  2:{ intros c wa a wb Ha. exact (dual_failure_duration _ _ _ _ _ Ha). }
  apply (forall2_forall _
           (fun r => Dual.success r = false -> Dual.duration r = 0)) in Hrun.
  2:{ intros c r H. exact H. }
  intros g1 t1 c outs time.
  assert (Ht : Dual.c_totalDuration c = time).
  { subst c time outs. rewrite Hc, fold_tally_duration.
    rewrite <- successful_durations
      by (apply outcomes_of_forall; exact Hrun).
    destruct g1, t1; simpl; reflexivity. }
  split; [exact Ht|].
  unfold Dual.block. cbn [Dual.s_avgDuration]. rewrite Ht.
  assert (Hn : Dual.c_requests c = List.length outs).
  { subst c outs. rewrite Hc.
    destruct (fold_tally (Dual.outcomes_of g1 t1 calls results)
                (Dual.counters Dual.initial g1 t1)) as (H1 & _).
    rewrite H1. destruct g1, t1; simpl; reflexivity. }
  rewrite Hn. reflexivity.
Qed.

Lemma dual_average_spreads_success_time_witness :
  Dual.initial = Dual.initial
  /\ exists results w',
       promise_all (map (Dual.run_call Dual.MAX_RETRIES) Dual.sample_calls)
                   (mkWorld 0 [] Dual.initial) = (Ret results, w')
       /\ forall g1 t1,
            let c := Dual.counters (globals w') g1 t1 in
            let outs := Dual.outcomes_of g1 t1 Dual.sample_calls results in
            let time :=
              fold_left Z.add
                (map Dual.duration (filter (fun r => Dual.success r) outs)) 0 in
            Dual.c_totalDuration c = time
            /\ Dual.s_avgDuration (Dual.block c)
               = if Nat.eqb (List.length outs) 0 then inject_Z 0
                 else Qdiv (inject_Z time)
                           (inject_Z (Z.of_nat (List.length outs))).
Proof.
  split; [reflexivity|].
  exact (dual_average_spreads_success_time Dual.MAX_RETRIES Dual.sample_calls
           (mkWorld 0 [] Dual.initial) eq_refl).
Defined.

(** ** What a log entry records *)

Section LogEntries.

Variable maxRetries : nat.
Variable endpoint : Endpoint.
Variable requestNum : nat.

(** The entry of an invocation of the LLM runner carries the request number,
    the retry count, the start and the end of the whole invocation and their
    difference, which is the duration of the result. *)
Lemma llm_log_entry (logFile url : string) (payload : Payload)
    (w : World unit) :
  exists r w' evs k,
    LlmRetry.makeRequest maxRetries logFile url payload requestNum endpoint w
      = (Ret r, w')
    /\ trace w' = trace w ++ evs
    /\ LlmRetry.retries r = Some k
    /\ LlmRetry.duration r = now w' - now w
    /\ ((LlmRetry.success r = true
         /\ appended evs = [LineOk requestNum k (now w) (now w')
                                   (now w' - now w) None])
        \/ (LlmRetry.success r = false
            /\ exists t e,
                 settle 300000 (endpoint k) = (t, inr e)
                 /\ appended evs = [LineFailed requestNum (Some k) (now w)
                                      (now w') (now w' - now w) (message e)])).
Proof.
  unfold LlmRetry.makeRequest, bind, date_now.
  set (I := fun (k : nat) (w1 : World unit) =>
    exists evs, trace w1 = trace w ++ evs /\ appended evs = []).
  set (Q := fun (r : LlmRetry.RequestResult) (w' : World unit) =>
    exists evs k,
      trace w' = trace w ++ evs
      /\ LlmRetry.retries r = Some k
      /\ LlmRetry.duration r = now w' - now w
      /\ ((LlmRetry.success r = true
           /\ appended evs = [LineOk requestNum k (now w) (now w')
                                     (now w' - now w) None])
          \/ (LlmRetry.success r = false
              /\ exists t e,
                   settle 300000 (endpoint k) = (t, inr e)
                   /\ appended evs = [LineFailed requestNum (Some k) (now w)
                                        (now w') (now w' - now w)
                                        (message e)]))).
  destruct (llm_loop_rule maxRetries logFile url payload requestNum endpoint
              (now w) I Q) with (n := maxRetries) (k := 0%nat) (w := w)
              (fuel := S (S maxRetries)) as (r & w' & Hrun & evs & k & HQ).
  - intros k w1 Hk (evs & Htr & Ha).
    destruct (settle 300000 (endpoint k)) as [t [r|e]] eqn:Hs.
    + rewrite (llm_attempt_answered _ _ _ _ _ _ _ k w1 t r Hs).
      eexists (evs ++ _), k.
      cbn [now trace globals LlmRetry.success LlmRetry.retries
           LlmRetry.duration].
      rewrite Htr, appended_app, Ha, <- app_assoc.
      split; [reflexivity|]. split; [reflexivity|]. split; [reflexivity|].
      left. split; reflexivity.
    + destruct (Nat.eq_dec k maxRetries) as [->|Hne].
      * rewrite (llm_attempt_final _ _ _ _ _ _ _ w1 t e Hs).
        eexists (evs ++ _), maxRetries.
        cbn [now trace globals LlmRetry.success LlmRetry.retries
             LlmRetry.duration].
        rewrite Htr, appended_app, Ha, <- app_assoc.
        split; [reflexivity|]. split; [reflexivity|]. split; [reflexivity|].
        right. split; [reflexivity|]. exists t, e. split; [exact Hs | reflexivity].
      * rewrite (llm_attempt_retry _ _ _ _ _ _ _ k w1 t e Hs Hne).
        split; [reflexivity|]. split; [lia|].
        eexists (evs ++ _). cbn [trace].
        rewrite Htr, appended_app, Ha, <- app_assoc.
        split; reflexivity.
  - lia.
  - lia.
  - exists []. rewrite app_nil_r. split; reflexivity.
  - exists r, w', evs, k. split; [exact Hrun|exact HQ].
Qed.

(** The entry of an invocation of the dual runner carries the same fields;
    for a failure the entry holds the time that the invocation took, while
    the result holds the duration 0. *)
Lemma dual_log_entry (baseUrl endpointPath : string) (payload : Payload)
    (type : Dual.CallType) (gatewayId : Dual.GatewayId)
    (w : World Dual.Globals) :
  exists r w' evs k,
    Dual.makeRequest maxRetries baseUrl endpointPath payload requestNum type
                     gatewayId endpoint w = (Ret r, w')
    /\ trace w' = trace w ++ evs
    /\ Dual.retryCount r = Some k
    /\ ((Dual.success r = true
         /\ Dual.duration r = now w' - now w
         /\ appended evs = [LineOk requestNum k (now w) (now w')
                                   (now w' - now w) (Dual.status r)])
        \/ (Dual.success r = false
            /\ Dual.duration r = 0
            /\ exists t e,
                 settle Dual.TIMEOUT_MS (endpoint k) = (t, inr e)
                 /\ appended evs = [LineFailed requestNum (Some k) (now w)
                                      (now w') (now w' - now w) (message e)])).
Proof.
  unfold Dual.makeRequest, bind, date_now.
  set (I := fun (k : nat) (w1 : World Dual.Globals) =>
    exists evs, trace w1 = trace w ++ evs /\ appended evs = []).
  set (Q := fun (r : Dual.RequestResult) (w' : World Dual.Globals) =>
    exists evs k,
      trace w' = trace w ++ evs
      /\ Dual.retryCount r = Some k
      /\ ((Dual.success r = true
           /\ Dual.duration r = now w' - now w
           /\ appended evs = [LineOk requestNum k (now w) (now w')
                                     (now w' - now w) (Dual.status r)])
          \/ (Dual.success r = false
              /\ Dual.duration r = 0
              /\ exists t e,
                   settle Dual.TIMEOUT_MS (endpoint k) = (t, inr e)
                   /\ appended evs = [LineFailed requestNum (Some k) (now w)
                                        (now w') (now w' - now w)
                                        (message e)]))).
  destruct (dual_loop_rule maxRetries baseUrl endpointPath payload requestNum
              type gatewayId endpoint (now w) I Q) with (n := maxRetries)
              (k := 0%nat) (w := w) (fuel := S (S maxRetries))
    as (r & w' & Hrun & evs & k & HQ).
  - intros k w1 Hk (evs & Htr & Ha).
    destruct (settle Dual.TIMEOUT_MS (endpoint k)) as [t [r|e]] eqn:Hs.
    + destruct (dual_attempt_answered maxRetries baseUrl endpointPath payload
                  requestNum type gatewayId endpoint (now w) k w1 t r Hs)
        as (evs1 & -> & _ & Ha1 & _).
      exists (evs ++ evs1), k.
      cbn [now trace globals Dual.success Dual.retryCount Dual.duration
           Dual.status].
      rewrite Htr, appended_app, Ha, Ha1, <- app_assoc.
      split; [reflexivity|]. split; [reflexivity|].
      left. repeat split; reflexivity.
    + destruct (Nat.eq_dec k maxRetries) as [->|Hne].
      * destruct (dual_attempt_final maxRetries baseUrl endpointPath payload
                    requestNum type gatewayId endpoint (now w) maxRetries w1
                    t e Hs (Nat.le_refl _))
          as (evs1 & -> & _ & Ha1 & _).
        exists (evs ++ evs1), maxRetries.
        cbn [now trace globals Dual.success Dual.retryCount Dual.duration
             Dual.status].
        rewrite Htr, appended_app, Ha, Ha1, <- app_assoc.
        split; [reflexivity|]. split; [reflexivity|].
        right. split; [reflexivity|]. split; [reflexivity|].
        exists t, e. split; [exact Hs | reflexivity].
      * destruct (dual_attempt_retry maxRetries baseUrl endpointPath payload
                    requestNum type gatewayId endpoint (now w) k w1 t e Hs
                    ltac:(lia))
          as (evs1 & -> & _ & Ha1 & _).
        split; [reflexivity|]. split; [lia|].
        exists (evs ++ evs1). cbn [trace].
        rewrite Htr, appended_app, Ha, Ha1, <- app_assoc.
        split; reflexivity.
  - lia.
  - lia.
  - exists []. rewrite app_nil_r. split; reflexivity.
  - exists r, w', evs, k. split; [exact Hrun|exact HQ].
Qed.

End LogEntries.

(** X8. The one log entry of an invocation, in the two scripts that take the
    start time once: it names the request and its retry count and spans the
    whole invocation, [Duration] being [End - Start].  The LLM runner returns
    that duration in both outcomes; the dual runner returns it for a success
    and returns 0 for a failure, whose entry still holds the time spent. *)
Theorem log_entry_spans_the_invocation :
  (forall maxRetries endpoint requestNum logFile url payload (w : World unit),
     exists r w' evs k line,
       LlmRetry.makeRequest maxRetries logFile url payload requestNum endpoint w
         = (Ret r, w')
       /\ trace w' = trace w ++ evs /\ appended evs = [line]
       /\ LlmRetry.retries r = Some k
       /\ LlmRetry.duration r = now w' - now w
       /\ (line = LineOk requestNum k (now w) (now w') (now w' - now w) None
           \/ exists msg,
                line = LineFailed requestNum (Some k) (now w) (now w')
                                  (now w' - now w) msg))
  /\ (forall maxRetries endpoint requestNum baseUrl endpointPath payload type
             gatewayId (w : World Dual.Globals),
     exists r w' evs k line,
       Dual.makeRequest maxRetries baseUrl endpointPath payload requestNum type
                        gatewayId endpoint w = (Ret r, w')
       /\ trace w' = trace w ++ evs /\ appended evs = [line]
       /\ Dual.retryCount r = Some k
       /\ ((Dual.duration r = now w' - now w
            /\ line = LineOk requestNum k (now w) (now w') (now w' - now w)
                             (Dual.status r))
           \/ (Dual.duration r = 0
               /\ exists msg,
                    line = LineFailed requestNum (Some k) (now w) (now w')
                                      (now w' - now w) msg))).
Proof.
  split.
  - intros maxRetries endpoint requestNum logFile url payload w.
    destruct (llm_log_entry maxRetries endpoint requestNum logFile url payload w)
      as (r & w' & evs & k & Hrun & Htr & Hr & Hd
          & [[_ Ha] | (_ & t & e & _ & Ha)]);
      eexists r, w', evs, k, _; repeat (split; [eassumption|]).
    + left. reflexivity.
    + right. eexists. reflexivity.
  - intros maxRetries endpoint requestNum baseUrl endpointPath payload type
           gatewayId w.
    destruct (dual_log_entry maxRetries endpoint requestNum baseUrl endpointPath
                payload type gatewayId w)
      as (r & w' & evs & k & Hrun & Htr & Hr
          & [(_ & Hd & Ha) | (_ & Hd & t & e & _ & Ha)]);
      eexists r, w', evs, k, _; repeat (split; [eassumption|]).
    + left. split; [assumption | reflexivity].
    + right. split; [assumption|]. eexists. reflexivity.
Qed.

(** ** Command-line flags of the dual script *)

Lemma prefix_append (p v : string) : String.prefix p (p ++ v) = true.
Proof.
  induction p as [|a p IH]; simpl; [destruct v; reflexivity|].
  destruct (ascii_dec a a) as [_|Hne]; [exact IH | contradiction].
Qed.

Lemma string_append_assoc (a b c : string) :
  ((a ++ b) ++ c = a ++ (b ++ c))%string.
Proof. induction a as [|x a IH]; simpl; [reflexivity | now rewrite IH]. Qed.

Lemma substring_all (v : string) : substring 0 (String.length v) v = v.
Proof. induction v as [|c v IH]; simpl; [reflexivity | now rewrite IH]. Qed.

Lemma substring_after_prefix (p v : string) :
  substring (String.length p) (String.length (p ++ v) - String.length p)
            (p ++ v) = v.
Proof.
  induction p as [|a p IH]; simpl.
  - rewrite Nat.sub_0_r. apply substring_all.
  - exact IH.
Qed.

Lemma find_first {A : Type} (p : A -> bool) (before : list A) (x : A)
    (rest : list A) :
  (forall a, In a before -> p a = false) -> p x = true ->
  find p (before ++ x :: rest) = Some x.
Proof.
  intros Hb Hx. induction before as [|b before IH]; simpl.
  - now rewrite Hx.
  - rewrite (Hb b (or_introl eq_refl)). apply IH.
    intros a Ha. apply Hb. now right.
Qed.

Lemma find_absent {A : Type} (p : A -> bool) (l : list A) :
  (forall a, In a l -> p a = false) -> find p l = None.
Proof.
  intros Hl. induction l as [|b l IH]; simpl; [reflexivity|].
  rewrite (Hl b (or_introl eq_refl)). apply IH.
  intros a Ha. apply Hl. now right.
Qed.

(** X9. [getArgValue] gives a flag precedence over the environment: the value of
    the first argument that starts with the flag is returned whatever the
    environment holds, also when that value is empty; without such an
    argument the environment variable is used unless it is unset or empty,
    and the default otherwise. *)
Theorem getArgValue_precedence (environ : string -> option string)
    (flag envVar defaultValue : string) :
  (forall before v rest,
     (forall a, In a before ->
        String.prefix ("--" ++ flag ++ "=") a = false) ->
     Dual.getArgValue (before ++ ("--" ++ flag ++ "=" ++ v)%string :: rest)
                      environ flag envVar defaultValue = v)
  /\ (forall args,
        (forall a, In a args ->
           String.prefix ("--" ++ flag ++ "=") a = false) ->
        Dual.getArgValue args environ flag envVar defaultValue
        = match environ envVar with
          | Some v => if String.eqb v "" then defaultValue else v
          | None => defaultValue
          end).
Proof.
  split.
  - intros before v rest Hb. unfold Dual.getArgValue.
    assert (Harg : ("--" ++ flag ++ "=" ++ v
                    = ("--" ++ flag ++ "=") ++ v)%string).
    { now rewrite !string_append_assoc. }
    rewrite Harg. cbv zeta.
    rewrite (find_first (fun a => String.prefix ("--" ++ flag ++ "=") a)
               before _ rest Hb (prefix_append _ v)).
    apply substring_after_prefix.
  - intros args Hargs. unfold Dual.getArgValue.
    cbv zeta.
    now rewrite (find_absent
                   (fun a => String.prefix ("--" ++ flag ++ "=") a)
                   args Hargs).
Qed.

Lemma getArgValue_precedence_witness :
  (forall a, In a ["--concurrency=4"%string] ->
     String.prefix "--test=" a = false)
  /\ Dual.getArgValue ["--concurrency=4"; "--test="; "--test=llm"]%string
                      (fun _ => Some "both"%string) "test" "TEST_GATEWAYS"
                      "both" = ""%string.
Proof.
  assert (H : forall a, In a ["--concurrency=4"%string] ->
                String.prefix "--test=" a = false).
  { intros a [<-|[]]. reflexivity. }
  split; [exact H|].
  exact (proj1 (getArgValue_precedence (fun _ => Some "both"%string) "test"
                  "TEST_GATEWAYS" "both")
               ["--concurrency=4"%string] ""%string ["--test=llm"%string] H).
Defined.

(** X10. A test mode other than [both], [llm] and [image] is not rejected: the
    dual script then reads no prompt, creates no log file of a pair, sends
    nothing, and still writes the summary of the untouched counters and
    ends normally. *)
Theorem unknown_test_mode_runs_nothing (env : Dual.Env)
    (w : World Dual.Globals) :
  String.eqb (Dual.GATEWAY1_URL env) "" && String.eqb (Dual.GATEWAY2_URL env) ""
    = false ->
  String.eqb (Dual.TEST_MODE env) "both" = false ->
  String.eqb (Dual.TEST_MODE env) "llm" = false ->
  String.eqb (Dual.TEST_MODE env) "image" = false ->
  exists w',
    Dual.script env w = (Ret tt, w')
    /\ globals w' = globals w
    /\ trace w'
       = trace w
         ++ [Stdout "--- Dual Stress Test for Two Gateways ---";
             FsMkdir Dual.OUTPUT_DIR; FsMkdir Dual.GW1_IMG_DIR;
             FsMkdir Dual.GW2_IMG_DIR;
             FsWriteLog Dual.SUMMARY_LOG (Dual.summary_line (globals w));
             Stdout "Summary written to";
             Stdout "=== Gateway Performance Summary ===";
             Stdout "--- Dual Stress Test Complete ---"].
Proof.
  intros Hurl Hb Hl Hi. destruct w as [n tr g].
  unfold Dual.script, Dual.main, Dual.setupDirectories, Dual.read_if,
    Dual.gateway_tasks, Dual.computeStats_calls, Dual.writeSummary.
  rewrite Hurl, Hb, Hl, Hi. cbn [orb].
  destruct (String.eqb (Dual.GATEWAY1_URL env) "");
    destruct (String.eqb (Dual.GATEWAY2_URL env) "");
    cbn [app map]; unfold promise_all; cbn [join_all]; run_m;
    (eexists; split; [reflexivity|]; cbn [globals trace];
     split; [reflexivity|]; repeat rewrite <- app_assoc; reflexivity).
Qed.

Lemma unknown_test_mode_runs_nothing_witness :
  Dual.TEST_MODE
    (Dual.mkEnv ["--test=LLM"; "--gateway1Url=http://gw1"]%string
                (fun _ => None) 10 None (fun _ _ _ _ => instant_ok))
  = "LLM"%string
  /\ exists w',
       Dual.script
         (Dual.mkEnv ["--test=LLM"; "--gateway1Url=http://gw1"]%string
                     (fun _ => None) 10 None (fun _ _ _ _ => instant_ok))
         (mkWorld 0 [] Dual.initial) = (Ret tt, w')
       /\ globals w' = Dual.initial
       /\ trace w'
          = [] ++ [Stdout "--- Dual Stress Test for Two Gateways ---";
                   FsMkdir Dual.OUTPUT_DIR; FsMkdir Dual.GW1_IMG_DIR;
                   FsMkdir Dual.GW2_IMG_DIR;
                   FsWriteLog Dual.SUMMARY_LOG
                              (Dual.summary_line Dual.initial);
                   Stdout "Summary written to";
                   Stdout "=== Gateway Performance Summary ===";
                   Stdout "--- Dual Stress Test Complete ---"].
Proof.
  split; [reflexivity|].
  exact (unknown_test_mode_runs_nothing
           (Dual.mkEnv ["--test=LLM"; "--gateway1Url=http://gw1"]%string
                       (fun _ => None) 10 None (fun _ _ _ _ => instant_ok))
           (mkWorld 0 [] Dual.initial) eq_refl eq_refl eq_refl eq_refl).
Defined.

(** ** Prompt files laid out as two lines *)

Lemma strip_prefix_across (key p : jsstring) (x : N) (rest : jsstring) :
  Forall (fun c => c <> x) key ->
  strip_prefix key p = None ->
  strip_prefix key (p ++ x :: rest) = None.
Proof.
  intros Hkey. revert p. induction Hkey as [|c key Hc _ IH]; intros p Hp.
  - destruct p; discriminate.
  - destruct p as [|d p]; simpl in *.
    + apply N.eqb_neq in Hc. now rewrite Hc.
    + destruct (c =? d)%N; [apply IH; assumption | reflexivity].
Qed.

Lemma after_first_cons_none (key : jsstring) (c : N) (s : jsstring) :
  PromptForm.after_first key (c :: s) = None ->
  strip_prefix key (c :: s) = None /\ PromptForm.after_first key s = None.
Proof.
  cbn [PromptForm.after_first].
  destruct (strip_prefix key (c :: s)); [discriminate | auto].
Qed.

(** A key that does not occur in [p] and holds no line feed is first found
    on the line after [p]. *)
Lemma after_first_next_line (key p v : jsstring) (k0 : N) (key' : jsstring) :
  key = k0 :: key' ->
  Forall (fun c => c <> 10%N) key ->
  PromptForm.after_first key p = None ->
  PromptForm.after_first key (p ++ 10%N :: key ++ v) = Some v.
Proof.
  intros Hk Hkey. induction p as [|c p IH]; intros Hp.
  - cbn [app PromptForm.after_first].
    assert (H0 : strip_prefix key (10%N :: key ++ v) = None).
    { apply (strip_prefix_across key [] 10%N (key ++ v) Hkey).
      rewrite Hk. reflexivity. }
    rewrite H0.
    destruct (key ++ v) as [|d s] eqn:E.
    + rewrite Hk in E. discriminate.
    + rewrite <- E. destruct key as [|k1 key1]; [discriminate|].
      cbn [app PromptForm.after_first].
      change (k1 :: key1 ++ v) with ((k1 :: key1) ++ v).
      now rewrite strip_prefix_app.
  - apply after_first_cons_none in Hp. destruct Hp as [Hs Hp].
    change ((c :: p) ++ 10%N :: key ++ v)
      with (c :: (p ++ 10%N :: key ++ v)).
    cbn [PromptForm.after_first].
    change (c :: (p ++ 10%N :: key ++ v))
      with ((c :: p) ++ 10%N :: key ++ v).
    rewrite (strip_prefix_across key (c :: p) 10%N (key ++ v) Hkey Hs).
    apply IH. exact Hp.
Qed.

Lemma after_first_eq_next_line (name p v : jsstring) (k0 : N)
    (name' : jsstring) :
  name = k0 :: name' ->
  Forall (fun c => c <> 10%N) name ->
  PromptForm.after_first name p = None ->
  PromptForm.after_first_eq name (p ++ 10%N :: name ++ units "=" ++ v)
  = Some v.
Proof.
  intros Hk Hname. induction p as [|c p IH]; intros Hp.
  - cbn [app PromptForm.after_first_eq].
    assert (H0 : strip_prefix name (10%N :: name ++ units "=" ++ v) = None).
    { apply (strip_prefix_across name [] 10%N _ Hname).
      rewrite Hk. reflexivity. }
    rewrite H0.
    destruct (name ++ units "=" ++ v) as [|d s] eqn:E.
    + rewrite Hk in E. discriminate.
    + rewrite <- E. destruct name as [|k1 name1]; [discriminate|].
      cbn [app PromptForm.after_first_eq].
      change (k1 :: name1 ++ units "=" ++ v)
        with ((k1 :: name1) ++ units "=" ++ v).
      rewrite strip_prefix_app. reflexivity.
  - apply after_first_cons_none in Hp. destruct Hp as [Hs Hp].
    change ((c :: p) ++ 10%N :: name ++ units "=" ++ v)
      with (c :: (p ++ 10%N :: name ++ units "=" ++ v)).
    cbn [PromptForm.after_first_eq].
    change (c :: (p ++ 10%N :: name ++ units "=" ++ v))
      with ((c :: p) ++ 10%N :: name ++ units "=" ++ v).
    rewrite (strip_prefix_across name (c :: p) 10%N _ Hname Hs).
    apply IH. exact Hp.
Qed.

Lemma until_img_key_line (p rest : jsstring) :
  Forall (fun c => c <> 10%N) p ->
  PromptForm.at_img_key (10%N :: rest) = true ->
  PromptForm.until_img_key (p ++ 10%N :: rest) = p.
Proof.
  intros Hp Hat. induction Hp as [|c p Hc _ IH].
  - cbn [app PromptForm.until_img_key]. now rewrite Hat.
  - cbn [app PromptForm.until_img_key PromptForm.at_img_key].
    assert (E : (10 =? c)%N = false) by (apply N.eqb_neq; congruence).
    rewrite E. cbn [andb]. now rewrite IH.
Qed.

Lemma until_img_key_one_line (p : jsstring) :
  Forall (fun c => c <> 10%N) p -> PromptForm.until_img_key p = p.
Proof.
  induction 1 as [|c p Hc _ IH]; [reflexivity|].
  cbn [PromptForm.until_img_key PromptForm.at_img_key].
  assert (E : (10 =? c)%N = false) by (apply N.eqb_neq; congruence).
  rewrite E. cbn [andb]. now rewrite IH.
Qed.

Lemma take_line_one_line (q : jsstring) :
  Forall (fun c => is_line_terminator c = false) q ->
  PromptForm.take_line q = q.
Proof.
  induction 1 as [|c q Hc _ IH]; [reflexivity|].
  cbn [PromptForm.take_line]. now rewrite Hc, IH.
Qed.

Lemma trimStart_idempotent (s : jsstring) : trimStart (trimStart s) = trimStart s.
Proof.
  induction s as [|c s IH]; [reflexivity|].
  simpl. destruct (is_space c) eqn:E; [exact IH|]. simpl. now rewrite E.
Qed.

Lemma trim_trimStart (s : jsstring) : trim (trimStart s) = trim s.
Proof. unfold trim. now rewrite trimStart_idempotent. Qed.

Lemma trimStart_forall (P : N -> Prop) (s : jsstring) :
  Forall P s -> Forall P (trimStart s).
Proof.
  induction 1 as [|c s Hc Hs IH]; [constructor|].
  simpl. destruct (is_space c); [exact IH | now constructor].
Qed.

Lemma trimStart_app (p r : jsstring) :
  trimStart p <> [] -> trimStart (p ++ r) = trimStart p ++ r.
Proof.
  induction p as [|c p IH]; intros Hp; [contradiction|].
  simpl in *. destruct (is_space c); [apply IH; exact Hp | reflexivity].
Qed.

Lemma after_llm_key (v : jsstring) :
  PromptForm.after_first (units "llm_prompt=") (units "llm_prompt=" ++ v)
  = Some v.
Proof.
  apply (after_first_at (units "llm_prompt=") [] v).
  intros p1 p2 H Hne. symmetry in H. apply app_eq_nil in H.
  destruct H as [_ ->]. contradiction.
Qed.

Lemma img_key_not_in_llm_key (rest : jsstring) :
  PromptForm.after_first (units "img_prompt=") (units "llm_prompt=" ++ rest)
  = PromptForm.after_first (units "img_prompt=") rest.
Proof. reflexivity. Qed.

Lemma after_llm_name (v : jsstring) :
  PromptForm.after_first_eq (units "llm_prompt") (units "llm_prompt=" ++ v)
  = Some v.
Proof. reflexivity. Qed.

Lemma img_name_not_in_llm_key (rest : jsstring) :
  PromptForm.after_first_eq (units "img_prompt") (units "llm_prompt=" ++ rest)
  = PromptForm.after_first_eq (units "img_prompt") rest.
Proof. reflexivity. Qed.

Lemma at_img_key_line (q : jsstring) :
  PromptForm.at_img_key (10%N :: units "img_prompt=" ++ q) = true.
Proof. reflexivity. Qed.

Lemma no_name_no_key (p : jsstring) :
  PromptForm.after_first (units "img_prompt") p = None ->
  PromptForm.after_first (units "img_prompt=") p = None.
Proof.
  intros H. apply after_first_none. apply after_first_none in H.
  intros (pre & post & ->). apply H.
  exists pre, (units "=" ++ post). reflexivity.
Qed.

(** X11. A prompt file of two lines, [llm_prompt=p] and then [img_prompt=q], is
    read back by the four readers: each returns its value trimmed, provided
    [p] is one line that does not contain [img_prompt]; the readers of the
    dual script need in addition that [p] is not blank and that [q] is one
    line. *)
Theorem two_line_file_is_read_back (G : Type) (p q : jsstring) (w : World G) :
  Forall (fun c => c <> 10%N) p ->
  ~ PromptForm.occurs (units "img_prompt") p ->
  let file := units "llm_prompt=" ++ p ++ 10%N :: units "img_prompt=" ++ q in
  LlmRetry.readPrompt (Some file) w = (Ret (trim p), w)
  /\ ImageScript.readPrompt (Some file) w = (Ret (trim q), w)
  /\ (trimStart p <> [] ->
      Dual.readLLMPrompt (Some file) w = (Ret (trim p), w))
  /\ (Forall (fun c => is_line_terminator c = false) q ->
      Dual.readImagePrompt (Some file) w = (Ret (trim q), w)).
Proof.
  intros Hp Hocc file. apply after_first_none in Hocc.
  assert (Hname : Forall (fun c => c <> 10%N) (units "img_prompt")).
  { repeat constructor; discriminate. }
  assert (Hkey : Forall (fun c => c <> 10%N) (units "img_prompt=")).
  { repeat constructor; discriminate. }
  repeat split.
  - unfold LlmRetry.readPrompt. run_m.
    rewrite llm_prompt_re_form. subst file. rewrite after_llm_key.
    cbn [option_map].
    now rewrite (until_img_key_line p _ Hp (at_img_key_line q)).
  - unfold ImageScript.readPrompt. run_m.
    rewrite img_prompt_re_form. subst file. rewrite img_key_not_in_llm_key.
    rewrite (after_first_next_line (units "img_prompt=") p q _ _ eq_refl Hkey
               (no_name_no_key p Hocc)).
    reflexivity.
  - intros Hblank. unfold Dual.readLLMPrompt. run_m.
    rewrite dual_llm_prompt_re_form. subst file. rewrite after_llm_name.
    cbn [option_map]. rewrite (trimStart_app p _ Hblank).
    rewrite (until_img_key_line (trimStart p) _
               (trimStart_forall _ p Hp) (at_img_key_line q)).
    now rewrite trim_trimStart.
  - intros Hq. unfold Dual.readImagePrompt. run_m.
    rewrite dual_img_prompt_re_form. subst file.
    rewrite img_name_not_in_llm_key.
    change (units "img_prompt=" ++ q)
      with (units "img_prompt" ++ units "=" ++ q).
    rewrite (after_first_eq_next_line (units "img_prompt") p q _ _ eq_refl
               Hname Hocc).
    cbn [option_map].
    rewrite (take_line_one_line _ (trimStart_forall _ q Hq)).
    now rewrite trim_trimStart.
Qed.

Lemma two_line_file_is_read_back_witness :
  Forall (fun c => c <> 10%N) (units " a dog ")
  /\ trimStart (units " a dog ") <> []
  /\ LlmRetry.readPrompt
       (Some (units "llm_prompt= a dog " ++ 10%N :: units "img_prompt=a cat "))
       (mkWorld 0 [] tt) = (Ret (units "a dog"), mkWorld 0 [] tt)
  /\ Dual.readImagePrompt
       (Some (units "llm_prompt= a dog " ++ 10%N :: units "img_prompt=a cat "))
       (mkWorld 0 [] tt) = (Ret (units "a cat"), mkWorld 0 [] tt).
Proof.
  assert (Hp : Forall (fun c => c <> 10%N) (units " a dog "))
    by (repeat constructor; discriminate).
  assert (Hq : Forall (fun c => is_line_terminator c = false) (units "a cat "))
    by (repeat constructor).
  assert (Hocc : ~ PromptForm.occurs (units "img_prompt") (units " a dog "))
    by (apply after_first_none; reflexivity).
  split; [exact Hp|]. split; [discriminate|].
  destruct (two_line_file_is_read_back unit (units " a dog ") (units "a cat ")
              (mkWorld 0 [] tt) Hp Hocc) as (H1 & _ & _ & H4).
  split; [exact H1 | exact (H4 Hq)].
Defined.

Lemma trimStart_blank (ws : jsstring) :
  Forall (fun c => is_space c = true) ws -> trimStart ws = [].
Proof. induction 1 as [|c ws Hc _ IH]; simpl; [|rewrite Hc]; auto. Qed.

(** X12. When the value of [llm_prompt] is blank, the two LLM readers differ on
    the two-line file: the reader of the LLM script returns the empty
    prompt, while the reader of the dual script, whose pattern skips white
    space after the equals sign, line feed included, returns the whole
    [img_prompt] line as the LLM prompt. *)
Theorem blank_llm_value_takes_image_line (G : Type) (ws q : jsstring)
    (w : World G) :
  Forall (fun c => is_space c = true) ws ->
  Forall (fun c => c <> 10%N) ws ->
  Forall (fun c => c <> 10%N) q ->
  let file := units "llm_prompt=" ++ ws ++ 10%N :: units "img_prompt=" ++ q in
  LlmRetry.readPrompt (Some file) w = (Ret [], w)
  /\ Dual.readLLMPrompt (Some file) w
     = (Ret (trim (units "img_prompt=" ++ q)), w).
Proof.
  intros Hws Hline Hq file. split.
  - unfold LlmRetry.readPrompt. run_m.
    rewrite llm_prompt_re_form. subst file. rewrite after_llm_key.
    cbn [option_map].
    rewrite (until_img_key_line ws _ Hline (at_img_key_line q)).
    unfold trim. rewrite (trimStart_blank ws Hws). reflexivity.
  - unfold Dual.readLLMPrompt. run_m.
    rewrite dual_llm_prompt_re_form. subst file. rewrite after_llm_name.
    cbn [option_map].
    change (ws ++ 10%N :: units "img_prompt=" ++ q)
      with (ws ++ [10%N] ++ 105%N :: units "mg_prompt=" ++ q).
    rewrite app_assoc.
    rewrite (trimStart_spaces (ws ++ [10%N]) 105%N (units "mg_prompt=" ++ q))
      by (first [ reflexivity
                | apply Forall_app; split;
                  [exact Hws | constructor; [reflexivity | constructor]] ]).
    change (105%N :: units "mg_prompt=" ++ q)
      with (units "img_prompt=" ++ q).
    rewrite until_img_key_one_line; [reflexivity|].
    apply Forall_app. split; [repeat constructor; discriminate | exact Hq].
Qed.

Lemma blank_llm_value_takes_image_line_witness :
  Forall (fun c => is_space c = true) (units "  ")
  /\ Dual.readLLMPrompt
       (Some (units "llm_prompt=  " ++ 10%N :: units "img_prompt=a cat"))
       (mkWorld 0 [] tt)
     = (Ret (units "img_prompt=a cat"), mkWorld 0 [] tt).
Proof.
  assert (Hws : Forall (fun c => is_space c = true) (units "  "))
    by (repeat constructor).
  split; [exact Hws|].
  exact (proj2 (blank_llm_value_takes_image_line unit (units "  ")
                  (units "a cat") (mkWorld 0 [] tt) Hws
                  ltac:(repeat constructor; discriminate)
                  ltac:(repeat constructor; discriminate))).
Defined.

(** ** The load that a run puts on a gateway *)









(** ** The time of a run *)





(** ** A prompt that cannot be read *)

(** X15. When the prompt file is missing or lacks the key, the scripts that read
    it send nothing: the error is caught at top level, reported on standard
    error and appended to the log with its message, and the process ends
    normally.  The dual script reads the image prompt first, in the modes
    that test images. *)
Theorem unreadable_prompt_is_logged_and_nothing_sent :
  (forall (env : LlmRetry.Env) (w : World unit),
     falsy (LlmRetry.LIVEPEER_GATEWAY_URL env) = false ->
     (forall content, LlmRetry.prompts env = Some content ->
        Regex.exec LlmRetry.llm_prompt_re content = None) ->
     exists w',
       LlmRetry.script env w = (Ret tt, w')
       /\ http_requests (trace w') = http_requests (trace w)
       /\ stderr (trace w') = stderr (trace w) ++ ["Error during stress test"]
       /\ appended (trace w')
          = appended (trace w)
            ++ [LineText "Initial prompt tokens: 1056";
                LineError
                  (match LlmRetry.prompts env with
                   | Some _ => "Could not find llm_prompt in prompts file"
                   | None => "ENOENT: no such file or directory"
                   end)])
  /\ (forall (env : ImageScript.Env) (w : World unit),
     falsy (ImageScript.LIVEPEER_GATEWAY_URL env) = false ->
     (forall content, ImageScript.prompts env = Some content ->
        Regex.exec ImageScript.img_prompt_re content = None) ->
     exists w',
       ImageScript.script env w = (Ret tt, w')
       /\ http_requests (trace w') = http_requests (trace w)
       /\ stderr (trace w') = stderr (trace w) ++ ["Error during stress test"]
       /\ appended (trace w')
          = appended (trace w)
            ++ [LineError
                  (match ImageScript.prompts env with
                   | Some _ => "Could not find img_prompt in prompts file"
                   | None => "ENOENT: no such file or directory"
                   end)])
  /\ (forall (env : Dual.Env) (w : World Dual.Globals),
     String.eqb (Dual.GATEWAY1_URL env) ""
     && String.eqb (Dual.GATEWAY2_URL env) "" = false ->
     String.eqb (Dual.TEST_MODE env) "both"
     || String.eqb (Dual.TEST_MODE env) "image" = true ->
     (forall content, Dual.prompts env = Some content ->
        Regex.exec Dual.img_prompt_re content = None) ->
     exists w',
       Dual.script env w = (Ret tt, w')
       /\ globals w' = globals w
       /\ http_requests (trace w') = http_requests (trace w)
       /\ stderr (trace w')
          = stderr (trace w) ++ ["Error during dual stress test"]
       /\ appended (trace w')
          = appended (trace w)
            ++ [LineError
                  (match Dual.prompts env with
                   | Some _ => "Could not find img_prompt in prompts file"
                   | None => "Could not find prompts file for image prompt"
                   end)]).
Proof.
  split; [|split].
  - intros env [n tr g] Hurl Hkey.
    unfold LlmRetry.script, LlmRetry.main, LlmRetry.readPrompt.
    rewrite Hurl.
    destruct (LlmRetry.prompts env) as [content|]; run_m;
      [rewrite (Hkey content eq_refl); run_m|];
      (eexists; split; [reflexivity|]; cbn [trace];
       rewrite !http_requests_app, !stderr_app, !appended_app; simpl;
       rewrite ?app_nil_r, <- ?app_assoc; repeat split; try lia; reflexivity).
  - intros env [n tr g] Hurl Hkey.
    unfold ImageScript.script, ImageScript.main, ImageScript.readPrompt.
    rewrite Hurl.
    destruct (ImageScript.prompts env) as [content|]; run_m;
      [rewrite (Hkey content eq_refl); run_m|];
      (eexists; split; [reflexivity|]; cbn [trace];
       rewrite !http_requests_app, !stderr_app, !appended_app; simpl;
       rewrite ?app_nil_r, <- ?app_assoc; repeat split; try lia; reflexivity).
  - intros env [n tr g] Hurl Hmode Hkey.
    unfold Dual.script, Dual.main, Dual.setupDirectories, Dual.read_if,
      Dual.readImagePrompt.
    pose proof Hmode as Hmode'. rewrite orb_comm in Hmode'.
    rewrite Hurl, Hmode, Hmode'.
    destruct (String.eqb (Dual.TEST_MODE env) "llm"
              || String.eqb (Dual.TEST_MODE env) "both");
      (destruct (Dual.prompts env) as [content|]; run_m;
       [rewrite (Hkey content eq_refl); run_m|]);
      (eexists; split; [reflexivity|]; cbn [trace globals];
       rewrite !http_requests_app, !stderr_app, !appended_app; simpl;
       rewrite ?app_nil_r, <- ?app_assoc; repeat split; try lia; reflexivity).
Qed.

Lemma unreadable_prompt_is_logged_and_nothing_sent_witness :
  falsy (Some "http://gw") = false
  /\ Regex.exec LlmRetry.llm_prompt_re (units "img_prompt=a cat") = None
  /\ exists w',
       LlmRetry.script
         (LlmRetry.mkEnv (Some "http://gw") 5 (Some (units "img_prompt=a cat"))
                         (fun _ _ => instant_ok))
         (mkWorld 0 [] tt) = (Ret tt, w')
       /\ http_requests (trace w') = 0%nat
       /\ stderr (trace w') = [] ++ ["Error during stress test"]
       /\ appended (trace w')
          = [] ++ [LineText "Initial prompt tokens: 1056";
                   LineError "Could not find llm_prompt in prompts file"].
Proof.
  assert (Hkey : forall content,
            Some (units "img_prompt=a cat") = Some content ->
            Regex.exec LlmRetry.llm_prompt_re content = None).
  { intros content H. injection H as <-. vm_compute. reflexivity. }
  split; [reflexivity|]. split; [exact (Hkey _ eq_refl)|].
  exact (proj1 unreadable_prompt_is_logged_and_nothing_sent
               (LlmRetry.mkEnv (Some "http://gw") 5
                               (Some (units "img_prompt=a cat"))
                               (fun _ _ => instant_ok))
               (mkWorld 0 [] tt) eq_refl Hkey).
Defined.

(** ** Which pairs a run of the dual script tests *)

(** [read_if] runs its reader only when the condition holds. *)
Lemma read_if_needed (cond : bool) (reader : M Dual.Globals jsstring)
    (p : jsstring) (w : World Dual.Globals) :
  (cond = true -> reader w = (Ret p, w)) ->
  Dual.read_if cond reader w = (Ret (if cond then Some p else None), w).
Proof.
  intros Hr. unfold Dual.read_if. destruct cond; [|reflexivity].
  unfold bind. rewrite (Hr eq_refl). reflexivity.
Qed.

Lemma count_same_pair_map (g : Dual.GatewayId) (t : Dual.CallType)
    (label : Dual.GatewayId) (testType : Dual.CallType)
    (f : nat -> Dual.Call) (xs : list nat) :
  (forall i, Dual.call_gatewayId (f i) = label
             /\ Dual.call_type (f i) = testType) ->
  List.length (filter (Dual.same_pair g t) (map f xs))
  = if Dual.same_pair g t (f 0%nat) then List.length xs else 0%nat.
Proof.
  intros Hf. unfold Dual.same_pair.
  destruct (Hf 0%nat) as [-> ->].
  induction xs as [|x xs IH]; simpl.
  - now destruct g, label, t, testType.
  - destruct (Hf x) as [-> ->].
    destruct g, label, t, testType; simpl in *; congruence.
Qed.

Lemma outcomes_of_length (g : Dual.GatewayId) (t : Dual.CallType)
    (calls : list Dual.Call) (results : list Dual.RequestResult) :
  List.length results = List.length calls ->
  List.length (Dual.outcomes_of g t calls results)
  = List.length (filter (Dual.same_pair g t) calls).
Proof.
  revert results. induction calls as [|c calls IH]; intros [|r results] Hlen;
    try discriminate; [reflexivity|].
  simpl in *. injection Hlen as Hlen.
  destruct (Dual.same_pair g t c); simpl; now rewrite IH.
Qed.

(** The tasks that [main] creates, counted by pair. *)
Lemma dual_tasks_count (env : Dual.Env) (image llm : jsstring)
    (g : Dual.GatewayId) (t : Dual.CallType) :
  let imagePrompt :=
    if String.eqb (Dual.TEST_MODE env) "both"
       || String.eqb (Dual.TEST_MODE env) "image"
    then Some image else None in
  let llmPrompt :=
    if String.eqb (Dual.TEST_MODE env) "both"
       || String.eqb (Dual.TEST_MODE env) "llm"
    then Some llm else None in
  let imagePayload :=
    match imagePrompt with
    | Some (c :: p) =>
      Some (ImagePayload "ByteDance/SDXL-Lightning" (c :: p) 512 512)
    | _ => None
    end in
  let llmPayload :=
    match llmPrompt with
    | Some (c :: p) =>
      Some (LLMPayload "meta-llama/Meta-Llama-3.1-8B-Instruct"
              [mkChat "system" (units "You are a helpful assistant");
               mkChat "user" (c :: p)]
              1000 false)
    | _ => None
    end in
  List.length
    (filter (Dual.same_pair g t)
       (Dual.gateway_tasks env (Dual.GATEWAY1_URL env) Dual.Gateway1
                           imagePayload llmPayload
        ++ Dual.gateway_tasks env (Dual.GATEWAY2_URL env) Dual.Gateway2
                              imagePayload llmPayload))
  = if Routing.tested env image llm g t
    then Z.to_nat (Dual.CONCURRENT_REQUESTS env) else 0%nat.
Proof.
  cbv zeta.
  unfold Dual.gateway_tasks, Routing.tested, Dual.addTasks, array_from.
  destruct (String.eqb (Dual.TEST_MODE env) "both"
            || String.eqb (Dual.TEST_MODE env) "image");
    destruct (String.eqb (Dual.TEST_MODE env) "both"
              || String.eqb (Dual.TEST_MODE env) "llm");
    destruct image as [|ci pi]; destruct llm as [|cl pl];
    destruct g, t; cbv beta iota;
    destruct (String.eqb (Dual.GATEWAY1_URL env) "");
    destruct (String.eqb (Dual.GATEWAY2_URL env) "");
    cbn [negb andb app filter List.length];
    rewrite ?filter_app, ?length_app;
    rewrite ?(count_same_pair_map _ _ Dual.Gateway1 Dual.Image)
      by (intros; split; reflexivity);
    rewrite ?(count_same_pair_map _ _ Dual.Gateway1 Dual.LLM)
      by (intros; split; reflexivity);
    rewrite ?(count_same_pair_map _ _ Dual.Gateway2 Dual.Image)
      by (intros; split; reflexivity);
    rewrite ?(count_same_pair_map _ _ Dual.Gateway2 Dual.LLM)
      by (intros; split; reflexivity);
    cbn [negb andb app filter List.length Dual.same_pair
         Dual.call_gatewayId Dual.call_type Nat.add];
    rewrite ?length_seq; try reflexivity; lia.
Qed.

(** * Summaries, exit status, effects and prompt values *)

(** ** Outcomes of a batch *)

Lemma answered_within_spec (maxRetries k : nat) (endpoint : Endpoint)
    (ok : bool) :
  (k <= maxRetries)%nat ->
  (forall j, (j < k)%nat -> rejected 300000 (endpoint j) = true) ->
  ok = negb (rejected 300000 (endpoint k)) ->
  (ok = false -> k = maxRetries) ->
  ok = Counts.answered_within maxRetries endpoint.
Proof.
  intros Hk Hrej Hok Hmax. unfold Counts.answered_within.
  destruct ok.
  - symmetry. apply existsb_exists. exists k. split; [|auto].
    apply in_seq. lia.
  - specialize (Hmax eq_refl). subst k.
    destruct (existsb _ _) eqn:E; [|reflexivity].
    apply existsb_exists in E. destruct E as (j & Hin & Hj).
    apply in_seq in Hin.
    destruct (Nat.eq_dec j maxRetries) as [->|Hne].
    + rewrite <- Hok in Hj. discriminate.
    + rewrite (Hrej j ltac:(lia)) in Hj. discriminate.
Qed.

(** What an invocation of the image runner returns, read off the behaviour
    of its endpoint. *)
Lemma img_result_facts (retryDelayMs : Z) (gatewayUrl : option string)
    (url : string) (payload : Payload) (requestNum : nat)
    (endpoint : Endpoint) (w0 : World unit) (r : ImageScript.RequestResult)
    (w1 : World unit) :
  ImageScript.makeRequest ImageScript.maxRetries retryDelayMs gatewayUrl url
                          payload requestNum endpoint w0 = (Ret r, w1) ->
  ImageScript.success r
  = Counts.answered_within ImageScript.maxRetries endpoint
  /\ ImageScript.retried r = rejected 300000 (endpoint 0%nat)
  /\ (ImageScript.success r = false -> ImageScript.duration r = 0).
Proof.
  intros Hrun.
  destruct (img_retried_iff_first_rejected _ _ _ _ _ _ _ _ _ Hrun) as [Hr _].
  destruct (img_makeRequest_spec ImageScript.maxRetries retryDelayMs gatewayUrl
              url payload requestNum endpoint w0)
    as (r' & w' & evs & k & Hrun' & _ & _ & _ & Hk & Hrej & Hok & Hmax & Hd
        & _).
  rewrite Hrun in Hrun'. injection Hrun' as <- <-.
  split; [|split; [exact Hr|]].
  - exact (answered_within_spec _ k _ _ Hk Hrej Hok Hmax).
  - intros Hf. rewrite Hd, Hf. reflexivity.
Qed.

(** With a gateway URL and a readable prompt the image script runs its
    batch and appends the summary of outcomes that follow the endpoints. *)
Lemma img_main_outcomes (env : ImageScript.Env) (w : World unit)
    (promptsContent group1 : jsstring) :
  falsy (ImageScript.LIVEPEER_GATEWAY_URL env) = false ->
  ImageScript.prompts env = Some promptsContent ->
  Regex.exec ImageScript.img_prompt_re promptsContent = Some group1 ->
  exists results w' tr,
    ImageScript.main env w = (Ret tt, w')
    /\ trace w' = tr ++ [FsAppend ImageScript.logFile
                           (ImageScript.summary env results);
                         Stdout "--- Final Results ---"]
    /\ Forall2 (fun i r =>
                  ImageScript.success r
                  = Counts.answered_within ImageScript.maxRetries
                      (ImageScript.network env (i + 1)%nat)
                  /\ ImageScript.retried r
                     = rejected 300000
                         (ImageScript.network env (i + 1)%nat 0%nat)
                  /\ (ImageScript.success r = false
                      -> ImageScript.duration r = 0))
               (seq 0 (Z.to_nat (ImageScript.totalRequests env))) results.
Proof.
  intros Hurl Hfile Hkey. destruct w as [n tr g].
  unfold ImageScript.main, ImageScript.readPrompt.
  rewrite Hurl, Hfile. run_m. rewrite Hkey. run_m.
  match goal with |- context [promise_all (array_from _ (fun i =>
      ImageScript.makeRequest _ _ _ ?url ?payload _ _)) ?w0] =>
    destruct (img_batch env url payload w0)
      as (results & w1 & evs & Hrun & _)
  end.
  pose proof Hrun as Hres. unfold promise_all, array_from in Hres.
  apply (batch_results _
           (fun i r =>
              ImageScript.success r
              = Counts.answered_within ImageScript.maxRetries
                  (ImageScript.network env (i + 1)%nat)
              /\ ImageScript.retried r
                 = rejected 300000 (ImageScript.network env (i + 1)%nat 0%nat)
              /\ (ImageScript.success r = false
                  -> ImageScript.duration r = 0))) in Hres.
  2:{ intros i wa a wb Ha. exact (img_result_facts _ _ _ _ _ _ _ _ _ Ha). }
  rewrite Hrun. destruct w1 as [n1 tr1 g1].
  exists results. eexists. exists tr1.
  split; [reflexivity|]. cbn [trace].
  split; [rewrite <- app_assoc; reflexivity | exact Hres].
Qed.

Lemma count_complement {A : Type} (p : A -> bool) (l : list A) :
  Z.of_nat (List.length (filter p l))
  + Z.of_nat (List.length (filter (fun x => negb (p x)) l))
  = Z.of_nat (List.length l).
Proof. pose proof (filter_partition_length p l). lia. Qed.

(** ** The counts of the summary *)

(** C3 (as amended). For every batch of an integer total from 0 up to, but
    not including, 2^32, the script completes and appends a summary whose
    [Successes] is the number of requests that were answered, whose
    [Failures] is the number of requests that were not, and in which
    [Successes + Failures] is the [Total Requests] printed beside them. *)
Theorem summary_counts_add_up :
  (forall (env : Simple.Env) (w : World unit),
     falsy (Simple.LIVEPEER_GATEWAY_URL env) = false ->
     0 <= Simple.totalRequests env ->
     Simple.totalRequests env < 4294967296 ->
     exists w' tr (successes failures : nat) average,
       Simple.main env w = (Ret tt, w')
       /\ trace w'
          = tr ++ [FsAppend Simple.logFile
                     (LineSummary
                        [("Total Requests", Simple.totalRequests env);
                         ("Successes", Z.of_nat successes);
                         ("Failures", Z.of_nat failures)]
                        [("Average Response Time", average)]);
                   Stdout "--- Final Results ---"]
       /\ successes
          = List.length
              (filter (fun i => negb (rejected 300000
                                        (Simple.network env (i + 1)%nat)))
                      (seq 0 (Z.to_nat (Simple.totalRequests env))))
       /\ failures
          = List.length
              (filter (fun i => rejected 300000
                                  (Simple.network env (i + 1)%nat))
                      (seq 0 (Z.to_nat (Simple.totalRequests env))))
       /\ Z.of_nat successes + Z.of_nat failures = Simple.totalRequests env)
  /\ (forall (env : ImageScript.Env) (w : World unit)
             (promptsContent group1 : jsstring),
     falsy (ImageScript.LIVEPEER_GATEWAY_URL env) = false ->
     ImageScript.prompts env = Some promptsContent ->
     Regex.exec ImageScript.img_prompt_re promptsContent = Some group1 ->
     0 <= ImageScript.totalRequests env ->
     ImageScript.totalRequests env < 4294967296 ->
     exists w' tr (successes failures retried retriedOk : nat) average,
       ImageScript.main env w = (Ret tt, w')
       /\ trace w'
          = tr ++ [FsAppend ImageScript.logFile
                     (LineSummary
                        [("Total Requests", ImageScript.totalRequests env);
                         ("Successes", Z.of_nat successes);
                         ("Failures", Z.of_nat failures);
                         ("Requests that needed retries", Z.of_nat retried);
                         ("Successfully retried requests",
                          Z.of_nat retriedOk)]
                        [("Average Response Time", average)]);
                   Stdout "--- Final Results ---"]
       /\ successes
          = List.length
              (filter (fun i => Counts.answered_within ImageScript.maxRetries
                                  (ImageScript.network env (i + 1)%nat))
                      (seq 0 (Z.to_nat (ImageScript.totalRequests env))))
       /\ failures
          = List.length
              (filter (fun i => negb (Counts.answered_within
                                        ImageScript.maxRetries
                                        (ImageScript.network env (i + 1)%nat)))
                      (seq 0 (Z.to_nat (ImageScript.totalRequests env))))
       /\ Z.of_nat successes + Z.of_nat failures
          = ImageScript.totalRequests env).
Proof.
  split.
  - intros env w Hurl Hn _.
    destruct (simple_main_runs env w Hurl)
      as (results & w' & tr & Hrun & Htr & Hlen & Hall).
    exists w', tr, (Simple.successCount results),
      (Simple.failureCount results), (average (map Simple.duration results)).
    split; [exact Hrun|]. split; [exact Htr|].
    assert (Hs : Simple.successCount results
                 = List.length
                     (filter (fun i => negb (rejected 300000
                                               (Simple.network env (i + 1)%nat)))
                             (seq 0 (Z.to_nat (Simple.totalRequests env))))).
    { unfold Simple.successCount. apply forall2_filter_length. exact Hall. }
    assert (Hf : Simple.failureCount results
                 = List.length
                     (filter (fun i => rejected 300000
                                         (Simple.network env (i + 1)%nat))
                             (seq 0 (Z.to_nat (Simple.totalRequests env))))).
    { unfold Simple.failureCount. apply forall2_filter_length.
      eapply Forall2_impl; [|exact Hall]. simpl. intros i r ->.
      apply negb_involutive. }
    split; [exact Hs|]. split; [exact Hf|].
    unfold Simple.successCount, Simple.failureCount.
    rewrite count_complement, Hlen. lia.
  - intros env w promptsContent group1 Hurl Hfile Hkey Hn _.
    destruct (img_main_outcomes env w promptsContent group1 Hurl Hfile Hkey)
      as (results & w' & tr & Hrun & Htr & Hall).
    exists w', tr, (ImageScript.successCount results),
      (ImageScript.failureCount results), (ImageScript.retriedCount results),
      (ImageScript.retriedSuccessCount results),
      (average (map ImageScript.duration results)).
    split; [exact Hrun|]. split; [exact Htr|].
    assert (Hlen : List.length results
                   = Z.to_nat (ImageScript.totalRequests env)).
    { rewrite <- (Forall2_length Hall), length_seq. reflexivity. }
    split; [|split].
    + unfold ImageScript.successCount. apply forall2_filter_length.
      eapply Forall2_impl; [|exact Hall]. intros i r [H _]. exact H.
    + unfold ImageScript.failureCount. apply forall2_filter_length.
      eapply Forall2_impl; [|exact Hall]. simpl. intros i r [-> _].
      reflexivity.
    + unfold ImageScript.successCount, ImageScript.failureCount.
      rewrite count_complement, Hlen. lia.
Qed.

(** C3 at a concrete input: two requests, the second of which is rejected. *)
Lemma summary_counts_add_up_witness :
  falsy (Some "http://gw") = false
  /\ 0 <= 2 < 4294967296
  /\ exists w' tr average,
       Simple.main
         (Simple.mkEnv (Some "http://gw") 2
            (fun i => if Nat.eqb i 1 then instant_ok else instant_error))
         (mkWorld 0 [] tt) = (Ret tt, w')
       /\ trace w'
          = tr ++ [FsAppend Simple.logFile
                     (LineSummary
                        [("Total Requests", 2); ("Successes", 1);
                         ("Failures", 1)]
                        [("Average Response Time", average)]);
                   Stdout "--- Final Results ---"].
Proof.
  split; [reflexivity|]. split; [lia|].
  destruct (proj1 summary_counts_add_up
              (Simple.mkEnv (Some "http://gw") 2
                 (fun i => if Nat.eqb i 1 then instant_ok else instant_error))
              (mkWorld 0 [] tt) eq_refl ltac:(simpl; lia) ltac:(simpl; lia))
    as (w' & tr & successes & failures & average & Hrun & Htr & Hs & Hf & _).
  exists w', tr, average. split; [exact Hrun|].
  rewrite Htr, Hs, Hf. reflexivity.
Defined.

(** C3 as stated fails for a negative total, which the scripts accept:
    with [TOTAL_REQUESTS=-3] nothing is launched, and the summary shows the
    total -3 beside no success and no failure. *)
Lemma negative_total_breaks_the_sum :
  exists w' tr,
    Simple.main (Simple.mkEnv (Some "http://gw") (-3) (fun _ => instant_ok))
                (mkWorld 0 [] tt) = (Ret tt, w')
    /\ trace w'
       = tr ++ [FsAppend Simple.logFile
                  (LineSummary
                     [("Total Requests", -3); ("Successes", 0);
                      ("Failures", 0)]
                     [("Average Response Time", None)]);
                Stdout "--- Final Results ---"]
    /\ 0 + 0 <> -3.
Proof.
  eexists.
  exists [FsWriteLog Simple.logFile
            (LineText "--- New Image Generation Stress Test Run ---");
          Stdout "Request configuration"; Stdout "Starting stress test"].
  split; [vm_compute; reflexivity|].
  split; [reflexivity | discriminate].
Qed.

(** ** A batch in which every request fails *)

Lemma answered_within_down (maxRetries : nat) (endpoint : Endpoint) :
  (forall k, rejected 300000 (endpoint k) = true) ->
  Counts.answered_within maxRetries endpoint = false.
Proof.
  intros Hdown. unfold Counts.answered_within.
  induction (seq 0 (S maxRetries)) as [|k l IH]; simpl; [reflexivity|].
  rewrite Hdown, IH. reflexivity.
Qed.

Lemma map_constant {A B : Type} (f : A -> B) (b : B) (l : list A) :
  Forall (fun x => f x = b) l -> map f l = repeat b (List.length l).
Proof. induction 1 as [|x l Hx _ IH]; simpl; congruence. Qed.

Lemma sum_of_zeros (n : nat) : fold_left Z.add (repeat 0 n) 0 = 0.
Proof. induction n as [|n IH]; simpl; auto. Qed.

Lemma average_of_zeros (n : nat) :
  average (repeat 0 n)
  = if Nat.eqb n 0 then None
    else Some (Qdiv (inject_Z 0) (inject_Z (Z.of_nat n))).
Proof.
  destruct n as [|n]; [reflexivity|].
  unfold average. cbn [repeat Nat.eqb].
  change (0 :: repeat 0 n) with (repeat 0 (S n)).
  rewrite sum_of_zeros, repeat_length. reflexivity.
Qed.

(** What an invocation of the dual runner returns when every attempt is
    rejected. *)
Lemma dual_result_down (maxRetries : nat) (c : Dual.Call)
    (w0 : World Dual.Globals) (r : Dual.RequestResult)
    (w1 : World Dual.Globals) :
  Dual.run_call maxRetries c w0 = (Ret r, w1) ->
  (forall k, rejected 300000 (Dual.call_network c k) = true) ->
  Dual.success r = false /\ Dual.retryCount_or_0 r = maxRetries
  /\ Dual.duration r = 0.
Proof.
  intros Hrun Hdown. unfold Dual.run_call in Hrun.
  destruct (dual_makeRequest_spec maxRetries (Dual.call_baseUrl c)
              (Dual.call_endpoint c) (Dual.call_payload c)
              (Dual.call_requestNum c) (Dual.call_type c)
              (Dual.call_gatewayId c) (Dual.call_network c) w0)
    as (r' & w' & evs & k & Hrun' & _ & _ & Hr & _ & _ & Hok & Hmax & Hd & _).
  rewrite Hrun in Hrun'. injection Hrun' as <- <-.
  change Dual.TIMEOUT_MS with 300000 in Hok. rewrite Hdown in Hok.
  simpl in Hok. rewrite Hok in Hd. specialize (Hmax Hok). subst k.
  unfold Dual.retryCount_or_0. rewrite Hr. auto.
Qed.

Lemma fold_tally_down (m : nat) (outs : list Dual.RequestResult)
    (c : Dual.Counters) :
  Forall (fun r => Dual.success r = false /\ Dual.retryCount_or_0 r = m
                   /\ Dual.duration r = 0) outs ->
  fold_left (fun c r => Dual.tally r c) outs c
  = Dual.mkCounters (Dual.c_success c)
      (Dual.c_failure c + List.length outs)
      (Dual.c_retries c + m * List.length outs)
      (Dual.c_totalDuration c)
      (Dual.c_requests c + List.length outs).
Proof.
  intros Hall. revert c.
  induction Hall as [|r outs (Hs & Hr & Hd) _ IH]; intros c.
  - simpl. destruct c. simpl. f_equal; lia.
  - cbn [fold_left]. rewrite IH. unfold Dual.tally.
    rewrite Hs, Hr, Hd. cbn [Dual.c_success Dual.c_failure Dual.c_retries
                             Dual.c_totalDuration Dual.c_requests List.length].
    f_equal; lia.
Qed.

(** With a gateway URL and readable prompts, [main] of the dual script runs
    the batch of the pairs that the configuration selects and writes the
    summary of the statistics. *)
Lemma dual_main_readable (env : Dual.Env) (w : World Dual.Globals)
    (content image1 llm1 : jsstring) :
  String.eqb (Dual.GATEWAY1_URL env) "" && String.eqb (Dual.GATEWAY2_URL env) ""
    = false ->
  Dual.prompts env = Some content ->
  (String.eqb (Dual.TEST_MODE env) "both"
   || String.eqb (Dual.TEST_MODE env) "image" = true ->
   Regex.exec Dual.img_prompt_re content = Some image1) ->
  (String.eqb (Dual.TEST_MODE env) "both"
   || String.eqb (Dual.TEST_MODE env) "llm" = true ->
   Regex.exec Dual.llm_prompt_re content = Some llm1) ->
  exists calls results w1 n2 tr2 g2 tr,
    promise_all (map (Dual.run_call Dual.MAX_RETRIES) calls) w1
      = (Ret results, mkWorld n2 tr2 g2)
    /\ globals w1 = globals w
    /\ Dual.main env w
       = (Ret tt,
          mkWorld n2
            (tr ++ [FsWriteLog Dual.SUMMARY_LOG (Dual.summary_line g2);
                    Stdout "Summary written to";
                    Stdout "=== Gateway Performance Summary ===";
                    Stdout "--- Dual Stress Test Complete ---"])
            g2)
    /\ (forall g t,
          List.length (filter (Dual.same_pair g t) calls)
          = if Routing.tested env (trim image1) (trim llm1) g t
            then Z.to_nat (Dual.CONCURRENT_REQUESTS env) else 0%nat)
    /\ (forall c, In c calls ->
          exists gid type n,
            Dual.call_network c = Dual.network env gid type n).
Proof.
  intros Hurl Hfile Hi Hl. destruct w as [n tr g0].
  unfold Dual.main. rewrite Hurl, Hfile. run_m.
  match goal with |- context [Dual.setupDirectories ?m ?w0] =>
    destruct (setupDirectories_spec m w0) as (evs1 & -> & _) end.
  cbv beta iota zeta delta [now trace globals].
  match goal with |- context [Dual.read_if ?c _ ?w1] =>
    rewrite (read_if_needed c _ (trim image1) w1)
      by (intros Hc; unfold Dual.readImagePrompt; run_m;
          rewrite (Hi Hc); reflexivity)
  end.
  match goal with |- context [Dual.read_if ?c _ ?w1] =>
    rewrite (read_if_needed c _ (trim llm1) w1)
      by (intros Hc; unfold Dual.readLLMPrompt; run_m;
          rewrite (Hl Hc); reflexivity)
  end.
  match goal with |- context [promise_all (map _ ?calls) ?w1] =>
    destruct (dual_batch Dual.MAX_RETRIES calls w1)
      as (results & w2 & evs2 & Hrun & _);
    pose proof (dual_tasks_count env (trim image1) (trim llm1)) as Hcount;
    exists calls, results, w1
  end.
  rewrite Hrun. destruct w2 as [n2 tr2 g2].
  destruct (computeStats_calls_spec env (Dual.GATEWAY1_URL env)
              (mkWorld n2 tr2 g2)) as (evs3 & ->).
  match goal with |- context [Dual.computeStats_calls env _ ?w0] =>
    destruct (computeStats_calls_spec env (Dual.GATEWAY2_URL env) w0)
      as (evs4 & ->) end.
  unfold Dual.writeSummary. run_m.
  exists n2, tr2, g2, ((tr2 ++ evs3) ++ evs4).
  split; [reflexivity|]. split; [reflexivity|].
  split; [f_equal; f_equal; repeat rewrite <- app_assoc; reflexivity|].
  split; [exact Hcount|].
  intros c Hin. apply in_app_or in Hin.
  destruct Hin as [Hin|Hin]; eapply gateway_tasks_network; eassumption.
Qed.

Lemma forall2_forall_in {A B : Type} (R : A -> B -> Prop) (Q : A -> Prop)
    (P : B -> Prop) (xs : list A) (ys : list B) :
  (forall x y, R x y -> Q x -> P y) ->
  (forall x, In x xs -> Q x) ->
  Forall2 R xs ys -> Forall P ys.
Proof.
  intros HP HQ H. induction H as [|x y xs ys Hxy _ IH]; constructor.
  - apply (HP x y Hxy). apply HQ. now left.
  - apply IH. intros x' Hin. apply HQ. now right.
Qed.

(** The counters after a batch, from fresh counters, in which every attempt
    of every invocation is rejected. *)
Lemma dual_batch_down_counters (maxRetries : nat) (calls : list Dual.Call)
    (w : World Dual.Globals) (results : list Dual.RequestResult)
    (w' : World Dual.Globals) :
  globals w = Dual.initial ->
  (forall c, In c calls ->
     forall k, rejected 300000 (Dual.call_network c k) = true) ->
  promise_all (map (Dual.run_call maxRetries) calls) w = (Ret results, w') ->
  forall g t,
    Dual.counters (globals w') g t
    = let n := List.length (filter (Dual.same_pair g t) calls) in
      Dual.mkCounters 0 n (maxRetries * n) 0 n.
Proof.
  intros Hinit Hdown Hrun g t.
  destruct (dual_batch maxRetries calls w)
    as (results0 & w0 & evs & Hrun0 & _ & Hchain).
  rewrite Hrun in Hrun0. injection Hrun0 as <- <-.
  pose proof (chain_length _ _ _ _ _ Hchain) as Hlen.
  rewrite (chain_counters _ _ _ _ _ Hchain g t), Hinit.
  unfold promise_all in Hrun.
  apply (batch_results _
           (fun c r =>
              (forall k, rejected 300000 (Dual.call_network c k) = true) ->
              Dual.success r = false /\ Dual.retryCount_or_0 r = maxRetries
              /\ Dual.duration r = 0)) in Hrun.
  2:{ intros c wa a wb Ha. exact (dual_result_down _ _ _ _ _ Ha). }
  apply (forall2_forall_in _
           (fun c => forall k, rejected 300000 (Dual.call_network c k) = true)
           (fun r => Dual.success r = false
                     /\ Dual.retryCount_or_0 r = maxRetries
                     /\ Dual.duration r = 0)) in Hrun;
    [|intros c r H; exact H | exact Hdown].
  rewrite (fold_tally_down maxRetries)
    by (apply outcomes_of_forall; exact Hrun).
  rewrite (outcomes_of_length _ _ _ _ Hlen).
  destruct g, t; reflexivity.
Qed.

(** C4. Every error of a request (network failure, non-2xx status, timeout)
    is captured inside the runner and recorded in the outcome it returns: for
    every behaviour of the endpoint the runner returns and never throws, and
    its outcome is a failure exactly when its last attempt was rejected.  So
    the join of a batch always returns one outcome per invocation, and a
    batch in which every request fails still completes normally and writes
    a summary in which no success is counted: every request of the batch is
    under [Failures], none under [Successes].  (The total is an integer
    below 2^32; in the dual script, whose array of tasks holds up to four
    times [CONCURRENT_REQUESTS], that number is below 2^30.) *)
Theorem request_errors_never_escape :
  (forall url payload requestNum a (w : World unit),
     exists res w',
       Simple.makeRequest url payload requestNum a w = (Ret res, w')
       /\ Simple.success res = negb (rejected 300000 a))
  /\ (forall maxRetries logFile url payload requestNum endpoint
             (w : World unit),
     exists res w' k,
       LlmRetry.makeRequest maxRetries logFile url payload requestNum endpoint w
         = (Ret res, w')
       /\ LlmRetry.retries res = Some k
       /\ LlmRetry.success res = negb (rejected 300000 (endpoint k)))
  /\ (forall maxRetries retryDelayMs gatewayUrl url payload requestNum endpoint
             (w : World unit),
     exists res w' k,
       ImageScript.makeRequest maxRetries retryDelayMs gatewayUrl url payload
                               requestNum endpoint w = (Ret res, w')
       /\ ImageScript.retryCount res = Some (Z.of_nat k)
       /\ ImageScript.success res = negb (rejected 300000 (endpoint k)))
  /\ (forall maxRetries baseUrl endpointPath payload requestNum type gatewayId
             endpoint (w : World Dual.Globals),
     exists res w' k,
       Dual.makeRequest maxRetries baseUrl endpointPath payload requestNum
                        type gatewayId endpoint w = (Ret res, w')
       /\ Dual.retryCount res = Some k
       /\ Dual.success res = negb (rejected 300000 (endpoint k)))
  /\ (forall maxRetries (calls : list Dual.Call) (w : World Dual.Globals),
     exists results w',
       promise_all (map (Dual.run_call maxRetries) calls) w = (Ret results, w')
       /\ List.length results = List.length calls)
  /\ (forall (env : ImageScript.Env) (w : World unit)
             (promptsContent group1 : jsstring),
     falsy (ImageScript.LIVEPEER_GATEWAY_URL env) = false ->
     ImageScript.prompts env = Some promptsContent ->
     Regex.exec ImageScript.img_prompt_re promptsContent = Some group1 ->
     ImageScript.totalRequests env < 4294967296 ->
     (forall n k, rejected 300000 (ImageScript.network env n k) = true) ->
     let n := Z.to_nat (ImageScript.totalRequests env) in
     exists w' tr,
       ImageScript.script env w = (Ret tt, w')
       /\ trace w'
          = tr ++ [FsAppend ImageScript.logFile
                     (LineSummary
                        [("Total Requests", ImageScript.totalRequests env);
                         ("Successes", 0);
                         ("Failures", Z.of_nat n);
                         ("Requests that needed retries", Z.of_nat n);
                         ("Successfully retried requests", 0)]
                        [("Average Response Time",
                          if Nat.eqb n 0 then None
                          else Some (Qdiv (inject_Z 0)
                                          (inject_Z (Z.of_nat n))))]);
                   Stdout "--- Final Results ---"])
  /\ (forall (env : Dual.Env) (w : World Dual.Globals)
             (promptsContent image1 llm1 : jsstring),
     globals w = Dual.initial ->
     String.eqb (Dual.GATEWAY1_URL env) ""
     && String.eqb (Dual.GATEWAY2_URL env) "" = false ->
     Dual.prompts env = Some promptsContent ->
     (String.eqb (Dual.TEST_MODE env) "both"
      || String.eqb (Dual.TEST_MODE env) "image" = true ->
      Regex.exec Dual.img_prompt_re promptsContent = Some image1) ->
     (String.eqb (Dual.TEST_MODE env) "both"
      || String.eqb (Dual.TEST_MODE env) "llm" = true ->
      Regex.exec Dual.llm_prompt_re promptsContent = Some llm1) ->
     Dual.CONCURRENT_REQUESTS env < 1073741824 ->
     (forall gid type n k,
        rejected 300000 (Dual.network env gid type n k) = true) ->
     let total g t :=
       if Routing.tested env (trim image1) (trim llm1) g t
       then Z.to_nat (Dual.CONCURRENT_REQUESTS env) else 0%nat in
     let counts n :=
       [("Total", Z.of_nat n); ("Success", 0); ("Failures", Z.of_nat n);
        ("Retries", Z.of_nat (3 * n))] in
     let average n :=
       ("Avg Duration",
        Some (if Nat.eqb n 0 then inject_Z 0
              else Qdiv (inject_Z 0) (inject_Z (Z.of_nat n)))) in
     exists w' tr,
       Dual.script env w = (Ret tt, w')
       /\ trace w'
          = tr ++ [FsWriteLog Dual.SUMMARY_LOG
                     (LineSummary
                        (counts (total Dual.Gateway1 Dual.LLM)
                         ++ counts (total Dual.Gateway1 Dual.Image)
                         ++ counts (total Dual.Gateway2 Dual.LLM)
                         ++ counts (total Dual.Gateway2 Dual.Image))
                        [average (total Dual.Gateway1 Dual.LLM);
                         average (total Dual.Gateway1 Dual.Image);
                         average (total Dual.Gateway2 Dual.LLM);
                         average (total Dual.Gateway2 Dual.Image)]);
                   Stdout "Summary written to";
                   Stdout "=== Gateway Performance Summary ===";
                   Stdout "--- Dual Stress Test Complete ---"]).
Proof.
  repeat apply conj.
  - intros url payload requestNum a w.
    destruct (simple_makeRequest_spec url payload requestNum a w)
      as (res & w' & evs & Hrun & _ & _ & Hok & _).
    exists res, w'. auto.
  - intros maxRetries logFile url payload requestNum endpoint w.
    destruct (llm_makeRequest_spec maxRetries logFile url payload requestNum
                endpoint w)
      as (res & w' & evs & k & Hrun & _ & _ & Hr & _ & _ & Hok & _).
    exists res, w', k. auto.
  - intros maxRetries retryDelayMs gatewayUrl url payload requestNum endpoint w.
    destruct (img_makeRequest_spec maxRetries retryDelayMs gatewayUrl url
                payload requestNum endpoint w)
      as (res & w' & evs & k & Hrun & _ & _ & Hr & _ & _ & Hok & _).
    exists res, w', k. auto.
  - intros maxRetries baseUrl endpointPath payload requestNum type gatewayId
           endpoint w.
    destruct (dual_makeRequest_spec maxRetries baseUrl endpointPath payload
                requestNum type gatewayId endpoint w)
      as (res & w' & evs & k & Hrun & _ & _ & Hr & _ & _ & Hok & _).
    exists res, w', k. auto.
  - intros maxRetries calls w.
    destruct (dual_batch maxRetries calls w)
      as (results & w' & evs & Hrun & _ & Hchain).
    exists results, w'. split; [assumption|].
    apply (chain_length _ _ _ _ _ Hchain).
  - intros env w promptsContent group1 Hurl Hfile Hkey _ Hdown n.
    destruct (img_main_outcomes env w promptsContent group1 Hurl Hfile Hkey)
      as (results & w' & tr & Hrun & Htr & Hall).
    exists w', tr.
    unfold ImageScript.script, try_catch. rewrite Hrun.
    split; [reflexivity|]. rewrite Htr. do 3 f_equal.
    assert (Hlen : List.length results = n).
    { rewrite <- (Forall2_length Hall), length_seq. reflexivity. }
    assert (Hfail : Forall (fun r => ImageScript.success r = false) results).
    { eapply forall2_forall; [|exact Hall].
      intros i r (Hok & _). rewrite Hok. apply answered_within_down.
      intros k. apply Hdown. }
    assert (Hretried : Forall (fun r => ImageScript.retried r = true) results).
    { eapply forall2_forall; [|exact Hall].
      intros i r (_ & Hr & _). rewrite Hr. apply Hdown. }
    assert (Hzero : Forall (fun r => ImageScript.duration r = 0) results).
    { eapply forall2_forall; [|exact Hall].
      intros i r (Hok & _ & Hd). apply Hd. rewrite Hok.
      apply answered_within_down. intros k. apply Hdown. }
    unfold ImageScript.summary, ImageScript.successCount,
      ImageScript.failureCount, ImageScript.retriedCount,
      ImageScript.retriedSuccessCount.
    rewrite (filter_none (fun r => ImageScript.success r) _ Hfail).
    rewrite (filter_all (fun r => negb (ImageScript.success r)))
      by (eapply Forall_impl; [|exact Hfail]; simpl; intros r ->;
          reflexivity).
    rewrite (filter_all ImageScript.retried _ Hretried).
    rewrite (filter_none (fun r => ImageScript.success r
                                   && ImageScript.retried r))
      by (eapply Forall_impl; [|exact Hfail]; simpl; intros r ->;
          reflexivity).
    rewrite (map_constant ImageScript.duration 0 results Hzero).
    rewrite Hlen, average_of_zeros. reflexivity.
  - intros env w promptsContent image1 llm1 Hinit Hurl Hfile Himg Hllm _
           Hdown total counts average.
    destruct (dual_main_readable env w promptsContent image1 llm1 Hurl Hfile
                Himg Hllm)
      as (calls & results & w1 & n2 & tr2 & g2 & tr & Hrun & Hg & Hm & Hcount
          & Hnet).
    eexists. exists tr. unfold Dual.script, try_catch. rewrite Hm.
    split; [reflexivity|]. cbn [trace]. do 3 f_equal.
    pose proof (dual_batch_down_counters Dual.MAX_RETRIES calls w1 results
                  (mkWorld n2 tr2 g2) ltac:(congruence)) as Hc.
    cbn [globals] in Hc.
    assert (Hdown' : forall c, In c calls ->
              forall k, rejected 300000 (Dual.call_network c k) = true).
    { intros c Hin k. destruct (Hnet c Hin) as (gid & type & n & ->).
      apply Hdown. }
    specialize (Hc Hdown' Hrun).
    unfold Dual.summary_line, Dual.summary, Dual.block.
    change (Dual.llm (Dual.gateway1Stats g2))
      with (Dual.counters g2 Dual.Gateway1 Dual.LLM).
    change (Dual.image (Dual.gateway1Stats g2))
      with (Dual.counters g2 Dual.Gateway1 Dual.Image).
    change (Dual.llm (Dual.gateway2Stats g2))
      with (Dual.counters g2 Dual.Gateway2 Dual.LLM).
    change (Dual.image (Dual.gateway2Stats g2))
      with (Dual.counters g2 Dual.Gateway2 Dual.Image).
    rewrite !Hc, !Hcount. reflexivity.
Qed.

(** C4 at a concrete input: the image script with three requests against a
    gateway that is always down. *)
Lemma request_errors_never_escape_witness :
  falsy (ImageScript.LIVEPEER_GATEWAY_URL ImageScript.sample_env) = false
  /\ Regex.exec ImageScript.img_prompt_re (units "img_prompt=a cat")
     = Some (units "a cat")
  /\ ImageScript.totalRequests ImageScript.sample_env < 4294967296
  /\ (forall n k,
        rejected 300000 (ImageScript.network ImageScript.sample_env n k) = true)
  /\ exists w' tr,
       ImageScript.script ImageScript.sample_env (mkWorld 0 [] tt) = (Ret tt, w')
       /\ trace w'
          = tr ++ [FsAppend ImageScript.logFile
                     (LineSummary
                        [("Total Requests", 3); ("Successes", 0);
                         ("Failures", 3);
                         ("Requests that needed retries", 3);
                         ("Successfully retried requests", 0)]
                        [("Average Response Time",
                          Some (Qdiv (inject_Z 0) (inject_Z 3)))]);
                   Stdout "--- Final Results ---"].
Proof.
  split; [reflexivity|]. split; [vm_compute; reflexivity|].
  split; [reflexivity|]. split; [intros n k; reflexivity|].
  exact (proj1 (proj2 (proj2 (proj2 (proj2 (proj2
                 request_errors_never_escape)))))
               ImageScript.sample_env (mkWorld 0 [] tt)
               (units "img_prompt=a cat") (units "a cat")
               eq_refl eq_refl ltac:(vm_compute; reflexivity) eq_refl
               (fun n k => eq_refl)).
Defined.

(** ** Retries of a batch *)

Lemma retries_until_spec (endpoint : Endpoint) (k fuel k0 : nat) :
  (k0 <= k)%nat -> (k <= k0 + fuel)%nat ->
  (forall j, (k0 <= j < k)%nat -> rejected 300000 (endpoint j) = true) ->
  (rejected 300000 (endpoint k) = true -> k = (k0 + fuel)%nat) ->
  Counts.retries_until fuel k0 endpoint = k.
Proof.
  revert k0. induction fuel as [|fuel IH]; intros k0 H0 Hk Hrej Hlast.
  - simpl. lia.
  - simpl. destruct (Nat.eq_dec k0 k) as [->|Hne].
    + destruct (rejected 300000 (endpoint k)) eqn:E; [|reflexivity].
      specialize (Hlast eq_refl). lia.
    + rewrite (Hrej k0 ltac:(lia)). apply IH; try lia.
      * intros j Hj. apply Hrej. lia.
      * intros H. specialize (Hlast H). lia.
Qed.

(** What an invocation of the LLM runner returns, read off the behaviour of
    its endpoint. *)
Lemma llm_result_facts (maxRetries : nat) (logFile url : string)
    (payload : Payload) (requestNum : nat) (endpoint : Endpoint)
    (w0 : World unit) (r : LlmRetry.RequestResult) (w1 : World unit) :
  LlmRetry.makeRequest maxRetries logFile url payload requestNum endpoint w0
    = (Ret r, w1) ->
  LlmRetry.success r = Counts.answered_within maxRetries endpoint
  /\ LlmRetry.retries r = Some (Counts.retries_of maxRetries endpoint).
Proof.
  intros Hrun.
  destruct (llm_makeRequest_spec maxRetries logFile url payload requestNum
              endpoint w0)
    as (r' & w' & evs & k & Hrun' & _ & _ & Hr & Hk & Hrej & Hok & Hmax & _).
  rewrite Hrun in Hrun'. injection Hrun' as <- <-.
  split.
  - exact (answered_within_spec _ k _ _ Hk Hrej Hok Hmax).
  - rewrite Hr. f_equal. symmetry. unfold Counts.retries_of.
    apply retries_until_spec; try lia.
    + intros j Hj. apply Hrej. lia.
    + intros H. simpl. apply Hmax. rewrite Hok, H. reflexivity.
Qed.

Lemma forall2_list_sum {A B : Type} (f : A -> nat) (g : B -> nat)
    (xs : list A) (ys : list B) :
  Forall2 (fun x y => g y = f x) xs ys ->
  list_sum (map g ys) = list_sum (map f xs).
Proof.
  induction 1 as [|x y xs ys Hxy _ IH]; [reflexivity|].
  simpl. rewrite Hxy, IH. reflexivity.
Qed.

Lemma list_sum_succ {A : Type} (f : A -> nat) (l : list A) :
  list_sum (map (fun x => S (f x)) l)
  = (List.length l + list_sum (map f l))%nat.
Proof. induction l as [|x l IH]; simpl; [reflexivity|]. rewrite IH. lia. Qed.

(** With a gateway URL and a readable prompt the LLM script runs its batch
    and appends the summary of outcomes that follow the endpoints; it sends
    one POST for each request and one for each retry. *)
Lemma llm_main_outcomes (env : LlmRetry.Env) (w : World unit)
    (promptsContent group1 : jsstring) :
  falsy (LlmRetry.LIVEPEER_GATEWAY_URL env) = false ->
  LlmRetry.prompts env = Some promptsContent ->
  Regex.exec LlmRetry.llm_prompt_re promptsContent = Some group1 ->
  exists results w' tr,
    LlmRetry.main env w = (Ret tt, w')
    /\ trace w' = tr ++ [FsAppend LlmRetry.logFile
                           (LlmRetry.summary env results);
                         Stdout "--- Final Results ---"]
    /\ Forall2 (fun i r =>
                  LlmRetry.success r
                  = Counts.answered_within LlmRetry.MAX_RETRIES
                      (LlmRetry.network env (i + 1)%nat)
                  /\ LlmRetry.retries r
                     = Some (Counts.retries_of LlmRetry.MAX_RETRIES
                               (LlmRetry.network env (i + 1)%nat)))
               (seq 0 (Z.to_nat (LlmRetry.totalRequests env))) results
    /\ posts (trace w')
       = (posts (trace w) + List.length results
          + LlmRetry.totalRetries results)%nat.
Proof.
  intros Hurl Hfile Hkey. destruct w as [n tr g].
  unfold LlmRetry.main, LlmRetry.readPrompt. rewrite Hurl, Hfile.
  run_m. rewrite Hkey. run_m.
  match goal with |- context [promise_all (array_from _ (fun i =>
      LlmRetry.makeRequest _ _ ?url ?payload _ _)) ?w0] =>
    destruct (llm_batch env url payload w0)
      as (results & w1 & evs & Hrun & Htr & Hlen)
  end.
  pose proof Hrun as Hposts. unfold promise_all in Hposts.
  apply (join_all_posts
           (fun r => S (match LlmRetry.retries r with
                        | Some k => k | None => 0%nat end))) in Hposts.
  2:{ unfold array_from. apply Forall_forall. intros t Hin.
      apply in_map_iff in Hin. destruct Hin as (i & <- & _).
      intros wa a wb Ha. exact (llm_posts_of_result _ _ _ _ _ _ _ _ _ Ha). }
  pose proof Hrun as Hres. unfold promise_all, array_from in Hres.
  apply (batch_results _
           (fun i r =>
              LlmRetry.success r
              = Counts.answered_within LlmRetry.MAX_RETRIES
                  (LlmRetry.network env (i + 1)%nat)
              /\ LlmRetry.retries r
                 = Some (Counts.retries_of LlmRetry.MAX_RETRIES
                           (LlmRetry.network env (i + 1)%nat)))) in Hres.
  2:{ intros i wa a wb Ha. exact (llm_result_facts _ _ _ _ _ _ _ _ _ Ha). }
  rewrite Hrun. destruct w1 as [n1 tr1 g1].
  exists results. eexists. exists tr1.
  split; [reflexivity|]. cbn [trace] in *.
  split; [rewrite <- app_assoc; reflexivity|]. split; [exact Hres|].
  rewrite !posts_app, Hposts, !posts_app. simpl.
  unfold LlmRetry.totalRetries. rewrite fold_left_add_sum, list_sum_succ. lia.
Qed.

(** The summary of the LLM script, in terms of the endpoints. *)
Lemma llm_summary_of_outcomes (env : LlmRetry.Env)
    (results : list LlmRetry.RequestResult) :
  Forall2 (fun i r =>
             LlmRetry.success r
             = Counts.answered_within LlmRetry.MAX_RETRIES
                 (LlmRetry.network env (i + 1)%nat)
             /\ LlmRetry.retries r
                = Some (Counts.retries_of LlmRetry.MAX_RETRIES
                          (LlmRetry.network env (i + 1)%nat)))
          (seq 0 (Z.to_nat (LlmRetry.totalRequests env))) results ->
  let requests := seq 0 (Z.to_nat (LlmRetry.totalRequests env)) in
  LlmRetry.successCount results
  = List.length
      (filter (fun i => Counts.answered_within LlmRetry.MAX_RETRIES
                          (LlmRetry.network env (i + 1)%nat)) requests)
  /\ LlmRetry.failureCount results
     = List.length
         (filter (fun i => negb (Counts.answered_within LlmRetry.MAX_RETRIES
                                   (LlmRetry.network env (i + 1)%nat)))
                 requests)
  /\ LlmRetry.totalRetries results
     = list_sum (map (fun i => Counts.retries_of LlmRetry.MAX_RETRIES
                                 (LlmRetry.network env (i + 1)%nat)) requests)
  /\ List.length results = Z.to_nat (LlmRetry.totalRequests env).
Proof.
  intros Hall requests. repeat split.
  - unfold LlmRetry.successCount. apply forall2_filter_length.
    eapply Forall2_impl; [|exact Hall]. intros i r [H _]. exact H.
  - unfold LlmRetry.failureCount. apply forall2_filter_length.
    eapply Forall2_impl; [|exact Hall]. simpl. intros i r [-> _].
    reflexivity.
  - unfold LlmRetry.totalRetries. rewrite fold_left_add_sum. simpl.
    apply forall2_list_sum.
    eapply Forall2_impl; [|exact Hall]. simpl. intros i r [_ ->].
    reflexivity.
  - rewrite <- (Forall2_length Hall), length_seq. reflexivity.
Qed.

(** ** The blocks of the dual script's summary *)

(** The counters after a batch that started from fresh counters: every
    invocation of a pair is counted once, as a success or as a failure. *)
Lemma dual_batch_counters (maxRetries : nat) (calls : list Dual.Call)
    (w : World Dual.Globals) (results : list Dual.RequestResult)
    (w' : World Dual.Globals) :
  globals w = Dual.initial ->
  promise_all (map (Dual.run_call maxRetries) calls) w = (Ret results, w') ->
  forall g t,
    Dual.c_requests (Dual.counters (globals w') g t)
    = List.length (filter (Dual.same_pair g t) calls)
    /\ (Dual.c_success (Dual.counters (globals w') g t)
        + Dual.c_failure (Dual.counters (globals w') g t))%nat
       = Dual.c_requests (Dual.counters (globals w') g t).
Proof.
  intros Hinit Hrun g t.
  destruct (dual_batch maxRetries calls w)
    as (results0 & w0 & evs & Hrun0 & _ & Hchain).
  rewrite Hrun in Hrun0. injection Hrun0 as <- <-.
  pose proof (chain_length _ _ _ _ _ Hchain) as Hlen.
  rewrite (chain_counters _ _ _ _ _ Hchain g t), Hinit.
  match goal with |- context [fold_left _ ?outs ?c0] =>
    destruct (fold_tally outs c0) as (H1 & H2 & H3 & _);
    pose proof (filter_partition_length (fun r => Dual.success r) outs) as Hp
  end.
  rewrite H1, H2, H3, <- (outcomes_of_length _ _ _ _ Hlen).
  destruct g, t; simpl; lia.
Qed.

(** With a gateway, readable prompts and fresh counters the dual script
    ends by writing the summary of its counters: four blocks in the order
    gateway 1 LLM, gateway 1 image, gateway 2 LLM, gateway 2 image. *)
Lemma dual_main_summary (env : Dual.Env) (w : World Dual.Globals)
    (content image1 llm1 : jsstring) :
  globals w = Dual.initial ->
  String.eqb (Dual.GATEWAY1_URL env) "" && String.eqb (Dual.GATEWAY2_URL env) ""
    = false ->
  Dual.prompts env = Some content ->
  (String.eqb (Dual.TEST_MODE env) "both"
   || String.eqb (Dual.TEST_MODE env) "image" = true ->
   Regex.exec Dual.img_prompt_re content = Some image1) ->
  (String.eqb (Dual.TEST_MODE env) "both"
   || String.eqb (Dual.TEST_MODE env) "llm" = true ->
   Regex.exec Dual.llm_prompt_re content = Some llm1) ->
  let counts (c : Dual.Counters) :=
    [("Total", Z.of_nat (Dual.c_requests c));
     ("Success", Z.of_nat (Dual.c_success c));
     ("Failures", Z.of_nat (Dual.c_failure c));
     ("Retries", Z.of_nat (Dual.c_retries c))] in
  let average (c : Dual.Counters) :=
    ("Avg Duration",
     Some (if Nat.eqb (Dual.c_requests c) 0 then inject_Z 0
           else Qdiv (inject_Z (Dual.c_totalDuration c))
                     (inject_Z (Z.of_nat (Dual.c_requests c))))) in
  exists w' tr (c : Dual.GatewayId -> Dual.CallType -> Dual.Counters),
    Dual.main env w = (Ret tt, w')
    /\ trace w'
       = tr ++ [FsWriteLog Dual.SUMMARY_LOG
                  (LineSummary
                     (counts (c Dual.Gateway1 Dual.LLM)
                      ++ counts (c Dual.Gateway1 Dual.Image)
                      ++ counts (c Dual.Gateway2 Dual.LLM)
                      ++ counts (c Dual.Gateway2 Dual.Image))
                     [average (c Dual.Gateway1 Dual.LLM);
                      average (c Dual.Gateway1 Dual.Image);
                      average (c Dual.Gateway2 Dual.LLM);
                      average (c Dual.Gateway2 Dual.Image)]);
                Stdout "Summary written to";
                Stdout "=== Gateway Performance Summary ===";
                Stdout "--- Dual Stress Test Complete ---"]
    /\ forall g t,
         Dual.c_requests (c g t)
         = (if Routing.tested env (trim image1) (trim llm1) g t
            then Z.to_nat (Dual.CONCURRENT_REQUESTS env) else 0%nat)
         /\ (Dual.c_success (c g t) + Dual.c_failure (c g t))%nat
            = Dual.c_requests (c g t).
Proof.
  intros Hinit Hurl Hfile Himg Hllm counts average.
  destruct (dual_main_readable env w content image1 llm1 Hurl Hfile Himg Hllm)
    as (calls & results & w1 & n2 & tr2 & g2 & tr & Hrun & Hg & Hm & Hcount
        & _).
  eexists. exists tr, (Dual.counters g2).
  split; [exact Hm|]. split; [reflexivity|].
  intros g t.
  destruct (dual_batch_counters Dual.MAX_RETRIES calls w1 results
              (mkWorld n2 tr2 g2) ltac:(congruence) Hrun g t) as [H1 H2].
  cbn [globals] in H1, H2. rewrite <- Hcount. split; assumption.
Qed.

(** ** The exit status *)

(** C5 (as amended). If the required gateway URL is absent, the process
    reports a configuration error on stderr and exits with status 1 before
    it issues any HTTP request.  Otherwise, when the prompts that the script
    reads are found in the prompts file (the single-attempt script reads
    none, the dual script those of its test mode), the process runs its
    batch, writes the summary and exits with status 0, whatever the
    requests do.  (The total is an integer below 2^32; in the dual script,
    whose array of tasks holds up to four times [CONCURRENT_REQUESTS], that
    number is below 2^30.) *)
Theorem exit_status_reflects_configuration :
  (forall (env : Simple.Env) (w : World unit),
     falsy (Simple.LIVEPEER_GATEWAY_URL env) = true ->
     exists w',
       Simple.script env w = (Exit 1, w')
       /\ exit_status (fst (Simple.script env w)) = Some 1
       /\ stderr (trace w')
          = stderr (trace w)
            ++ ["LIVEPEER_GATEWAY_URL environment variable not set"]
       /\ http_requests (trace w') = http_requests (trace w))
  /\ (forall (env : LlmRetry.Env) (w : World unit),
     falsy (LlmRetry.LIVEPEER_GATEWAY_URL env) = true ->
     exists w',
       LlmRetry.script env w = (Exit 1, w')
       /\ exit_status (fst (LlmRetry.script env w)) = Some 1
       /\ stderr (trace w')
          = stderr (trace w)
            ++ ["LIVEPEER_GATEWAY_URL environment variable not set"]
       /\ http_requests (trace w') = http_requests (trace w))
  /\ (forall (env : ImageScript.Env) (w : World unit),
     falsy (ImageScript.LIVEPEER_GATEWAY_URL env) = true ->
     exists w',
       ImageScript.script env w = (Exit 1, w')
       /\ exit_status (fst (ImageScript.script env w)) = Some 1
       /\ stderr (trace w')
          = stderr (trace w)
            ++ ["LIVEPEER_GATEWAY_URL environment variable not set"]
       /\ http_requests (trace w') = http_requests (trace w))
  /\ (forall (env : Dual.Env) (w : World Dual.Globals),
     Dual.GATEWAY1_URL env = "" -> Dual.GATEWAY2_URL env = "" ->
     exists w',
       Dual.script env w = (Exit 1, w')
       /\ exit_status (fst (Dual.script env w)) = Some 1
       /\ stderr (trace w')
          = stderr (trace w)
            ++ ["At least one gateway URL must be specified (gateway1Url or gateway2Url)."]
       /\ http_requests (trace w') = http_requests (trace w))
  /\ (forall (env : Simple.Env) (w : World unit),
     falsy (Simple.LIVEPEER_GATEWAY_URL env) = false ->
     Simple.totalRequests env < 4294967296 ->
     exists w' tr (successes failures : nat) average,
       Simple.script env w = (Ret tt, w')
       /\ exit_status (fst (Simple.script env w)) = Some 0
       /\ trace w'
          = tr ++ [FsAppend Simple.logFile
                     (LineSummary
                        [("Total Requests", Simple.totalRequests env);
                         ("Successes", Z.of_nat successes);
                         ("Failures", Z.of_nat failures)]
                        [("Average Response Time", average)]);
                   Stdout "--- Final Results ---"]
       /\ (successes + failures)%nat = Z.to_nat (Simple.totalRequests env))
  /\ (forall (env : LlmRetry.Env) (w : World unit)
             (promptsContent group1 : jsstring),
     falsy (LlmRetry.LIVEPEER_GATEWAY_URL env) = false ->
     LlmRetry.prompts env = Some promptsContent ->
     Regex.exec LlmRetry.llm_prompt_re promptsContent = Some group1 ->
     LlmRetry.totalRequests env < 4294967296 ->
     exists w' tr (successes failures retries : nat) average,
       LlmRetry.script env w = (Ret tt, w')
       /\ exit_status (fst (LlmRetry.script env w)) = Some 0
       /\ trace w'
          = tr ++ [FsAppend LlmRetry.logFile
                     (LineSummary
                        [("Total Requests", LlmRetry.totalRequests env);
                         ("Successes", Z.of_nat successes);
                         ("Failures", Z.of_nat failures);
                         ("Total Retries", Z.of_nat retries)]
                        [("Average Response Time", average)]);
                   Stdout "--- Final Results ---"]
       /\ (successes + failures)%nat = Z.to_nat (LlmRetry.totalRequests env))
  /\ (forall (env : ImageScript.Env) (w : World unit)
             (promptsContent group1 : jsstring),
     falsy (ImageScript.LIVEPEER_GATEWAY_URL env) = false ->
     ImageScript.prompts env = Some promptsContent ->
     Regex.exec ImageScript.img_prompt_re promptsContent = Some group1 ->
     ImageScript.totalRequests env < 4294967296 ->
     exists w' tr (successes failures retried retriedOk : nat) average,
       ImageScript.script env w = (Ret tt, w')
       /\ exit_status (fst (ImageScript.script env w)) = Some 0
       /\ trace w'
          = tr ++ [FsAppend ImageScript.logFile
                     (LineSummary
                        [("Total Requests", ImageScript.totalRequests env);
                         ("Successes", Z.of_nat successes);
                         ("Failures", Z.of_nat failures);
                         ("Requests that needed retries", Z.of_nat retried);
                         ("Successfully retried requests",
                          Z.of_nat retriedOk)]
                        [("Average Response Time", average)]);
                   Stdout "--- Final Results ---"]
       /\ (successes + failures)%nat
          = Z.to_nat (ImageScript.totalRequests env))
  /\ (forall (env : Dual.Env) (w : World Dual.Globals)
             (promptsContent image1 llm1 : jsstring),
     globals w = Dual.initial ->
     String.eqb (Dual.GATEWAY1_URL env) ""
     && String.eqb (Dual.GATEWAY2_URL env) "" = false ->
     Dual.prompts env = Some promptsContent ->
     (String.eqb (Dual.TEST_MODE env) "both"
      || String.eqb (Dual.TEST_MODE env) "image" = true ->
      Regex.exec Dual.img_prompt_re promptsContent = Some image1) ->
     (String.eqb (Dual.TEST_MODE env) "both"
      || String.eqb (Dual.TEST_MODE env) "llm" = true ->
      Regex.exec Dual.llm_prompt_re promptsContent = Some llm1) ->
     Dual.CONCURRENT_REQUESTS env < 1073741824 ->
     let counts (c : Dual.Counters) :=
       [("Total", Z.of_nat (Dual.c_requests c));
        ("Success", Z.of_nat (Dual.c_success c));
        ("Failures", Z.of_nat (Dual.c_failure c));
        ("Retries", Z.of_nat (Dual.c_retries c))] in
     let average (c : Dual.Counters) :=
       ("Avg Duration",
        Some (if Nat.eqb (Dual.c_requests c) 0 then inject_Z 0
              else Qdiv (inject_Z (Dual.c_totalDuration c))
                        (inject_Z (Z.of_nat (Dual.c_requests c))))) in
     exists w' tr (c : Dual.GatewayId -> Dual.CallType -> Dual.Counters),
       Dual.script env w = (Ret tt, w')
       /\ exit_status (fst (Dual.script env w)) = Some 0
       /\ trace w'
          = tr ++ [FsWriteLog Dual.SUMMARY_LOG
                     (LineSummary
                        (counts (c Dual.Gateway1 Dual.LLM)
                         ++ counts (c Dual.Gateway1 Dual.Image)
                         ++ counts (c Dual.Gateway2 Dual.LLM)
                         ++ counts (c Dual.Gateway2 Dual.Image))
                        [average (c Dual.Gateway1 Dual.LLM);
                         average (c Dual.Gateway1 Dual.Image);
                         average (c Dual.Gateway2 Dual.LLM);
                         average (c Dual.Gateway2 Dual.Image)]);
                   Stdout "Summary written to";
                   Stdout "=== Gateway Performance Summary ===";
                   Stdout "--- Dual Stress Test Complete ---"]
       /\ forall g t,
            (Dual.c_success (c g t) + Dual.c_failure (c g t))%nat
            = Dual.c_requests (c g t)).
Proof.
  repeat apply conj.
  - intros env [n tr g] Hurl.
    unfold Simple.script, Simple.main. rewrite Hurl. run_m.
    eexists. split; [reflexivity|]. cbn [trace].
    rewrite !stderr_app, !http_requests_app. simpl.
    rewrite app_nil_r. repeat split; lia.
  - intros env [n tr g] Hurl.
    unfold LlmRetry.script, LlmRetry.main. rewrite Hurl. run_m.
    eexists. split; [reflexivity|]. cbn [trace].
    rewrite !stderr_app, !http_requests_app. simpl.
    rewrite !app_nil_r. repeat split; lia.
  - intros env [n tr g] Hurl.
    unfold ImageScript.script, ImageScript.main. rewrite Hurl. run_m.
    eexists. split; [reflexivity|]. cbn [trace].
    rewrite !stderr_app, !http_requests_app. simpl.
    rewrite !app_nil_r. repeat split; lia.
  - intros env [n tr g] H1 H2.
    unfold Dual.script, Dual.main. rewrite H1, H2. simpl andb. cbv iota.
    run_m.
    eexists. split; [reflexivity|]. cbn [trace].
    rewrite !stderr_app, !http_requests_app. simpl. repeat split; lia.
  - intros env w Hurl _.
    destruct (simple_main_runs env w Hurl)
      as (results & w' & tr & Hrun & Htr & Hlen & _).
    exists w', tr, (Simple.successCount results),
      (Simple.failureCount results), (average (map Simple.duration results)).
    unfold Simple.script, try_catch. rewrite Hrun.
    split; [reflexivity|]. split; [reflexivity|]. split; [exact Htr|].
    rewrite <- Hlen. unfold Simple.successCount, Simple.failureCount.
    apply filter_partition_length.
  - intros env w promptsContent group1 Hurl Hfile Hkey _.
    destruct (llm_main_outcomes env w promptsContent group1 Hurl Hfile Hkey)
      as (results & w' & tr & Hrun & Htr & Hall & _).
    destruct (llm_summary_of_outcomes env results Hall) as (_ & _ & _ & Hlen).
    exists w', tr, (LlmRetry.successCount results),
      (LlmRetry.failureCount results), (LlmRetry.totalRetries results),
      (average (map LlmRetry.duration results)).
    unfold LlmRetry.script, try_catch. rewrite Hrun.
    split; [reflexivity|]. split; [reflexivity|]. split; [exact Htr|].
    rewrite <- Hlen. unfold LlmRetry.successCount, LlmRetry.failureCount.
    apply filter_partition_length.
  - intros env w promptsContent group1 Hurl Hfile Hkey _.
    destruct (img_main_outcomes env w promptsContent group1 Hurl Hfile Hkey)
      as (results & w' & tr & Hrun & Htr & Hall).
    exists w', tr, (ImageScript.successCount results),
      (ImageScript.failureCount results), (ImageScript.retriedCount results),
      (ImageScript.retriedSuccessCount results),
      (average (map ImageScript.duration results)).
    unfold ImageScript.script, try_catch. rewrite Hrun.
    split; [reflexivity|]. split; [reflexivity|]. split; [exact Htr|].
    pose proof (Forall2_length Hall) as Hlen. rewrite length_seq in Hlen.
    rewrite Hlen. unfold ImageScript.successCount, ImageScript.failureCount.
    apply filter_partition_length.
  - intros env w promptsContent image1 llm1 Hinit Hurl Hfile Himg Hllm _
           counts average.
    destruct (dual_main_summary env w promptsContent image1 llm1 Hinit Hurl
                Hfile Himg Hllm) as (w' & tr & c & Hm & Htr & Hc).
    exists w', tr, c. unfold Dual.script, try_catch. rewrite Hm.
    split; [reflexivity|]. split; [reflexivity|]. split; [exact Htr|].
    intros g t. apply (Hc g t).
Qed.

(** C5 at concrete inputs: the single-attempt script without
    [LIVEPEER_GATEWAY_URL] exits 1; with it, and two requests of which the
    second is rejected, it exits 0 after a summary of one success and one
    failure. *)
Lemma exit_status_reflects_configuration_witness :
  (falsy None = true
   /\ exists w',
        Simple.script (Simple.mkEnv None 50 (fun _ => instant_ok))
                      (mkWorld 0 [] tt) = (Exit 1, w')
        /\ exit_status (fst (Simple.script
                               (Simple.mkEnv None 50 (fun _ => instant_ok))
                               (mkWorld 0 [] tt))) = Some 1
        /\ stderr (trace w')
           = stderr []
             ++ ["LIVEPEER_GATEWAY_URL environment variable not set"]
        /\ http_requests (trace w') = http_requests [])
  /\ (falsy (Some "http://gw") = false
      /\ 2 < 4294967296
      /\ exists w' tr (successes failures : nat) average,
           Simple.script
             (Simple.mkEnv (Some "http://gw") 2
                (fun i => if Nat.eqb i 1 then instant_ok else instant_error))
             (mkWorld 0 [] tt) = (Ret tt, w')
           /\ exit_status
                (fst (Simple.script
                        (Simple.mkEnv (Some "http://gw") 2
                           (fun i => if Nat.eqb i 1 then instant_ok
                                     else instant_error))
                        (mkWorld 0 [] tt))) = Some 0
           /\ trace w'
              = tr ++ [FsAppend Simple.logFile
                         (LineSummary
                            [("Total Requests", 2);
                             ("Successes", Z.of_nat successes);
                             ("Failures", Z.of_nat failures)]
                            [("Average Response Time", average)]);
                       Stdout "--- Final Results ---"]
           /\ (successes + failures)%nat = Z.to_nat 2).
Proof.
  split.
  - split; [reflexivity|].
    exact (proj1 exit_status_reflects_configuration
                 (Simple.mkEnv None 50 (fun _ => instant_ok))
                 (mkWorld 0 [] tt) eq_refl).
  - split; [reflexivity|]. split; [reflexivity|].
    exact (proj1 (proj2 (proj2 (proj2 (proj2
                   exit_status_reflects_configuration))))
                 (Simple.mkEnv (Some "http://gw") 2
                    (fun i => if Nat.eqb i 1 then instant_ok
                              else instant_error))
                 (mkWorld 0 [] tt) eq_refl eq_refl).
Defined.

(** C5 as stated fails when the gateway URL is set and the prompts file is
    missing: the process exits with status 0, but it has sent no request
    and has written no summary; its log ends with the error. *)
Lemma missing_prompt_exits_without_summary :
  falsy (LlmRetry.LIVEPEER_GATEWAY_URL
           (LlmRetry.mkEnv (Some "http://gw") 2 None (fun _ _ => instant_ok)))
  = false
  /\ exists w',
       LlmRetry.script
         (LlmRetry.mkEnv (Some "http://gw") 2 None (fun _ _ => instant_ok))
         (mkWorld 0 [] tt) = (Ret tt, w')
       /\ exit_status
            (fst (LlmRetry.script
                    (LlmRetry.mkEnv (Some "http://gw") 2 None
                                    (fun _ _ => instant_ok))
                    (mkWorld 0 [] tt))) = Some 0
       /\ trace w'
          = [FsMkdir "output/llm_gen";
             FsWriteLog "output/llm_gen/stress_test_results.log"
               (LineText "--- New Stress Test Run ---");
             FsAppend "output/llm_gen/stress_test_results.log"
               (LineText "Initial prompt tokens: 1056");
             Stderr "Error during stress test";
             FsAppend "output/llm_gen/stress_test_results.log"
               (LineError "ENOENT: no such file or directory")]
       /\ (forall path counts averages,
             ~ In (FsAppend path (LineSummary counts averages)) (trace w'))
       /\ http_requests (trace w') = 0%nat.
Proof.
  split; [reflexivity|]. eexists.
  split; [vm_compute; reflexivity|]. split; [reflexivity|].
  split; [reflexivity|]. split; [|reflexivity].
  intros path counts averages Hin. cbn [trace] in Hin.
  repeat (destruct Hin as [Hin|Hin]; [discriminate Hin|]). exact Hin.
Qed.

(** ** Retries in the summaries *)

(** X4. The POST requests that the LLM script with retries sends are accounted
    for by the summary it appends: [Total Retries] is the number of
    attempts that were rejected before the requests were answered or given
    up, and the number of POSTs is the number of requests plus that figure.
    (The total is an integer below 2^32.) *)
Theorem llm_summary_accounts_for_posts (env : LlmRetry.Env) (w : World unit)
    (promptsContent group1 : jsstring) :
  falsy (LlmRetry.LIVEPEER_GATEWAY_URL env) = false ->
  LlmRetry.prompts env = Some promptsContent ->
  Regex.exec LlmRetry.llm_prompt_re promptsContent = Some group1 ->
  LlmRetry.totalRequests env < 4294967296 ->
  let requests := seq 0 (Z.to_nat (LlmRetry.totalRequests env)) in
  exists w' tr (successes failures retries : nat) average,
    LlmRetry.main env w = (Ret tt, w')
    /\ trace w'
       = tr ++ [FsAppend LlmRetry.logFile
                  (LineSummary
                     [("Total Requests", LlmRetry.totalRequests env);
                      ("Successes", Z.of_nat successes);
                      ("Failures", Z.of_nat failures);
                      ("Total Retries", Z.of_nat retries)]
                     [("Average Response Time", average)]);
                Stdout "--- Final Results ---"]
    /\ retries
       = list_sum (map (fun i => Counts.retries_of LlmRetry.MAX_RETRIES
                                   (LlmRetry.network env (i + 1)%nat))
                       requests)
    /\ posts (trace w')
       = (posts (trace w) + List.length requests + retries)%nat.
Proof.
  intros Hurl Hfile Hkey _ requests.
  destruct (llm_main_outcomes env w promptsContent group1 Hurl Hfile Hkey)
    as (results & w' & tr & Hrun & Htr & Hall & Hposts).
  destruct (llm_summary_of_outcomes env results Hall)
    as (_ & _ & Hretries & Hlen).
  exists w', tr, (LlmRetry.successCount results),
    (LlmRetry.failureCount results), (LlmRetry.totalRetries results),
    (average (map LlmRetry.duration results)).
  split; [exact Hrun|]. split; [exact Htr|]. split; [exact Hretries|].
  rewrite Hposts, Hlen. unfold requests. rewrite length_seq. reflexivity.
Qed.

(** At a concrete input: two requests, each rejected once and then
    answered; the summary shows two retries and four POSTs are sent. *)
Lemma llm_summary_accounts_for_posts_witness :
  falsy (Some "http://gw") = false
  /\ Regex.exec LlmRetry.llm_prompt_re (units "llm_prompt=hi")
     = Some (units "hi")
  /\ 2 < 4294967296
  /\ exists w' tr (successes failures : nat) average,
       LlmRetry.main
         (LlmRetry.mkEnv (Some "http://gw") 2 (Some (units "llm_prompt=hi"))
                         (fun _ => down_for 1))
         (mkWorld 0 [] tt) = (Ret tt, w')
       /\ trace w'
          = tr ++ [FsAppend LlmRetry.logFile
                     (LineSummary
                        [("Total Requests", 2);
                         ("Successes", Z.of_nat successes);
                         ("Failures", Z.of_nat failures);
                         ("Total Retries", 2)]
                        [("Average Response Time", average)]);
                   Stdout "--- Final Results ---"]
       /\ posts (trace w') = 4%nat.
Proof.
  split; [reflexivity|]. split; [vm_compute; reflexivity|].
  split; [reflexivity|].
  destruct (llm_summary_accounts_for_posts
              (LlmRetry.mkEnv (Some "http://gw") 2
                 (Some (units "llm_prompt=hi")) (fun _ => down_for 1))
              (mkWorld 0 [] tt) (units "llm_prompt=hi") (units "hi")
              eq_refl eq_refl ltac:(vm_compute; reflexivity) eq_refl)
    as (w' & tr & successes & failures & retries & average & Hrun & Htr & Hr
        & Hp).
  exists w', tr, successes, failures, average.
  split; [exact Hrun|]. split.
  - rewrite Htr, Hr. reflexivity.
  - rewrite Hp, Hr. reflexivity.
Defined.

(** X5. In the summary that the image script appends, [Requests that needed
    retries] is the number of requests whose first attempt was rejected,
    [Failures] is the number of requests that no attempt answered, and the
    former is the sum of [Successfully retried requests] and [Failures]: no
    request fails without having been retried.  (The total is an integer
    below 2^32.) *)
Theorem image_summary_retry_counts (env : ImageScript.Env) (w : World unit)
    (promptsContent group1 : jsstring) :
  falsy (ImageScript.LIVEPEER_GATEWAY_URL env) = false ->
  ImageScript.prompts env = Some promptsContent ->
  Regex.exec ImageScript.img_prompt_re promptsContent = Some group1 ->
  ImageScript.totalRequests env < 4294967296 ->
  let requests := seq 0 (Z.to_nat (ImageScript.totalRequests env)) in
  exists w' tr (successes failures retried retriedOk : nat) average,
    ImageScript.main env w = (Ret tt, w')
    /\ trace w'
       = tr ++ [FsAppend ImageScript.logFile
                  (LineSummary
                     [("Total Requests", ImageScript.totalRequests env);
                      ("Successes", Z.of_nat successes);
                      ("Failures", Z.of_nat failures);
                      ("Requests that needed retries", Z.of_nat retried);
                      ("Successfully retried requests", Z.of_nat retriedOk)]
                     [("Average Response Time", average)]);
                Stdout "--- Final Results ---"]
    /\ retried
       = List.length
           (filter (fun i => rejected 300000
                               (ImageScript.network env (i + 1)%nat 0%nat))
                   requests)
    /\ failures
       = List.length
           (filter (fun i => negb (Counts.answered_within
                                     ImageScript.maxRetries
                                     (ImageScript.network env (i + 1)%nat)))
                   requests)
    /\ retried = (retriedOk + failures)%nat.
Proof.
  intros Hurl Hfile Hkey _ requests.
  destruct (img_main_outcomes env w promptsContent group1 Hurl Hfile Hkey)
    as (results & w' & tr & Hrun & Htr & Hall).
  exists w', tr, (ImageScript.successCount results),
    (ImageScript.failureCount results), (ImageScript.retriedCount results),
    (ImageScript.retriedSuccessCount results),
    (average (map ImageScript.duration results)).
  split; [exact Hrun|]. split; [exact Htr|]. split; [|split].
  - unfold ImageScript.retriedCount. apply forall2_filter_length.
    eapply Forall2_impl; [|exact Hall]. intros i r (_ & H & _). exact H.
  - unfold ImageScript.failureCount. apply forall2_filter_length.
    eapply Forall2_impl; [|exact Hall]. simpl. intros i r [-> _].
    reflexivity.
  - apply retried_splits.
    eapply forall2_forall; [|exact Hall]. simpl.
    intros i r (Hok & Hr & _) Hf. rewrite Hr.
    destruct (rejected 300000 (ImageScript.network env (i + 1)%nat 0%nat))
      eqn:E; [reflexivity|].
    rewrite Hok in Hf. unfold Counts.answered_within in Hf.
    simpl in Hf. rewrite E in Hf. discriminate.
Qed.

(** At a concrete input: three requests to a gateway that is always down;
    the summary shows three failures, three requests that needed retries and
    none that was retried with success. *)
Lemma image_summary_retry_counts_witness :
  falsy (Some "http://gw") = false
  /\ Regex.exec ImageScript.img_prompt_re (units "img_prompt=a cat")
     = Some (units "a cat")
  /\ ImageScript.totalRequests ImageScript.sample_env < 4294967296
  /\ exists w' tr (successes : nat) average,
       ImageScript.main ImageScript.sample_env (mkWorld 0 [] tt) = (Ret tt, w')
       /\ trace w'
          = tr ++ [FsAppend ImageScript.logFile
                     (LineSummary
                        [("Total Requests", 3);
                         ("Successes", Z.of_nat successes);
                         ("Failures", 3);
                         ("Requests that needed retries", 3);
                         ("Successfully retried requests", 0)]
                        [("Average Response Time", average)]);
                   Stdout "--- Final Results ---"].
Proof.
  split; [reflexivity|]. split; [vm_compute; reflexivity|].
  split; [reflexivity|].
  destruct (image_summary_retry_counts ImageScript.sample_env
              (mkWorld 0 [] tt) (units "img_prompt=a cat") (units "a cat")
              eq_refl eq_refl ltac:(vm_compute; reflexivity) eq_refl)
    as (w' & tr & successes & failures & retried & retriedOk & average & Hrun
        & Htr & Hr & Hf & Hsum).
  exists w', tr, successes, average. split; [exact Hrun|].
  assert (Hf3 : failures = 3%nat) by (rewrite Hf; reflexivity).
  assert (Hr3 : retried = 3%nat) by (rewrite Hr; reflexivity).
  assert (H0 : retriedOk = 0%nat) by lia.
  rewrite Htr, Hf3, Hr3, H0. reflexivity.
Defined.

(** ** The totals of the dual script's summary *)

(** X18. The [Total] of each block of the summary that the dual script
    writes follows the configuration.  When the text that [getArgValue]
    finds for the flag [--concurrency], the variable [TOTAL_REQUESTS] and
    the default [10] is a number [n] written in decimal digits, the prompts
    that the test mode needs are found and the counters are fresh, the
    script ends normally and writes four blocks; the block of a gateway and
    call type shows [n] requests when the URL of the gateway is set, the
    test mode covers the call type and its prompt is not empty, and no
    request otherwise; its [Success] and [Failures] add up to its
    [Total]. *)
Theorem dual_totals_follow_configuration (env : Dual.Env)
    (w : World Dual.Globals) (content image1 llm1 : jsstring) (n : Z) :
  globals w = Dual.initial ->
  String.eqb (Dual.GATEWAY1_URL env) "" && String.eqb (Dual.GATEWAY2_URL env) ""
    = false ->
  Dual.prompts env = Some content ->
  (String.eqb (Dual.TEST_MODE env) "both"
   || String.eqb (Dual.TEST_MODE env) "image" = true ->
   Regex.exec Dual.img_prompt_re content = Some image1) ->
  (String.eqb (Dual.TEST_MODE env) "both"
   || String.eqb (Dual.TEST_MODE env) "llm" = true ->
   Regex.exec Dual.llm_prompt_re content = Some llm1) ->
  Dual.Number_of_digits
    (Dual.getArgValue (Dual.args env) (Dual.environ env)
                      "concurrency" "TOTAL_REQUESTS" "10") = Some n ->
  n < 1073741824 ->
  let total g t :=
    if Routing.tested env (trim image1) (trim llm1) g t
    then Z.to_nat n else 0%nat in
  exists w' tr (successes failures retries : Dual.GatewayId -> Dual.CallType
                                             -> nat)
         (average : Dual.GatewayId -> Dual.CallType -> Q),
    let counts g t :=
      [("Total", Z.of_nat (total g t));
       ("Success", Z.of_nat (successes g t));
       ("Failures", Z.of_nat (failures g t));
       ("Retries", Z.of_nat (retries g t))] in
    Dual.script env w = (Ret tt, w')
    /\ trace w'
       = tr ++ [FsWriteLog Dual.SUMMARY_LOG
                  (LineSummary
                     (counts Dual.Gateway1 Dual.LLM
                      ++ counts Dual.Gateway1 Dual.Image
                      ++ counts Dual.Gateway2 Dual.LLM
                      ++ counts Dual.Gateway2 Dual.Image)
                     [("Avg Duration", Some (average Dual.Gateway1 Dual.LLM));
                      ("Avg Duration",
                       Some (average Dual.Gateway1 Dual.Image));
                      ("Avg Duration", Some (average Dual.Gateway2 Dual.LLM));
                      ("Avg Duration",
                       Some (average Dual.Gateway2 Dual.Image))]);
                Stdout "Summary written to";
                Stdout "=== Gateway Performance Summary ===";
                Stdout "--- Dual Stress Test Complete ---"]
    /\ forall g t, (successes g t + failures g t)%nat = total g t.
Proof.
  intros Hinit Hurl Hfile Hi Hl Hn _ total.
  assert (Hc0 : Dual.CONCURRENT_REQUESTS env = n).
  { unfold Dual.CONCURRENT_REQUESTS. rewrite Hn. reflexivity. }
  destruct (dual_main_summary env w content image1 llm1 Hinit Hurl Hfile Hi
              Hl) as (w' & tr & c & Hm & Htr & Hc).
  rewrite Hc0 in Hc.
  exists w', tr, (fun g t => Dual.c_success (c g t)),
    (fun g t => Dual.c_failure (c g t)),
    (fun g t => Dual.c_retries (c g t)),
    (fun g t => if Nat.eqb (Dual.c_requests (c g t)) 0 then inject_Z 0
                else Qdiv (inject_Z (Dual.c_totalDuration (c g t)))
                          (inject_Z (Z.of_nat (Dual.c_requests (c g t))))).
  cbv zeta. unfold Dual.script, try_catch. rewrite Hm.
  split; [reflexivity|]. split.
  - rewrite Htr. unfold total.
    rewrite <- !(fun g t => proj1 (Hc g t)). reflexivity.
  - intros g t. unfold total. rewrite <- (proj1 (Hc g t)).
    apply (proj2 (Hc g t)).
Qed.

(** At a concrete input: [--gateway1Url=http://gw1 --concurrency=3] in the
    default mode [both]; the two blocks of gateway 1 show three requests
    each, those of gateway 2 none. *)
Lemma dual_totals_follow_configuration_witness :
  Regex.exec Dual.img_prompt_re
    (units "llm_prompt=hi" ++ 10%N :: units "img_prompt=a cat")
  = Some (units "a cat")
  /\ Regex.exec Dual.llm_prompt_re
       (units "llm_prompt=hi" ++ 10%N :: units "img_prompt=a cat")
     = Some (units "hi")
  /\ Dual.Number_of_digits
       (Dual.getArgValue
          ["--gateway1Url=http://gw1"; "--concurrency=3"]%string
          (fun _ => None) "concurrency" "TOTAL_REQUESTS" "10") = Some 3
  /\ exists w' tr (s1 f1 r1 s2 f2 r2 r3 r4 : nat) (a1 a2 a3 a4 : Q),
       Dual.script
         (Dual.mkEnv
            ["--gateway1Url=http://gw1"; "--concurrency=3"]%string
            (fun _ => None) 0
            (Some (units "llm_prompt=hi" ++ 10%N :: units "img_prompt=a cat"))
            (fun _ _ _ _ => instant_ok))
         (mkWorld 0 [] Dual.initial) = (Ret tt, w')
       /\ trace w'
          = tr ++ [FsWriteLog Dual.SUMMARY_LOG
                     (LineSummary
                        [("Total", 3); ("Success", Z.of_nat s1);
                         ("Failures", Z.of_nat f1); ("Retries", Z.of_nat r1);
                         ("Total", 3); ("Success", Z.of_nat s2);
                         ("Failures", Z.of_nat f2); ("Retries", Z.of_nat r2);
                         ("Total", 0); ("Success", 0);
                         ("Failures", 0); ("Retries", Z.of_nat r3);
                         ("Total", 0); ("Success", 0);
                         ("Failures", 0); ("Retries", Z.of_nat r4)]
                        [("Avg Duration", Some a1); ("Avg Duration", Some a2);
                         ("Avg Duration", Some a3);
                         ("Avg Duration", Some a4)]);
                   Stdout "Summary written to";
                   Stdout "=== Gateway Performance Summary ===";
                   Stdout "--- Dual Stress Test Complete ---"]
       /\ (s1 + f1 = 3)%nat /\ (s2 + f2 = 3)%nat.
Proof.
  assert (Hi : Regex.exec Dual.img_prompt_re
                 (units "llm_prompt=hi" ++ 10%N :: units "img_prompt=a cat")
               = Some (units "a cat")) by (vm_compute; reflexivity).
  assert (Hl : Regex.exec Dual.llm_prompt_re
                 (units "llm_prompt=hi" ++ 10%N :: units "img_prompt=a cat")
               = Some (units "hi")) by (vm_compute; reflexivity).
  split; [exact Hi|]. split; [exact Hl|]. split; [reflexivity|].
  destruct (dual_totals_follow_configuration
              (Dual.mkEnv
                 ["--gateway1Url=http://gw1"; "--concurrency=3"]%string
                 (fun _ => None) 0
                 (Some (units "llm_prompt=hi" ++ 10%N
                        :: units "img_prompt=a cat"))
                 (fun _ _ _ _ => instant_ok))
              (mkWorld 0 [] Dual.initial)
              (units "llm_prompt=hi" ++ 10%N :: units "img_prompt=a cat")
              (units "a cat") (units "hi") 3
              eq_refl eq_refl eq_refl (fun _ => Hi) (fun _ => Hl)
              eq_refl eq_refl)
    as (w' & tr & s & f & r & a & Hrun & Htr & Hsum).
  exists w', tr, (s Dual.Gateway1 Dual.LLM), (f Dual.Gateway1 Dual.LLM),
    (r Dual.Gateway1 Dual.LLM),
    (s Dual.Gateway1 Dual.Image), (f Dual.Gateway1 Dual.Image),
    (r Dual.Gateway1 Dual.Image),
    (r Dual.Gateway2 Dual.LLM), (r Dual.Gateway2 Dual.Image),
    (a Dual.Gateway1 Dual.LLM), (a Dual.Gateway1 Dual.Image),
    (a Dual.Gateway2 Dual.LLM), (a Dual.Gateway2 Dual.Image).
  split; [exact Hrun|].
  split; [|split; [exact (Hsum Dual.Gateway1 Dual.LLM)
                  |exact (Hsum Dual.Gateway1 Dual.Image)]].
  rewrite Htr.
  assert (H3 : (s Dual.Gateway2 Dual.LLM + f Dual.Gateway2 Dual.LLM
                = 0)%nat) by (rewrite Hsum; reflexivity).
  assert (H4 : (s Dual.Gateway2 Dual.Image + f Dual.Gateway2 Dual.Image
                = 0)%nat) by (rewrite Hsum; reflexivity).
  assert (E3 : s Dual.Gateway2 Dual.LLM = 0%nat) by lia.
  assert (E3' : f Dual.Gateway2 Dual.LLM = 0%nat) by lia.
  assert (E4 : s Dual.Gateway2 Dual.Image = 0%nat) by lia.
  assert (E4' : f Dual.Gateway2 Dual.Image = 0%nat) by lia.
  rewrite E3, E3', E4, E4'. reflexivity.
Defined.

(** ** The effects of an invocation stay on target *)

Section Confinement.

Context {G : Type} (P : Event -> Prop).

Lemma confined_ret {A : Type} (a : A) : Routing.confined P (@ret G A a).
Proof. intros w. exists []. rewrite app_nil_r. split; [reflexivity|constructor]. Qed.

Lemma confined_throw {A : Type} (e : Error) :
  Routing.confined P (@throw G A e).
Proof. intros w. exists []. rewrite app_nil_r. split; [reflexivity|constructor]. Qed.

Lemma confined_emit (ev : Event) : P ev -> Routing.confined P (@emit G ev).
Proof. intros Hev w. exists [ev]. split; [reflexivity|]. now constructor. Qed.

Lemma confined_elapse (ms : Z) : Routing.confined P (@elapse G ms).
Proof. intros w. exists []. simpl. rewrite app_nil_r. split; [reflexivity|constructor]. Qed.

Lemma confined_date_now : Routing.confined P (@date_now G).
Proof. intros w. exists []. simpl. rewrite app_nil_r. split; [reflexivity|constructor]. Qed.

Lemma confined_modify_globals (f : G -> G) :
  Routing.confined P (modify_globals f).
Proof. intros w. exists []. simpl. rewrite app_nil_r. split; [reflexivity|constructor]. Qed.

Lemma confined_bind {A B : Type} (m : M G A) (k : A -> M G B) :
  Routing.confined P m -> (forall a, Routing.confined P (k a)) ->
  Routing.confined P (bind m k).
Proof.
  intros Hm Hk w. unfold bind.
  destruct (Hm w) as (evs1 & Htr1 & HP1).
  destruct (m w) as [[a|e|c|] w1]; cbn [snd] in *;
    try (exists evs1; split; assumption).
  destruct (Hk a w1) as (evs2 & Htr2 & HP2).
  exists (evs1 ++ evs2). rewrite Htr2, Htr1, app_assoc.
  split; [reflexivity|]. apply Forall_app. split; assumption.
Qed.

Lemma confined_try_catch {A : Type} (body : M G A) (handler : Error -> M G A) :
  Routing.confined P body -> (forall e, Routing.confined P (handler e)) ->
  Routing.confined P (try_catch body handler).
Proof.
  intros Hm Hk w. unfold try_catch.
  destruct (Hm w) as (evs1 & Htr1 & HP1).
  destruct (body w) as [[a|e|c|] w1]; cbn [snd] in *;
    try (exists evs1; split; assumption).
  destruct (Hk e w1) as (evs2 & Htr2 & HP2).
  exists (evs1 ++ evs2). rewrite Htr2, Htr1, app_assoc.
  split; [reflexivity|]. apply Forall_app. split; assumption.
Qed.

Lemma confined_for_each_in {A : Type} (body : nat -> A -> M G unit)
    (xs : list A) (i : nat) :
  (forall i x, In x xs -> Routing.confined P (body i x)) ->
  Routing.confined P (for_each body i xs).
Proof.
  revert i. induction xs as [|x xs IH]; intros i Hbody; simpl.
  - apply confined_ret.
  - apply confined_bind; [apply Hbody; now left|].
    intros _. apply IH. intros j y Hy. apply Hbody. now right.
Qed.

Lemma confined_sleep (ms : Z) (lag : N) :
  P (Timer ms) -> Routing.confined P (@sleep G ms lag).
Proof.
  intros Ht. unfold sleep.
  apply confined_bind; [now apply confined_emit | intros _; apply confined_elapse].
Qed.

(** What follows a POST runs on the response with which the attempt is
    answered. *)
Lemma confined_after_post {B : Type} (url : string) (data : Payload)
    (timeout : Z) (a : Attempt) (k : Response -> M G B) :
  P (HttpPost url data) ->
  (forall response, snd (settle timeout a) = inl response ->
     Routing.confined P (k response)) ->
  Routing.confined P (bind (axios_post url data timeout a) k).
Proof.
  intros Hp Hk w. unfold bind, axios_post, bind, emit, elapse.
  destruct (snd (settle timeout a)) as [response|e] eqn:E.
  - unfold ret.
    match goal with |- context [k response ?w1] =>
      destruct (Hk response eq_refl w1) as (evs & Htr & HP)
    end.
    exists (HttpPost url data :: evs). rewrite Htr. cbn [trace].
    rewrite <- app_assoc. split; [reflexivity|]. now constructor.
  - unfold throw. exists [HttpPost url data]. cbn [snd trace].
    split; [reflexivity|]. now constructor.
Qed.

Lemma confined_axios_get (url : string) (io : ImageIO) :
  P (HttpGet url) -> Routing.confined P (@axios_get G url io).
Proof.
  intros Hp. unfold axios_get.
  apply confined_bind; [now apply confined_emit|]. intros _.
  apply confined_bind; [apply confined_elapse|]. intros _.
  destruct (fetch_ok io); [apply confined_ret | apply confined_throw].
Qed.

Lemma confined_fs_writeImage (path : string) (io : ImageIO) :
  P (FsWriteImage path) -> Routing.confined P (@fs_writeImage G path io).
Proof.
  intros Hp. unfold fs_writeImage.
  destruct (save_ok io); [now apply confined_emit | apply confined_throw].
Qed.

End Confinement.

Lemma appended_to_app (path : string) (tr1 tr2 : list Event) :
  Routing.appended_to path (tr1 ++ tr2)
  = Routing.appended_to path tr1 ++ Routing.appended_to path tr2.
Proof.
  induction tr1 as [|e tr1 IH]; simpl; [reflexivity|].
  destruct e; simpl; try exact IH.
  destruct (String.eqb path0 path); simpl; now rewrite IH.
Qed.

Lemma dual_save_image_confined (baseUrl endpointPath : string)
    (payload : Payload) (gatewayId : Dual.GatewayId) (endpoint : Endpoint)
    (k : nat) (response : Response) (imgs : list string) (a : Attempt)
    (i : nat) (u : string) :
  snd (settle Dual.TIMEOUT_MS (endpoint k)) = inl response ->
  images response = Some imgs ->
  In u imgs ->
  Routing.confined
    (Routing.on_target baseUrl endpointPath payload Dual.Image gatewayId
                       endpoint)
    (Dual.save_image baseUrl gatewayId a i u).
Proof.
  intros Hresponse Himgs Hu.
  unfold Dual.save_image, console_log, console_error.
  apply confined_bind; [apply confined_emit; exact I|]. intros _.
  apply confined_try_catch.
  - apply confined_bind.
    + apply confined_axios_get. split; [reflexivity|].
      exists k, response, imgs, u. auto.
    + intros _. apply confined_bind.
      * apply confined_fs_writeImage. split; reflexivity.
      * intros _. apply confined_emit. exact I.
  - intros e. apply confined_emit. exact I.
Qed.

Lemma dual_attempt_confined (maxRetries : nat) (baseUrl endpointPath : string)
    (payload : Payload) (requestNum : nat) (type : Dual.CallType)
    (gatewayId : Dual.GatewayId) (endpoint : Endpoint) (startTime : Z)
    (k : nat) :
  Routing.confined
    (Routing.on_target baseUrl endpointPath payload type gatewayId endpoint)
    (Dual.attempt maxRetries baseUrl endpointPath payload requestNum type
                  gatewayId endpoint startTime k).
Proof.
  unfold Dual.attempt, Dual.record_success, Dual.record_failure, console_log,
    console_error, fs_appendFileSync.
  apply confined_bind; [apply confined_emit; exact I|]. intros _.
  apply confined_bind; [apply confined_emit; exact I|]. intros _.
  apply confined_try_catch.
  - apply confined_after_post; [split; reflexivity|].
    intros response Hresponse.
    apply confined_bind; [apply confined_emit; exact I|]. intros _.
    apply confined_bind.
    { destruct type; [apply confined_ret|].
      destruct (images response) as [imgs|] eqn:Himgs; [|apply confined_ret].
      apply confined_for_each_in. intros i u Hu.
      exact (dual_save_image_confined _ _ _ _ _ k response imgs _ i u
               Hresponse Himgs Hu). }
    intros _. apply confined_bind.
    { destruct type; [apply confined_emit; exact I | apply confined_ret]. }
    intros _. apply confined_bind; [apply confined_sleep; exact I|]. intros _.
    apply confined_bind; [apply confined_date_now|]. intros endTime.
    apply confined_bind; [apply confined_modify_globals|]. intros _.
    apply confined_bind; [apply confined_emit; reflexivity|]. intros _.
    apply confined_ret.
  - intros e.
    apply confined_bind; [apply confined_emit; exact I|]. intros _.
    destruct (Nat.leb maxRetries k).
    + apply confined_bind; [apply confined_date_now|]. intros endTime.
      apply confined_bind; [apply confined_modify_globals|]. intros _.
      apply confined_bind; [apply confined_emit; reflexivity|]. intros _.
      apply confined_ret.
    + apply confined_bind; [apply confined_emit; exact I|]. intros _.
      apply confined_bind; [apply confined_sleep; exact I|]. intros _.
      apply confined_ret.
Qed.

Lemma dual_loop_confined (maxRetries : nat) (baseUrl endpointPath : string)
    (payload : Payload) (requestNum : nat) (type : Dual.CallType)
    (gatewayId : Dual.GatewayId) (endpoint : Endpoint) (startTime : Z)
    (fuel k : nat) :
  Routing.confined
    (Routing.on_target baseUrl endpointPath payload type gatewayId endpoint)
    (Dual.loop maxRetries baseUrl endpointPath payload requestNum type
               gatewayId endpoint startTime fuel k).
Proof.
  revert k. induction fuel as [|fuel IH]; intros k; simpl.
  - intros w. exists []. rewrite app_nil_r. split; [reflexivity|constructor].
  - destruct (Nat.leb k maxRetries); [|apply confined_ret].
    apply confined_bind; [apply dual_attempt_confined|].
    intros [r|k'|k']; [apply confined_ret | apply confined_ret | apply IH].
Qed.

(** Every effect of an invocation of the dual runner is on target. *)
Lemma dual_makeRequest_confined (maxRetries : nat)
    (baseUrl endpointPath : string) (payload : Payload) (requestNum : nat)
    (type : Dual.CallType) (gatewayId : Dual.GatewayId)
    (endpoint : Endpoint) :
  Routing.confined
    (Routing.on_target baseUrl endpointPath payload type gatewayId endpoint)
    (Dual.makeRequest maxRetries baseUrl endpointPath payload requestNum type
                      gatewayId endpoint).
Proof.
  unfold Dual.makeRequest.
  apply confined_bind; [apply confined_date_now|].
  intros startTime. apply dual_loop_confined.
Qed.

Lemma on_target_appended_to (baseUrl endpointPath : string)
    (payload : Payload) (type : Dual.CallType) (gatewayId : Dual.GatewayId)
    (endpoint : Endpoint) (path : string) (evs : list Event) :
  Forall (Routing.on_target baseUrl endpointPath payload type gatewayId
                            endpoint) evs ->
  Routing.appended_to path evs
  = if String.eqb (Dual.logFile type gatewayId) path then appended evs else [].
Proof.
  induction 1 as [|ev evs Hev _ IH].
  - simpl. now destruct (String.eqb _ path).
  - destruct ev; simpl; try exact IH.
    simpl in Hev. subst path0. rewrite IH.
    now destruct (String.eqb (Dual.logFile type gatewayId) path).
Qed.

Lemma same_pair_log (g : Dual.GatewayId) (t : Dual.CallType) (c : Dual.Call) :
  String.eqb (Dual.logFile (Dual.call_type c) (Dual.call_gatewayId c))
             (Dual.logFile t g)
  = Dual.same_pair g t c.
Proof.
  unfold Dual.same_pair.
  destruct g, t, (Dual.call_gatewayId c), (Dual.call_type c); reflexivity.
Qed.

(** The effects of a batch, measured by a quantity that adds up along the
    trace, are those of its invocations. *)
Lemma batch_measure {G X A : Type} (m : list Event -> nat) (cost : X -> nat)
    (run : X -> M G A) (xs : list X) (w : World G) (l : list A)
    (w' : World G) :
  (forall x w0 a w1, run x w0 = (Ret a, w1) ->
     m (trace w1) = (m (trace w0) + cost x)%nat) ->
  promise_all (map run xs) w = (Ret l, w') ->
  m (trace w') = (m (trace w) + list_sum (map cost xs))%nat.
Proof.
  intros Hrun. unfold promise_all. generalize (now w) as t0.
  intros t0. revert w l w'.
  induction xs as [|x xs IH]; intros w l w' Hj.
  - simpl in Hj. unfold ret in Hj. injection Hj as <- <-. simpl. lia.
  - simpl in Hj.
    destruct (run x (mkWorld t0 (trace w) (globals w))) as [[a| | |] w1] eqn:Et;
      try discriminate.
    unfold bind in Hj.
    destruct (join_all t0 (map run xs) _) as [[l1| | |] w2] eqn:Hj2;
      try discriminate.
    unfold ret in Hj. injection Hj as <- <-.
    rewrite (IH _ _ _ Hj2). cbn [trace].
    rewrite (Hrun _ _ _ _ Et). cbn [trace]. simpl. lia.
Qed.

Lemma list_sum_indicator {A : Type} (p : A -> bool) (l : list A) :
  list_sum (map (fun x => if p x then 1%nat else 0%nat) l)
  = List.length (filter p l).
Proof.
  induction l as [|x l IH]; simpl; [reflexivity|].
  destruct (p x); simpl; now rewrite IH.
Qed.

(** An invocation adds one line to the log of its pair and none to the
    others. *)
Lemma dual_call_log_lines (maxRetries : nat) (g : Dual.GatewayId)
    (t : Dual.CallType) (c : Dual.Call) (w0 : World Dual.Globals)
    (r : Dual.RequestResult) (w1 : World Dual.Globals) :
  Dual.run_call maxRetries c w0 = (Ret r, w1) ->
  List.length (Routing.appended_to (Dual.logFile t g) (trace w1))
  = (List.length (Routing.appended_to (Dual.logFile t g) (trace w0))
     + if Dual.same_pair g t c then 1 else 0)%nat.
Proof.
  intros Hrun. unfold Dual.run_call in Hrun.
  destruct (dual_makeRequest_spec maxRetries (Dual.call_baseUrl c)
              (Dual.call_endpoint c) (Dual.call_payload c)
              (Dual.call_requestNum c) (Dual.call_type c)
              (Dual.call_gatewayId c) (Dual.call_network c) w0)
    as (r' & w' & evs & k & Hrun' & Htr & _ & _ & _ & _ & _ & _ & _ & _ & _
        & _ & _ & _ & line & Ha & _).
  destruct (dual_makeRequest_confined maxRetries (Dual.call_baseUrl c)
              (Dual.call_endpoint c) (Dual.call_payload c)
              (Dual.call_requestNum c) (Dual.call_type c)
              (Dual.call_gatewayId c) (Dual.call_network c) w0)
    as (evs' & Htr' & Hon).
  rewrite Hrun' in Htr'. cbn [snd] in Htr'. rewrite Htr in Htr'.
  apply app_inv_head in Htr'. subst evs'.
  rewrite Hrun in Hrun'. injection Hrun' as <- <-.
  rewrite Htr, appended_to_app, length_app.
  rewrite (on_target_appended_to _ _ _ _ _ _ (Dual.logFile t g) evs Hon).
  rewrite same_pair_log, Ha.
  now destruct (Dual.same_pair g t c).
Qed.


(** X17. After a batch of the dual script, the log of each gateway and call type
    has grown by one line for each invocation of that pair, and by nothing
    else. *)
Theorem dual_logs_hold_one_entry_per_request (maxRetries : nat)
    (calls : list Dual.Call) (w : World Dual.Globals) :
  exists results w',
    promise_all (map (Dual.run_call maxRetries) calls) w = (Ret results, w')
    /\ forall g t,
         List.length (Routing.appended_to (Dual.logFile t g) (trace w'))
         = (List.length (Routing.appended_to (Dual.logFile t g) (trace w))
            + List.length (filter (Dual.same_pair g t) calls))%nat.
Proof.
  destruct (dual_batch maxRetries calls w)
    as (results & w' & evs & Hrun & _).
  exists results, w'. split; [exact Hrun|]. intros g t.
  rewrite <- list_sum_indicator.
  apply (batch_measure
           (fun tr => List.length (Routing.appended_to (Dual.logFile t g) tr))
           (fun c => if Dual.same_pair g t c then 1%nat else 0%nat)
           (Dual.run_call maxRetries) calls w results w'); [|exact Hrun].
  intros c w0 a w1 Ha. exact (dual_call_log_lines _ _ _ _ _ _ _ Ha).
Qed.

(** ** The values of the prompt file *)

Lemma trim_blank_start (s : jsstring) : trimStart s = [] -> trim s = [].
Proof. intros H. unfold trim. rewrite H. reflexivity. Qed.

Lemma take_line_trimStart (v : jsstring) :
  trimStart (PromptForm.take_line v) <> [] ->
  PromptForm.take_line (trimStart v) = trimStart (PromptForm.take_line v).
Proof.
  induction v as [|c v IH]; intros Hne; [reflexivity|].
  cbn [PromptForm.take_line] in *.
  destruct (is_line_terminator c) eqn:Hlt; [contradiction|].
  cbn [trimStart] in *. destruct (is_space c) eqn:Hs.
  - apply IH. exact Hne.
  - cbn [PromptForm.take_line]. rewrite Hlt. reflexivity.
Qed.

Lemma until_img_key_trimStart (v : jsstring) :
  trimStart (PromptForm.until_img_key v) <> [] ->
  PromptForm.until_img_key (trimStart v)
  = trimStart (PromptForm.until_img_key v).
Proof.
  induction v as [|c v IH]; intros Hne; [reflexivity|].
  cbn [PromptForm.until_img_key] in *.
  destruct (PromptForm.at_img_key (c :: v)) eqn:Hat; [contradiction|].
  cbn [trimStart] in *. destruct (is_space c) eqn:Hs.
  - apply IH. exact Hne.
  - cbn [PromptForm.until_img_key]. rewrite Hat. reflexivity.
Qed.

Lemma take_line_prefix (v : jsstring) :
  v = PromptForm.take_line v
      ++ skipn (List.length (PromptForm.take_line v)) v.
Proof.
  induction v as [|c v IH]; [reflexivity|].
  cbn [PromptForm.take_line].
  destruct (is_line_terminator c); [reflexivity|].
  cbn [List.length skipn app]. now rewrite <- IH.
Qed.

Lemma trimStart_rev_spaces (s ws : jsstring) :
  Forall (fun c => is_space c = true) ws ->
  trimStart (rev (s ++ ws)) = trimStart (rev s).
Proof.
  intros Hws. rewrite rev_app_distr.
  assert (Hrev : Forall (fun c => is_space c = true) (rev ws)).
  { apply Forall_forall. intros c Hc. apply in_rev in Hc.
    rewrite Forall_forall in Hws. auto. }
  induction Hrev as [|c l Hc _ IH]; [reflexivity|].
  cbn [app trimStart]. rewrite Hc. exact IH.
Qed.

(** White space at the end of a text does not show in its trimmed form. *)
Lemma trim_app_spaces (s ws : jsstring) :
  Forall (fun c => is_space c = true) ws -> trim (s ++ ws) = trim s.
Proof.
  intros Hws. unfold trim.
  destruct (trimStart s) as [|x t] eqn:E.
  - destruct (trimStart_split s) as (ws0 & Hws0 & Hs). rewrite E in Hs.
    rewrite app_nil_r in Hs. subst ws0.
    rewrite (trimStart_blank (s ++ ws)) by (apply Forall_app; auto).
    reflexivity.
  - rewrite (trimStart_app s ws) by (rewrite E; discriminate).
    rewrite E. f_equal. exact (trimStart_rev_spaces (x :: t) ws Hws).
Qed.

(** C6 (as amended). The readers look for the keys [llm_prompt=] and
    [img_prompt=]; in dualStressTest.ts white space is allowed around [=].
    The value starts after the first occurrence of the key and is returned
    trimmed.  The [llm_prompt] value runs to the next newline that is
    followed, after optional white space, by [img_prompt], or to the end of
    the file when there is none: it does not stop at the end of the line.
    The [img_prompt] value runs to the end of its line.  This is stated for
    the image script when nothing but white space follows that line, and
    for the readers of dualStressTest.ts when the value is not blank.  If
    the key occurs nowhere in the file, or the file is missing, the reader
    throws an error instead of returning a value. *)
Theorem prompt_values_as_extracted :
  (forall (G : Type) (content : jsstring) (w : World G),
     LlmRetry.readPrompt (Some content) w
     = match PromptForm.after_first (units "llm_prompt=") content with
       | Some v => (Ret (trim (PromptForm.until_img_key v)), w)
       | None =>
         (Throw (mkError "Could not find llm_prompt in prompts file" None), w)
       end)
  /\ (forall (G : Type) (content v : jsstring) (w : World G),
     PromptForm.after_first (units "img_prompt=") content = Some v ->
     Forall (fun c => is_space c = true)
            (skipn (List.length (PromptForm.take_line v)) v) ->
     ImageScript.readPrompt (Some content) w
     = (Ret (trim (PromptForm.take_line v)), w))
  /\ (forall (G : Type) (content : jsstring) (w : World G),
     PromptForm.after_first (units "img_prompt=") content = None ->
     ImageScript.readPrompt (Some content) w
     = (Throw (mkError "Could not find img_prompt in prompts file" None), w))
  /\ (forall (G : Type) (content v : jsstring) (w : World G),
     PromptForm.after_first_eq (units "llm_prompt") content = Some v ->
     trim (PromptForm.until_img_key v) <> [] ->
     Dual.readLLMPrompt (Some content) w
     = (Ret (trim (PromptForm.until_img_key v)), w))
  /\ (forall (G : Type) (content : jsstring) (w : World G),
     PromptForm.after_first_eq (units "llm_prompt") content = None ->
     Dual.readLLMPrompt (Some content) w
     = (Throw (mkError "Could not find llm_prompt in prompts file" None), w))
  /\ (forall (G : Type) (content v : jsstring) (w : World G),
     PromptForm.after_first_eq (units "img_prompt") content = Some v ->
     trim (PromptForm.take_line v) <> [] ->
     Dual.readImagePrompt (Some content) w
     = (Ret (trim (PromptForm.take_line v)), w))
  /\ (forall (G : Type) (content : jsstring) (w : World G),
     PromptForm.after_first_eq (units "img_prompt") content = None ->
     Dual.readImagePrompt (Some content) w
     = (Throw (mkError "Could not find img_prompt in prompts file" None), w))
  /\ (forall key content,
        PromptForm.after_first key content = None
        <-> ~ PromptForm.occurs key content)
  /\ (forall name content,
        PromptForm.after_first_eq name content = None
        <-> ~ PromptForm.occurs_eq name content)
  /\ (forall key pre v,
        (forall p1 p2, pre = p1 ++ p2 -> p2 <> [] ->
           strip_prefix key (p2 ++ key ++ v) = None) ->
        PromptForm.after_first key (pre ++ key ++ v) = Some v)
  /\ (forall (G : Type) (w : World G),
        (exists e, LlmRetry.readPrompt None w = (Throw e, w))
        /\ (exists e, ImageScript.readPrompt None w = (Throw e, w))
        /\ (exists e, Dual.readLLMPrompt None w = (Throw e, w))
        /\ (exists e, Dual.readImagePrompt None w = (Throw e, w))).
Proof.
  repeat apply conj.
  - intros G content w. unfold LlmRetry.readPrompt. run_m.
    rewrite llm_prompt_re_form.
    destruct (PromptForm.after_first (units "llm_prompt=") content);
      reflexivity.
  - intros G content v w Hv Hrest. unfold ImageScript.readPrompt. run_m.
    rewrite img_prompt_re_form, Hv. cbn [option_map]. run_m.
    rewrite (take_line_prefix v) at 1.
    rewrite (trim_app_spaces _ _ Hrest). reflexivity.
  - intros G content w Hv. unfold ImageScript.readPrompt. run_m.
    rewrite img_prompt_re_form, Hv. reflexivity.
  - intros G content v w Hv Hne. unfold Dual.readLLMPrompt. run_m.
    rewrite dual_llm_prompt_re_form, Hv. cbn [option_map]. run_m.
    rewrite until_img_key_trimStart, trim_trimStart; [reflexivity|].
    intros H. apply Hne. apply trim_blank_start. exact H.
  - intros G content w Hv. unfold Dual.readLLMPrompt. run_m.
    rewrite dual_llm_prompt_re_form, Hv. reflexivity.
  - intros G content v w Hv Hne. unfold Dual.readImagePrompt. run_m.
    rewrite dual_img_prompt_re_form, Hv. cbn [option_map]. run_m.
    rewrite take_line_trimStart, trim_trimStart; [reflexivity|].
    intros H. apply Hne. apply trim_blank_start. exact H.
  - intros G content w Hv. unfold Dual.readImagePrompt. run_m.
    rewrite dual_img_prompt_re_form, Hv. reflexivity.
  - apply after_first_none.
  - apply after_first_eq_none.
  - apply after_first_at.
  - intros G w. repeat split; eexists; reflexivity.
Qed.

(** C6 at concrete inputs.  From the file [img_prompt=cat], [llm_prompt=hi]
    the dual script reads the image prompt [cat]; from the file
    [llm_prompt=hi], [img_prompt=cat] with a final newline the image script
    reads [cat]. *)
Lemma prompt_values_as_extracted_witness :
  (PromptForm.after_first_eq (units "img_prompt") PromptSpec.image_then_llm
   = Some (units "cat" ++ [10%N] ++ units "llm_prompt=hi")
   /\ trim (PromptForm.take_line
              (units "cat" ++ [10%N] ++ units "llm_prompt=hi")) <> []
   /\ Dual.readImagePrompt (Some PromptSpec.image_then_llm) (mkWorld 0 [] tt)
      = (Ret (units "cat"), mkWorld 0 [] tt))
  /\ (PromptForm.after_first (units "img_prompt=")
        (units "llm_prompt=hi" ++ [10%N] ++ units "img_prompt=cat" ++ [10%N])
      = Some (units "cat" ++ [10%N])
      /\ Forall (fun c => is_space c = true)
                (skipn (List.length
                          (PromptForm.take_line (units "cat" ++ [10%N])))
                       (units "cat" ++ [10%N]))
      /\ ImageScript.readPrompt
           (Some (units "llm_prompt=hi" ++ [10%N] ++ units "img_prompt=cat"
                  ++ [10%N]))
           (mkWorld 0 [] tt)
         = (Ret (units "cat"), mkWorld 0 [] tt)).
Proof.
  assert (Hv : PromptForm.after_first_eq (units "img_prompt")
                 PromptSpec.image_then_llm
               = Some (units "cat" ++ [10%N] ++ units "llm_prompt=hi"))
    by reflexivity.
  assert (Hne : trim (PromptForm.take_line
                        (units "cat" ++ [10%N] ++ units "llm_prompt=hi"))
                <> []) by discriminate.
  assert (Hw : PromptForm.after_first (units "img_prompt=")
                 (units "llm_prompt=hi" ++ [10%N] ++ units "img_prompt=cat"
                  ++ [10%N])
               = Some (units "cat" ++ [10%N])) by reflexivity.
  assert (Hrest : Forall (fun c => is_space c = true)
                    (skipn (List.length
                              (PromptForm.take_line (units "cat" ++ [10%N])))
                           (units "cat" ++ [10%N])))
    by (repeat constructor).
  split.
  - split; [exact Hv|]. split; [exact Hne|].
    exact (proj1 (proj2 (proj2 (proj2 (proj2 (proj2
                   prompt_values_as_extracted)))))
                 unit PromptSpec.image_then_llm _ (mkWorld 0 [] tt) Hv Hne).
  - split; [exact Hw|]. split; [exact Hrest|].
    exact (proj1 (proj2 prompt_values_as_extracted)
                 unit _ _ (mkWorld 0 [] tt) Hw Hrest).
Defined.

(** C6 as stated fails.  The LLM prompt of a file with two lines is returned
    with both lines by the two readers of [llm_prompt], where the words of
    the specification stop at the end of the first line. *)
Lemma prompt_value_runs_past_line :
  PromptSpec.two_line_prompt = units "llm_prompt=a" ++ [10%N] ++ units "b"
  /\ PromptSpec.value (units "llm_prompt=") PromptSpec.two_line_prompt
     = Some (units "a")
  /\ LlmRetry.readPrompt (Some PromptSpec.two_line_prompt) (mkWorld 0 [] tt)
     = (Ret (units "a" ++ [10%N] ++ units "b"), mkWorld 0 [] tt)
  /\ LlmRetry.readPrompt (Some PromptSpec.two_line_prompt) (mkWorld 0 [] tt)
     <> (Ret (trim (units "a")), mkWorld 0 [] tt)
  /\ Dual.readLLMPrompt (Some PromptSpec.two_line_prompt) (mkWorld 0 [] tt)
     = (Ret (units "a" ++ [10%N] ++ units "b"), mkWorld 0 [] tt)
  /\ Dual.readLLMPrompt (Some PromptSpec.two_line_prompt) (mkWorld 0 [] tt)
     <> (Ret (trim (units "a")), mkWorld 0 [] tt).
Proof.
  repeat split; try (vm_compute; reflexivity);
    vm_compute; discriminate.
Qed.

(** ** What the image prompt readers return *)

(** X19. The two readers of [img_prompt] for every file.  The image script
    returns all that follows the first [img_prompt=] up to the end of the
    file, trimmed; the dual script skips the white space after [=], line
    feeds included, and returns the rest of the line it is on then,
    trimmed.  On the file [img_prompt=cat], [llm_prompt=hi] the first
    returns both lines and the second returns [cat]. *)
Theorem image_prompt_readers_differ :
  (forall (G : Type) (content : jsstring) (w : World G),
     ImageScript.readPrompt (Some content) w
     = match PromptForm.after_first (units "img_prompt=") content with
       | Some v => (Ret (trim v), w)
       | None =>
         (Throw (mkError "Could not find img_prompt in prompts file" None), w)
       end)
  /\ (forall (G : Type) (content : jsstring) (w : World G),
     Dual.readImagePrompt (Some content) w
     = match PromptForm.after_first_eq (units "img_prompt") content with
       | Some v => (Ret (trim (PromptForm.take_line (trimStart v))), w)
       | None =>
         (Throw (mkError "Could not find img_prompt in prompts file" None), w)
       end)
  /\ ImageScript.readPrompt (Some PromptSpec.image_then_llm) (mkWorld 0 [] tt)
     = (Ret (units "cat" ++ [10%N] ++ units "llm_prompt=hi"), mkWorld 0 [] tt)
  /\ Dual.readImagePrompt (Some PromptSpec.image_then_llm) (mkWorld 0 [] tt)
     = (Ret (units "cat"), mkWorld 0 [] tt).
Proof.
  repeat apply conj.
  - intros G content w. unfold ImageScript.readPrompt. run_m.
    rewrite img_prompt_re_form.
    destruct (PromptForm.after_first (units "img_prompt=") content);
      reflexivity.
  - intros G content w. unfold Dual.readImagePrompt. run_m.
    rewrite dual_img_prompt_re_form.
    destruct (PromptForm.after_first_eq (units "img_prompt") content);
      reflexivity.
  - vm_compute. reflexivity.
  - vm_compute. reflexivity.
Qed.
